(** * pysparkplug: payload codec, birth resolution and node session

    A shallow embedding of the Sparkplug B protocol layer of pysparkplug
    ([_payload.py], [_json_payload.py], [_data_ops_node.py],
    [_host_application.py], [_message.py]) together with the properties
    its specification states about it.

    Conventions.
    - A Python exception is a value of [exn]; a computation that may raise
      returns a [result].
    - The bytes handled by [SerializeToString]/[FromString] and by
      [json.dumps]/[json.loads] are library formats; a wire record is
      modelled as the structured message those functions convert, so a
      binary record is a [PbPayload] and a text record a [JsonPayload]; which
      of the two a deployment exchanges is fixed by [use_json_payload].
    - Python integers are [Z]. *)

From Stdlib Require Import ZArith String Ascii.
From stdpp Require Import base option list list_monad strings gmap.

Local Open Scope Z_scope.

(** ** Exceptions and fallible computations *)

Inductive exn : Type :=
| KeyError
| ValueError
| TypeError
| AttributeError
| IndexError.

Inductive result (A : Type) : Type :=
| Ok (a : A)
| Raise (e : exn).

Arguments Ok {A} a.
Arguments Raise {A} e.

#[global] Instance result_ret : MRet result := λ A a, Ok a.

#[global] Instance result_bind : MBind result := λ A B f r,
  match r with
  | Ok a => f a
  | Raise e => Raise e
  end.

#[global] Instance result_fmap : FMap result := λ A B f r,
  match r with
  | Ok a => Ok (f a)
  | Raise e => Raise e
  end.

Definition raises {A} (r : result A) : Prop := ∃ e, r = Raise e.

(** ** The metric collaborator *)

(** Modelled from the spec: the DataType enumeration ([_datatype.py] is not
    among the sources).  The members are the ones the sources name; [UNKNOWN]
    is the sentinel meaning "resolve from birth" and is the value an unset
    protobuf datatype field reads as, the others carry their Sparkplug B
    numbers. *)
Inductive DataType : Type :=
| UNKNOWN
| INT8 | INT16 | INT32 | INT64
| UINT8 | UINT16 | UINT32 | UINT64
| FLOAT | DOUBLE
| BOOLEAN
| STRING
| DATASET
| BYTES
| TEMPLATE.

#[global] Instance DataType_eq_dec : EqDecision DataType.
Proof. solve_decision. Defined.

(** [datatype.value] *)
Definition DataType_value (d : DataType) : Z :=
  match d with
  | UNKNOWN => 0
  | INT8 => 1 | INT16 => 2 | INT32 => 3 | INT64 => 4
  | UINT8 => 5 | UINT16 => 6 | UINT32 => 7 | UINT64 => 8
  | FLOAT => 9 | DOUBLE => 10
  | BOOLEAN => 11
  | STRING => 12
  | DATASET => 16
  | BYTES => 17
  | TEMPLATE => 19
  end.

Definition all_datatypes : list DataType :=
  [UNKNOWN; INT8; INT16; INT32; INT64; UINT8; UINT16; UINT32; UINT64;
   FLOAT; DOUBLE; BOOLEAN; STRING; DATASET; BYTES; TEMPLATE].

(** [DataType(n)]: the member numbered [n], [ValueError] when there is none. *)
Definition DataType_of_value (n : Z) : result DataType :=
  match List.find (λ d, Z.eqb (DataType_value d) n) all_datatypes with
  | Some d => Ok d
  | None => Raise ValueError
  end.

(** Scalar metric values.  Floating-point values are left out of the model. *)
Inductive Scalar : Type :=
| SInt (z : Z)
| SBool (b : bool)
| SStr (s : string).

(** Metadata and property sets are carried through unchanged. *)
Record MetaData : Type := { metadata_repr : string }.
Record PropertySet : Type := { properties_repr : string }.

(** The protobuf metric message.  The sources read and assign [name],
    [alias] and [datatype]; the remaining fields (timestamp, flags, metadata,
    properties and the value) are only ever handled by [Metric.to_pb] and
    [Metric.from_pb] and are kept as uninterpreted content. *)
Record PbMetric : Type := {
  pb_name : option string;
  pb_alias : option Z;
  pb_datatype : option Z;
  pb_rest : list Z
}.

(** Reading an unset protobuf field gives the field's default. *)
Definition pbm_name (m : PbMetric) : string := default EmptyString (pb_name m).
Definition pbm_alias (m : PbMetric) : Z := default 0 (pb_alias m).
Definition pbm_datatype (m : PbMetric) : Z := default 0 (pb_datatype m).

Definition pbm_set_name (n : string) (m : PbMetric) : PbMetric :=
  {| pb_name := Some n; pb_alias := pb_alias m;
     pb_datatype := pb_datatype m; pb_rest := pb_rest m |}.

Definition pbm_set_datatype (d : Z) (m : PbMetric) : PbMetric :=
  {| pb_name := pb_name m; pb_alias := pb_alias m;
     pb_datatype := Some d; pb_rest := pb_rest m |}.

(** ** Text wire records

    The text wire schema: a metric object with the keys [name], [alias],
    [timestamp], [datatype], [is_historical], [is_transient], [is_null],
    [metadata], [properties] and [value]; a key that is absent is [None].
    The value is a scalar, an array, a dataset object or a template object
    (whose metrics are metric objects again). *)
Inductive JsonMetric : Type :=
  mkJsonMetric
    (jm_name : option string)
    (jm_alias : option Z)
    (jm_timestamp : option Z)
    (jm_datatype : option Z)
    (jm_is_historical jm_is_transient jm_is_null : option bool)
    (jm_metadata : option MetaData)
    (jm_properties : option PropertySet)
    (jm_value : option JsonValue)
with JsonValue : Type :=
| JScalar (s : Scalar)
| JArray (l : list Scalar)
| JDataSet (num_of_columns : Z) (columns : list string) (types : list Z)
           (rows : list (list Scalar))
| JTemplate (version template_ref : string) (is_definition : bool)
            (metrics : list JsonMetric) (parameters : list (string * Z * Scalar)).

Definition jm_name (d : JsonMetric) : option string :=
  let 'mkJsonMetric n _ _ _ _ _ _ _ _ _ := d in n.
Definition jm_alias (d : JsonMetric) : option Z :=
  let 'mkJsonMetric _ a _ _ _ _ _ _ _ _ := d in a.
Definition jm_timestamp (d : JsonMetric) : option Z :=
  let 'mkJsonMetric _ _ t _ _ _ _ _ _ _ := d in t.
Definition jm_datatype (d : JsonMetric) : option Z :=
  let 'mkJsonMetric _ _ _ dt _ _ _ _ _ _ := d in dt.
Definition jm_is_historical (d : JsonMetric) : option bool :=
  let 'mkJsonMetric _ _ _ _ h _ _ _ _ _ := d in h.
Definition jm_is_transient (d : JsonMetric) : option bool :=
  let 'mkJsonMetric _ _ _ _ _ t _ _ _ _ := d in t.
Definition jm_is_null (d : JsonMetric) : option bool :=
  let 'mkJsonMetric _ _ _ _ _ _ n _ _ _ := d in n.
Definition jm_metadata (d : JsonMetric) : option MetaData :=
  let 'mkJsonMetric _ _ _ _ _ _ _ md _ _ := d in md.
Definition jm_properties (d : JsonMetric) : option PropertySet :=
  let 'mkJsonMetric _ _ _ _ _ _ _ _ p _ := d in p.
Definition jm_value (d : JsonMetric) : option JsonValue :=
  let 'mkJsonMetric _ _ _ _ _ _ _ _ _ v := d in v.

(** A payload object: the keys [timestamp], [seq], [metrics],
    [bd_seq_metric] and [online], each present or absent. *)
Record JsonPayload : Type := {
  jp_timestamp : option Z;
  jp_seq : option Z;
  jp_metrics : option (list JsonMetric);
  jp_bd_seq_metric : option JsonMetric;
  jp_online : option bool
}.

(** Datasets and templates as [metric_to_json] reads them. *)
Record DataSet : Type := {
  ds_num_of_columns : Z;
  ds_columns : list (string * DataType);
  ds_rows : list (list Scalar)
}.

(** The protobuf [DataSet] and [Template] messages that [metric_from_json]
    builds, field by field as it assigns them. *)
Record PbDataSet : Type := {
  pbds_num_of_columns : Z;
  pbds_columns : list (string * Z);
  pbds_rows : list (list Scalar)
}.

Record PbTemplate : Type := {
  pbt_version : string;
  pbt_template_ref : string;
  pbt_is_definition : bool;
  pbt_metrics : list PbMetric;
  pbt_parameters : list (string * Z * Scalar)
}.

(** Modelled from the spec: the Metric class ([_metric.py] is not among the
    sources): name (optional), alias (optional integer), timestamp, datatype,
    value, flags (historical, transient, null), metadata, properties.  A
    value is a scalar, a byte string, a dataset or template object, one of
    the protobuf messages [metric_from_json] builds, or a list or dictionary
    that [metric_from_json] took over from the wire as it was ([VJson]).
    [payload_from_json] assigns to [metric.name] and [metric.datatype], so a
    metric is taken to be an object whose fields can be assigned. *)
Inductive Metric : Type :=
  mkMetric
    (metric_name : option string)
    (metric_alias : option Z)
    (metric_timestamp : option Z)
    (metric_datatype : DataType)
    (metric_is_historical metric_is_transient metric_is_null : bool)
    (metric_metadata : option MetaData)
    (metric_properties : option PropertySet)
    (metric_value : option MetricValue)
with MetricValue : Type :=
| VScalar (s : Scalar)
| VBytes (bs : list Z)
| VDataSet (d : DataSet)
| VTemplate (version template_ref : string) (is_definition : bool)
            (metrics : list Metric) (parameters : list (string * DataType * Scalar))
| VPbDataSet (d : PbDataSet)
| VPbTemplate (t : PbTemplate)
| VJson (j : JsonValue).

Definition metric_name (m : Metric) : option string :=
  let 'mkMetric n _ _ _ _ _ _ _ _ _ := m in n.
Definition metric_alias (m : Metric) : option Z :=
  let 'mkMetric _ a _ _ _ _ _ _ _ _ := m in a.
Definition metric_timestamp (m : Metric) : option Z :=
  let 'mkMetric _ _ t _ _ _ _ _ _ _ := m in t.
Definition metric_datatype (m : Metric) : DataType :=
  let 'mkMetric _ _ _ d _ _ _ _ _ _ := m in d.
Definition metric_is_historical (m : Metric) : bool :=
  let 'mkMetric _ _ _ _ h _ _ _ _ _ := m in h.
Definition metric_is_transient (m : Metric) : bool :=
  let 'mkMetric _ _ _ _ _ t _ _ _ _ := m in t.
Definition metric_is_null (m : Metric) : bool :=
  let 'mkMetric _ _ _ _ _ _ n _ _ _ := m in n.
Definition metric_metadata (m : Metric) : option MetaData :=
  let 'mkMetric _ _ _ _ _ _ _ md _ _ := m in md.
Definition metric_properties (m : Metric) : option PropertySet :=
  let 'mkMetric _ _ _ _ _ _ _ _ p _ := m in p.
Definition metric_value (m : Metric) : option MetricValue :=
  let 'mkMetric _ _ _ _ _ _ _ _ _ v := m in v.

(** [metric.name = n] and [metric.datatype = d] *)
Definition metric_set_name (n : option string) (m : Metric) : Metric :=
  let 'mkMetric _ a t d h tr nl md p v := m in mkMetric n a t d h tr nl md p v.
Definition metric_set_datatype (d : DataType) (m : Metric) : Metric :=
  let 'mkMetric n a t _ h tr nl md p v := m in mkMetric n a t d h tr nl md p v.

(** ** Birth payloads ([_payload.py], class [Birth]) *)

Record Birth : Type := {
  birth_timestamp : Z;
  birth_seq : Z;
  birth_metrics : list Metric;
  names_mapping : gmap Z string;
  dtypes_mapping : gmap string DataType
}.

(** One iteration of the loop of [Birth.__post_init__]. *)
Definition post_init_step (maps : gmap Z string * gmap string DataType) (metric : Metric)
  : result (gmap Z string * gmap string DataType) :=
  match metric_name metric with
  | None => Raise ValueError
  | Some name =>
    if decide (metric_datatype metric = UNKNOWN) then Raise ValueError
    else
      let names :=
        match metric_alias metric with
        | Some alias => <[alias := name]> (fst maps)
        | None => fst maps
        end in
      Ok (names, <[name := metric_datatype metric]> (snd maps))
  end.

Fixpoint post_init_loop (metrics : list Metric)
  (maps : gmap Z string * gmap string DataType)
  : result (gmap Z string * gmap string DataType) :=
  match metrics with
  | [] => Ok maps
  | metric :: rest => maps' ← post_init_step maps metric; post_init_loop rest maps'
  end.

(** [Birth(timestamp=..., seq=..., metrics=...)]: the dataclass constructor
    followed by [__post_init__]. *)
Definition Birth_new (timestamp seq : Z) (metrics : list Metric) : result Birth :=
  maps ← post_init_loop metrics (∅, ∅);
  Ok {| birth_timestamp := timestamp; birth_seq := seq; birth_metrics := metrics;
        names_mapping := fst maps; dtypes_mapping := snd maps |}.

(** [Birth.get_name] and [Birth.get_dtype]: a dictionary subscript raises
    [KeyError] on a missing key. *)
Definition get_name (birth : Birth) (alias : Z) : result string :=
  match names_mapping birth !! alias with
  | Some n => Ok n
  | None => Raise KeyError
  end.

Definition get_dtype (birth : Birth) (name : string) : result DataType :=
  match dtypes_mapping birth !! name with
  | Some d => Ok d
  | None => Raise KeyError
  end.

(** ** Payload classes ([_payload.py]) *)

Record Data : Type := {
  data_timestamp : Z;
  data_seq : Z;
  data_metrics : list Metric
}.

Record Cmd : Type := {
  cmd_timestamp : Z;
  cmd_metrics : list Metric
}.

(** [bd_seq_metric] is declared a [Metric]; [None] is the Python [None] that
    [DataOpsNode._publish_ndeath] passes for it. *)
Record NDeath : Type := {
  ndeath_timestamp : option Z;
  bd_seq_metric : option Metric
}.

Record DDeath : Type := {
  ddeath_timestamp : Z;
  ddeath_seq : Z
}.

Record State : Type := {
  state_timestamp : Z;
  online : bool
}.

(** The subclasses of [_BasePayload] and their instances. *)
Inductive BaseClass : Type := NBirth | DBirth | NData | DData | NCmd | DCmd.

Inductive BasePayload : Type :=
| BNBirth (b : Birth)
| BDBirth (b : Birth)
| BNData (d : Data)
| BDData (d : Data)
| BNCmd (c : Cmd)
| BDCmd (c : Cmd).

Inductive Payload : Type :=
| PBase (p : BasePayload)
| PNDeath (d : NDeath)
| PDDeath (d : DDeath)
| PState (s : State).

Definition is_birth_class (cls : BaseClass) : bool :=
  match cls with
  | NBirth | DBirth => true
  | _ => false
  end.

Definition is_birth (p : BasePayload) : bool :=
  match p with
  | BNBirth _ | BDBirth _ => true
  | _ => false
  end.

(** [self.timestamp], [self.seq] when [hasattr(self, "seq")], [self.metrics] *)
Definition base_timestamp (p : BasePayload) : Z :=
  match p with
  | BNBirth b | BDBirth b => birth_timestamp b
  | BNData d | BDData d => data_timestamp d
  | BNCmd c | BDCmd c => cmd_timestamp c
  end.

Definition base_seq (p : BasePayload) : option Z :=
  match p with
  | BNBirth b | BDBirth b => Some (birth_seq b)
  | BNData d | BDData d => Some (data_seq d)
  | BNCmd _ | BDCmd _ => None
  end.

Definition base_metrics (p : BasePayload) : list Metric :=
  match p with
  | BNBirth b | BDBirth b => birth_metrics b
  | BNData d | BDData d => data_metrics d
  | BNCmd c | BDCmd c => cmd_metrics c
  end.

(** The keyword arguments the decoders collect before calling [cls]. *)
Record Kwargs : Type := {
  kw_timestamp : Z;
  kw_seq : option Z;
  kw_metrics : option (list Metric);
  kw_bd_seq_metric : option Metric;
  kw_online : option bool
}.

(** The call of [cls] on the collected keywords, for a subclass of
    [_BasePayload]: a dataclass constructor
    raises [TypeError] on a missing or an unexpected keyword; a birth then
    runs [__post_init__]. *)
Definition construct (cls : BaseClass) (kw : Kwargs) : result BasePayload :=
  match kw_bd_seq_metric kw, kw_online kw, kw_metrics kw with
  | None, None, Some metrics =>
    match cls, kw_seq kw with
    | NBirth, Some seq => BNBirth <$> Birth_new (kw_timestamp kw) seq metrics
    | DBirth, Some seq => BDBirth <$> Birth_new (kw_timestamp kw) seq metrics
    | NData, Some seq =>
      Ok (BNData {| data_timestamp := kw_timestamp kw; data_seq := seq;
                    data_metrics := metrics |})
    | DData, Some seq =>
      Ok (BDData {| data_timestamp := kw_timestamp kw; data_seq := seq;
                    data_metrics := metrics |})
    | NCmd, None =>
      Ok (BNCmd {| cmd_timestamp := kw_timestamp kw; cmd_metrics := metrics |})
    | DCmd, None =>
      Ok (BDCmd {| cmd_timestamp := kw_timestamp kw; cmd_metrics := metrics |})
    | _, _ => Raise TypeError
    end
  | _, _, _ => Raise TypeError
  end.

(** The protobuf payload message: [timestamp] and [seq] are optional fields
    with presence ([HasField]), [metrics] is repeated. *)
Record PbPayload : Type := {
  pbp_timestamp : option Z;
  pbp_seq : option Z;
  pbp_metrics : list PbMetric
}.

Definition pb_timestamp_get (p : PbPayload) : Z := default 0 (pbp_timestamp p).
Definition pb_seq_get (p : PbPayload) : Z := default 0 (pbp_seq p).

(** The integers a protobuf [uint64] field holds.  The [timestamp] and
    [seq] fields of the payload message are such fields. *)
Definition uint64 (z : Z) : Prop := 0 ≤ z < 2 ^ 64.

(** Assigning an integer to a [uint64] field: [ValueError] when it does
    not fit. *)
Definition uint64_field (z : Z) : result Z :=
  if decide (uint64 z) then Ok z else Raise ValueError.

(** The record a deployment exchanges, by its [use_json_payload] flag. *)
Definition Wire (use_json_payload : bool) : Type :=
  if use_json_payload then JsonPayload else PbPayload.

(** ** The codec

    [Metric.to_pb] and [Metric.from_pb] belong to the metric collaborator
    and are taken as parameters: [to_pb include_dtype metric] builds the
    protobuf message of a metric, [from_pb] reads one back, and either may
    raise. *)
Section Codec.

Variable to_pb : bool → Metric → result PbMetric.
Variable from_pb : PbMetric → result Metric.

(** *** Text codec ([_json_payload.py]) *)

(** The datatypes whose values [metric_to_json] and [metric_from_json]
    pass through unchanged. *)
Definition json_scalar_datatype (d : DataType) : bool :=
  match d with
  | BOOLEAN | INT8 | INT16 | INT32 | INT64 | UINT8 | UINT16 | UINT32
  | UINT64 | FLOAT | DOUBLE | STRING => true
  | _ => false
  end.

(** What [json.dumps] writes for a value: scalars, lists and dictionaries
    are serialisable, byte strings and objects are not. *)
Definition value_as_json (v : MetricValue) : option JsonValue :=
  match v with
  | VScalar s => Some (JScalar s)
  | VJson j => Some j
  | _ => None
  end.

Definition chars_of (s : string) : list Scalar :=
  (λ c, SStr (String c EmptyString)) <$> list_ascii_of_string s.

Definition dataset_keys : list Scalar :=
  SStr <$> ["num_of_columns"; "columns"; "types"; "rows"]%string.

Definition template_keys : list Scalar :=
  SStr <$> ["version"; "template_ref"; "is_definition"; "metrics";
            "parameters"]%string.

(** [list(metric.value)]: the items of a byte string, a string, a list or
    the keys of a dictionary; anything else is not iterable. *)
Definition py_list (v : MetricValue) : result JsonValue :=
  match v with
  | VBytes bs => Ok (JArray (SInt <$> bs))
  | _ =>
    match value_as_json v with
    | Some (JScalar (SStr s)) => Ok (JArray (chars_of s))
    | Some (JArray l) => Ok (JArray l)
    | Some (JDataSet _ _ _ _) => Ok (JArray dataset_keys)
    | Some (JTemplate _ _ _ _ _) => Ok (JArray template_keys)
    | _ => Raise TypeError
    end
  end.

(** The [DATASET] branch of [metric_to_json].  A dataset built by
    [metric_from_json] holds plain integers as column types, so reading
    [col.type.value] fails on its first column. *)
Definition dataset_to_json (v : MetricValue) : result JsonValue :=
  match v with
  | VDataSet d =>
    Ok (JDataSet (ds_num_of_columns d) (fst <$> ds_columns d)
          ((λ col, DataType_value (snd col)) <$> ds_columns d) (ds_rows d))
  | VPbDataSet d =>
    match pbds_columns d with
    | [] => Ok (JDataSet (pbds_num_of_columns d) [] [] (pbds_rows d))
    | _ :: _ => Raise AttributeError
    end
  | _ => Raise AttributeError
  end.

(** [metric_to_json].  The value of a key is computed where the source
    stores it; a value [json.dumps] cannot write is reported here as the
    [TypeError] that [json.dumps] raises on the finished dictionary.  A
    template built by [metric_from_json] holds protobuf metrics and plain
    integers as parameter types, so it can be converted back only when it
    has neither. *)
Fixpoint metric_to_json (metric : Metric) (include_dtype : bool) {struct metric}
  : result JsonMetric :=
  let 'mkMetric name alias timestamp datatype is_historical is_transient
                is_null metadata properties value := metric in
  jvalue ←
    match value with
    | Some v =>
      if is_null then Ok None
      else if json_scalar_datatype datatype then
        match value_as_json v with
        | Some j => Ok (Some j)
        | None => Raise TypeError
        end
      else
        match datatype with
        | BYTES => Some <$> py_list v
        | DATASET => Some <$> dataset_to_json v
        | TEMPLATE =>
          match v with
          | VTemplate version template_ref is_definition metrics parameters =>
            jmetrics ← mapM (λ m, metric_to_json m include_dtype) metrics;
            Ok (Some (JTemplate version template_ref is_definition jmetrics
                        ((λ p, (p.1.1, DataType_value p.1.2, p.2)) <$> parameters)))
          | VPbTemplate t =>
            match pbt_metrics t, pbt_parameters t with
            | [], [] =>
              Ok (Some (JTemplate (pbt_version t) (pbt_template_ref t)
                          (pbt_is_definition t) [] []))
            | _, _ => Raise AttributeError
            end
          | _ => Raise AttributeError
          end
        | _ => Ok None
        end
    | None => Ok None
    end;
  Ok (mkJsonMetric name alias timestamp
        (if decide (datatype = UNKNOWN) then None else Some (DataType_value datatype))
        (if is_historical then Some true else None)
        (if is_transient then Some true else None)
        (if is_null then Some true else None)
        metadata properties jvalue).

(** [bytes(x)] *)
Definition byte_of (s : Scalar) : result Z :=
  match s with
  | SInt n => if decide (0 ≤ n < 256) then Ok n else Raise ValueError
  | SBool b => Ok (if b then 1 else 0)
  | SStr _ => Raise TypeError
  end.

Definition py_bytes (j : JsonValue) : result (list Z) :=
  match j with
  | JArray l => mapM byte_of l
  | JScalar (SInt n) =>
    if decide (0 ≤ n) then Ok (replicate (Z.to_nat n) 0) else Raise ValueError
  | JScalar (SBool b) => Ok (replicate (if b then 1%nat else 0%nat) 0)
  | JScalar (SStr _) => Raise TypeError
  | JDataSet _ _ _ _ | JTemplate _ _ _ _ _ => Raise TypeError
  end.

(** [data.get(key)] used as a condition *)
Definition truthy (b : option bool) : bool := default false b.

(** [metric_from_json].  The constructor call at its end fills the keywords
    that were not collected with the defaults of [Metric]: no name, alias,
    timestamp, metadata, properties or value, datatype [UNKNOWN], flags
    off.  Subscripting a value that is not a dictionary raises
    [TypeError], a dictionary without the key [KeyError]. *)
Fixpoint metric_from_json (data : JsonMetric) {struct data} : result Metric :=
  let 'mkJsonMetric name alias timestamp jdatatype is_historical is_transient
                    is_null metadata properties jvalue := data in
  datatype ←
    match jdatatype with
    | Some n => Some <$> DataType_of_value n
    | None => Ok None
    end;
  value ←
    match jvalue with
    | Some j =>
      if truthy is_null then Ok None
      else
        match datatype with
        | Some dt =>
          if json_scalar_datatype dt then
            Ok (Some (match j with JScalar s => VScalar s | _ => VJson j end))
          else
            match dt with
            | BYTES => bs ← py_bytes j; Ok (Some (VBytes bs))
            | DATASET =>
              match j with
              | JDataSet num_of_columns columns types rows =>
                Ok (Some (VPbDataSet
                  {| pbds_num_of_columns := num_of_columns;
                     pbds_columns := zip columns types;
                     pbds_rows := rows |}))
              | JTemplate _ _ _ _ _ => Raise KeyError
              | _ => Raise TypeError
              end
            | TEMPLATE =>
              match j with
              | JTemplate version template_ref is_definition metrics parameters =>
                pbs ← mapM (λ metric_data,
                              m ← metric_from_json metric_data; to_pb false m)
                           metrics;
                Ok (Some (VPbTemplate
                  {| pbt_version := version;
                     pbt_template_ref := template_ref;
                     pbt_is_definition := is_definition;
                     pbt_metrics := pbs;
                     pbt_parameters := parameters |}))
              | JDataSet _ _ _ _ => Raise KeyError
              | _ => Raise TypeError
              end
            | _ => Ok None
            end
        | None => Ok None
        end
    | None => Ok None
    end;
  Ok (mkMetric name alias timestamp (default UNKNOWN datatype)
        (truthy is_historical) (truthy is_transient) (truthy is_null)
        metadata properties value).

(** [payload_to_json], on the instances of [_BasePayload], the only
    callers; they all have [metrics], so the branches for [bd_seq_metric]
    and [online] are never reached. *)
Definition payload_to_json (payload : BasePayload) (include_dtypes : bool)
  : result JsonPayload :=
  metrics ← mapM (λ m, metric_to_json m include_dtypes) (base_metrics payload);
  Ok {| jp_timestamp := Some (base_timestamp payload);
        jp_seq := base_seq payload;
        jp_metrics := Some metrics;
        jp_bd_seq_metric := None;
        jp_online := None |}.

(** [birth.get_dtype(metric.name)] for a metric object, whose name may be
    [None]: no key of the mapping is [None]. *)
Definition get_dtype_of (birth : Birth) (name : option string) : result DataType :=
  match name with
  | Some n => get_dtype birth n
  | None => Raise KeyError
  end.

(** [not metric.name] *)
Definition name_missing (name : option string) : bool :=
  match name with
  | None => true
  | Some n => bool_decide (n = EmptyString)
  end.

(** The body of the resolution loop of [payload_from_json]. *)
Definition resolve_json (birth : Birth) (metric : Metric) : result Metric :=
  metric ←
    match metric_alias metric with
    | Some alias =>
      if name_missing (metric_name metric) then
        name ← get_name birth alias; Ok (metric_set_name (Some name) metric)
      else Ok metric
    | None => Ok metric
    end;
  if decide (metric_datatype metric = UNKNOWN) then
    dt ← get_dtype_of birth (metric_name metric);
    Ok (metric_set_datatype dt metric)
  else Ok metric.

(** [payload_from_json] *)
Definition payload_from_json (cls : BaseClass) (raw : JsonPayload)
    (birth : option Birth) : result BasePayload :=
  match jp_timestamp raw with
  | None => Raise KeyError
  | Some timestamp =>
    match jp_metrics raw with
    | Some jmetrics =>
      metrics ← mapM metric_from_json jmetrics;
      metrics ←
        match birth with
        | Some b => mapM (resolve_json b) metrics
        | None => Ok metrics
        end;
      construct cls {| kw_timestamp := timestamp; kw_seq := jp_seq raw;
                       kw_metrics := Some metrics;
                       kw_bd_seq_metric := None; kw_online := None |}
    | None =>
      match jp_bd_seq_metric raw with
      | Some jm =>
        m ← metric_from_json jm;
        construct cls {| kw_timestamp := timestamp; kw_seq := jp_seq raw;
                         kw_metrics := None;
                         kw_bd_seq_metric := Some m; kw_online := None |}
      | None =>
        construct cls {| kw_timestamp := timestamp; kw_seq := jp_seq raw;
                         kw_metrics := None; kw_bd_seq_metric := None;
                         kw_online := jp_online raw |}
      end
    end
  end.

(** *** Binary codec ([_payload.py], class [_BasePayload]) *)

(** The body of the resolution loop of [_decode_protobuf], on the protobuf
    metric: an unset name reads as the empty string, an unset alias as 0
    and an unset datatype as 0, the number of [UNKNOWN]. *)
Definition resolve_pb (birth : Birth) (metric : PbMetric) : result PbMetric :=
  metric ←
    (if decide (pbm_name metric = EmptyString) then
       name ← get_name birth (pbm_alias metric); Ok (pbm_set_name name metric)
     else Ok metric);
  if decide (pbm_datatype metric = DataType_value UNKNOWN) then
    dt ← get_dtype birth (pbm_name metric);
    Ok (pbm_set_datatype (DataType_value dt) metric)
  else Ok metric.

(** [_BasePayload._decode_protobuf].  A birth object is always true as a
    condition, so [if birth] is the test for a supplied birth. *)
Definition _decode_protobuf (cls : BaseClass) (raw : PbPayload)
    (birth : option Birth) : result BasePayload :=
  pbs ←
    match birth with
    | Some b => mapM (resolve_pb b) (pbp_metrics raw)
    | None => Ok (pbp_metrics raw)
    end;
  metrics ← mapM from_pb pbs;
  construct cls {| kw_timestamp := pb_timestamp_get raw;
                   kw_seq := pbp_seq raw;
                   kw_metrics := Some metrics;
                   kw_bd_seq_metric := None; kw_online := None |}.

(** [_BasePayload._encode_protobuf]; [timestamp] and [seq] are carried as
    they are, and what is stated of an encoded payload is stated for
    integers that fit their [uint64] fields. *)
Definition _encode_protobuf (self : BasePayload) (include_dtypes : bool)
  : result PbPayload :=
  pbs ← mapM (to_pb include_dtypes) (base_metrics self);
  Ok {| pbp_timestamp := Some (base_timestamp self);
        pbp_seq := base_seq self;
        pbp_metrics := pbs |}.

(** [decode] of a subclass of [_BasePayload]: [Birth.decode] drops the
    birth it is given, then [_BasePayload.decode] picks the codec. *)
Definition decode (use_json_payload : bool) (cls : BaseClass)
  : Wire use_json_payload → option Birth → result BasePayload :=
  match use_json_payload with
  | true => λ raw birth,
    payload_from_json cls raw (if is_birth_class cls then None else birth)
  | false => λ raw birth,
    _decode_protobuf cls raw (if is_birth_class cls then None else birth)
  end.

(** [encode] of an instance of [_BasePayload]: [Birth.encode] forces
    [include_dtypes], then [_BasePayload.encode] picks the codec. *)
Definition encode (use_json_payload : bool) (self : BasePayload)
    (include_dtypes : bool) : result (Wire use_json_payload) :=
  let include_dtypes := if is_birth self then true else include_dtypes in
  match use_json_payload with
  | true => payload_to_json self include_dtypes
  | false => _encode_protobuf self include_dtypes
  end.

(** *** Death and state payloads *)

(** [NDeath.decode] *)
Definition NDeath_decode (raw : PbPayload) : result NDeath :=
  let timestamp :=
    if negb (bool_decide (is_Some (pbp_timestamp raw)))
    then Some (pb_timestamp_get raw) else None in
  match pbp_metrics raw with
  | [] => Raise IndexError
  | pb :: _ =>
    metric ← from_pb pb;
    Ok {| ndeath_timestamp := timestamp; bd_seq_metric := Some metric |}
  end.

(** [NDeath.encode]: reading [to_pb] off a [bd_seq_metric] that is [None]
    raises [AttributeError]. *)
Definition NDeath_encode (self : NDeath) (include_dtypes : bool) : result PbPayload :=
  let include_dtypes := true in
  match bd_seq_metric self with
  | None => Raise AttributeError
  | Some metric =>
    pb ← to_pb include_dtypes metric;
    Ok {| pbp_timestamp := ndeath_timestamp self; pbp_seq := None;
          pbp_metrics := [pb] |}
  end.

(** [DDeath.decode] and [DDeath.encode] *)
Definition DDeath_decode (raw : PbPayload) : result DDeath :=
  Ok {| ddeath_timestamp := pb_timestamp_get raw; ddeath_seq := pb_seq_get raw |}.

Definition DDeath_encode (self : DDeath) (include_dtypes : bool) : result PbPayload :=
  timestamp ← uint64_field (ddeath_timestamp self);
  seq ← uint64_field (ddeath_seq self);
  Ok {| pbp_timestamp := Some timestamp; pbp_seq := Some seq; pbp_metrics := [] |}.

(** [State.decode] and [State.encode]: always JSON. *)
Definition State_decode (raw : JsonPayload) : result State :=
  match jp_timestamp raw with
  | None => Raise KeyError
  | Some timestamp =>
    match jp_online raw with
    | None => Raise KeyError
    | Some o => Ok {| state_timestamp := timestamp; online := o |}
    end
  end.

Definition State_encode (self : State) (include_dtypes : bool) : result JsonPayload :=
  Ok {| jp_timestamp := Some (state_timestamp self); jp_seq := None;
        jp_metrics := None; jp_bd_seq_metric := None;
        jp_online := Some (online self) |}.

(** [payload.encode(include_dtypes=...)] on any payload: the three classes
    outside [_BasePayload] have one format each and no codec switch. *)
Inductive Encoded : Type :=
| EncPb (p : PbPayload)
| EncJson (j : JsonPayload).

Definition Payload_encode (use_json_payload : bool) (payload : Payload)
    (include_dtypes : bool) : result Encoded :=
  match payload with
  | PBase p =>
    match use_json_payload with
    | true => EncJson <$> encode true p include_dtypes
    | false => EncPb <$> encode false p include_dtypes
    end
  | PNDeath d => EncPb <$> NDeath_encode d include_dtypes
  | PDDeath d => EncPb <$> DDeath_encode d include_dtypes
  | PState s => EncJson <$> State_encode s include_dtypes
  end.

End Codec.

(** ** Topics and messages *)

Inductive MessageType : Type :=
| NBIRTH | NDEATH | NDATA | NCMD
| DBIRTH | DDEATH | DDATA | DCMD
| STATE.

(** The MQTT quality-of-service levels. *)
Inductive QoS : Type := AT_MOST_ONCE | AT_LEAST_ONCE | EXACTLY_ONCE.

(** Modelled from the spec: the Topic class ([_topic.py] is not among the
    sources), with the field accessors the sources use: namespace,
    message type, group, node, device and host identity.  The identities
    are optional: the sources build state topics without a group and
    node topics without a device. *)
Record Topic : Type := {
  namespace : string;
  group_id : option string;
  message_type : MessageType;
  edge_node_id : option string;
  device_id : option string;
  sparkplug_host_id : option string
}.

Definition SPB_NAMESPACE : string := "spBv1.0".

(** [Topic(message_type=..., group_id=..., edge_node_id=...)] *)
Definition node_topic (message_type : MessageType)
    (group_id edge_node_id : option string) : Topic :=
  {| namespace := SPB_NAMESPACE; group_id := group_id;
     message_type := message_type; edge_node_id := edge_node_id;
     device_id := None; sparkplug_host_id := None |}.

(** [_message.py], class [Message] *)
Record Message : Type := {
  topic : Topic;
  payload : Payload;
  qos : QoS;
  retain : bool
}.

(** ** Topic hierarchy ([_host_application.py]) *)

(** [s.split(sep)] for a separator of one character. *)
Fixpoint py_split (sep : ascii) (s : string) : list string :=
  match s with
  | EmptyString => [EmptyString]
  | String c rest =>
    if decide (c = sep) then EmptyString :: py_split sep rest
    else
      match py_split sep rest with
      | [] => [String c EmptyString]
      | w :: ws => String c w :: ws
      end
  end.

(** [sep.join(parts)] *)
Fixpoint py_join (sep : ascii) (parts : list string) : string :=
  match parts with
  | [] => EmptyString
  | [w] => w
  | w :: ws => w +:+ String sep (py_join sep ws)
  end.

Definition SUB_DELIMITER : ascii := ":"%char.

(** [get_topic_hierarchy_from_spb_parris_encoding]: calling [split] on a
    group id or a metric name that is [None] raises [AttributeError]. *)
Definition get_topic_hierarchy_from_spb_parris_encoding
    (message : Message) (metric : Metric) : result (list string) :=
  if negb (bool_decide (namespace (topic message) = SPB_NAMESPACE)) then
    Raise ValueError
  else
    match group_id (topic message) with
    | None => Raise AttributeError
    | Some group =>
      let topic_hierarchy := py_split SUB_DELIMITER group in
      topic_hierarchy ←
        match edge_node_id (topic message), sparkplug_host_id (topic message) with
        | Some _, Some _ => Raise ValueError
        | Some node, None =>
          Ok (topic_hierarchy ++ [node] ++
              match device_id (topic message) with
              | Some device => [device]
              | None => []
              end)
        | None, Some host => Ok (topic_hierarchy ++ [host])
        | None, None => Ok topic_hierarchy
        end;
      match metric_name metric with
      | None => Raise AttributeError
      | Some name => Ok (topic_hierarchy ++ py_split SUB_DELIMITER name)
      end
    end.

(** ** Python dictionaries

    A dictionary keeps its keys in insertion order; assigning to a key that
    is present replaces the value where it stands, assigning to a new key
    appends. *)
Section Dict.

Context {K V : Type} `{EqDecision K}.

Definition dict : Type := list (K * V).

Fixpoint dict_get (k : K) (d : dict) : option V :=
  match d with
  | [] => None
  | (k', v) :: rest => if decide (k = k') then Some v else dict_get k rest
  end.

Fixpoint dict_set (k : K) (v : V) (d : dict) : dict :=
  match d with
  | [] => [(k, v)]
  | (k', v') :: rest =>
    if decide (k = k') then (k, v) :: rest else (k', v') :: dict_set k v rest
  end.

Definition dict_keys (d : dict) : list K := fst <$> d.

Definition dict_values (d : dict) : list V := snd <$> d.

End Dict.

Arguments dict : clear implicits.

(** ** The generic node session ([_data_ops_node.py]) *)

(** The calls a session makes on its transport client, in the order it
    makes them.  [include_dtypes] is [None] where the session does not pass
    it. *)
Inductive ClientCall : Type :=
| client_connect (host : string) (port keepalive : Z) (bind_address : string)
                 (blocking : bool)
| client_disconnect
| client_publish (message : Message) (include_dtypes : option bool)
| client_subscribe (topic : Topic) (qos : QoS)
| client_unsubscribe (topic : Topic).

Definition Identity : Type := option string * option string.

Record DataOpsNode : Type := {
  node_id : string;
  _connected : bool;
  _published_metrics : dict Identity (dict (option string) Metric);
  _retain_birth_certificates : bool
}.

(** [DataOpsNode(node_id, retain_birth_certificates=...)] *)
Definition DataOpsNode_new (node_id : string) (retain_birth_certificates : bool)
  : DataOpsNode :=
  {| node_id := node_id; _connected := false; _published_metrics := [];
     _retain_birth_certificates := retain_birth_certificates |}.

Definition set_connected (b : bool) (self : DataOpsNode) : DataOpsNode :=
  {| node_id := node_id self; _connected := b;
     _published_metrics := _published_metrics self;
     _retain_birth_certificates := _retain_birth_certificates self |}.

Definition set_published_metrics
    (pm : dict Identity (dict (option string) Metric)) (self : DataOpsNode)
  : DataOpsNode :=
  {| node_id := node_id self; _connected := _connected self;
     _published_metrics := pm;
     _retain_birth_certificates := _retain_birth_certificates self |}.

(** What a method call leaves behind: its result, the session object as the
    call left it (also when it raised), the number of clock readings taken
    so far, and the transport calls it made. *)
Record Outcome (A : Type) : Type := {
  res : result A;
  self_after : DataOpsNode;
  time_after : nat;
  calls : list ClientCall
}.

Arguments res {A} o.
Arguments self_after {A} o.
Arguments time_after {A} o.
Arguments calls {A} o.

Definition Method (A : Type) : Type := DataOpsNode → nat → Outcome A.

Definition method_ret {A} (a : A) : Method A := λ self t,
  {| res := Ok a; self_after := self; time_after := t; calls := [] |}.

Definition method_bind {A B} (m : Method A) (f : A → Method B) : Method B :=
  λ self t,
    let o := m self t in
    match res o with
    | Ok a =>
      let o' := f a (self_after o) (time_after o) in
      {| res := res o'; self_after := self_after o'; time_after := time_after o';
         calls := calls o ++ calls o' |}
    | Raise e =>
      {| res := Raise e; self_after := self_after o; time_after := time_after o;
         calls := calls o |}
    end.

Notation "x ⇐ m ;; k" := (method_bind m (λ x, k))
  (at level 100, m at next level, right associativity).
Notation "m ;;; k" := (method_bind m (λ _, k))
  (at level 100, right associativity).

Definition lift {A} (r : result A) : Method A := λ self t,
  {| res := r; self_after := self; time_after := t; calls := [] |}.

Definition get_self : Method DataOpsNode := λ self t,
  {| res := Ok self; self_after := self; time_after := t; calls := [] |}.

Definition update_self (f : DataOpsNode → DataOpsNode) : Method unit := λ self t,
  {| res := Ok tt; self_after := f self; time_after := t; calls := [] |}.

(** A call on the transport client; the client is not among the sources
    and its calls are taken to return: [calls] records what the session
    hands to the transport.  What becomes of a message whose payload the
    transport cannot encode is the subject of [Encoding.client]. *)
Definition client (c : ClientCall) : Method unit := λ self t,
  {| res := Ok tt; self_after := self; time_after := t; calls := [c] |}.

Fixpoint for_each {A} (l : list A) (body : A → Method unit) : Method unit :=
  match l with
  | [] => method_ret tt
  | x :: rest => body x ;;; for_each rest body
  end.

Section Session.

(** [get_current_timestamp] reads the system clock; [clock n] is what its
    [n]-th reading returns. *)
Variable clock : nat → Z.

Definition get_current_timestamp : Method Z := λ self t,
  {| res := Ok (clock t); self_after := self; time_after := S t; calls := [] |}.

(** [{metric.name: metric for metric in metrics}] *)
Definition snapshot_of (metrics : list Metric) : dict (option string) Metric :=
  foldl (λ d metric, dict_set (metric_name metric) metric d) [] metrics.

(** [for metric in metrics: snapshot[metric.name] = metric] *)
Definition merge_into (snapshot : dict (option string) Metric) (metrics : list Metric)
  : dict (option string) Metric :=
  foldl (λ d metric, dict_set (metric_name metric) metric d) snapshot metrics.

(** [DataOpsNode._publish_nbirth] *)
Definition _publish_nbirth (group_id edge_node_id : option string)
    (metrics : list Metric) : Method unit :=
  let topic := node_topic NBIRTH group_id edge_node_id in
  timestamp ⇐ get_current_timestamp ;;
  payload ⇐ lift (Birth_new timestamp 0 metrics) ;;
  self ⇐ get_self ;;
  let message := {| topic := topic; payload := PBase (BNBirth payload);
                    qos := AT_MOST_ONCE;
                    retain := _retain_birth_certificates self |} in
  client (client_publish message (Some true)).

(** [DataOpsNode._publish_ndeath] *)
Definition _publish_ndeath (group_id edge_node_id : option string) : Method unit :=
  let topic := node_topic NDEATH group_id edge_node_id in
  timestamp ⇐ get_current_timestamp ;;
  let payload := {| ndeath_timestamp := Some timestamp; bd_seq_metric := None |} in
  let message := {| topic := topic; payload := PNDeath payload;
                    qos := AT_MOST_ONCE; retain := false |} in
  client (client_publish message None).

(** [DataOpsNode.connect] hands [on_connect_callback] to the client, which
    calls it once the connection is made. *)
Definition connect (host : string) (port keepalive : Z) (bind_address : string)
    (blocking : bool) : Method unit :=
  client (client_connect host port keepalive bind_address blocking).

Definition on_connect_callback : Method unit :=
  update_self (set_connected true) ;;;
  self ⇐ get_self ;;
  for_each (_published_metrics self)
    (λ item, _publish_nbirth item.1.1 item.1.2 (dict_values item.2)).

(** [DataOpsNode.disconnect] *)
Definition disconnect : Method unit :=
  self ⇐ get_self ;;
  (if _connected self then
     for_each (_published_metrics self)
       (λ item, _publish_ndeath item.1.1 item.1.2)
   else method_ret tt) ;;;
  client client_disconnect ;;;
  update_self (set_connected false).

(** [DataOpsNode.subscribe] and [DataOpsNode.unsubscribe] *)
Definition subscribe (topic : Topic) (qos : QoS) : Method unit :=
  client (client_subscribe topic qos).

Definition unsubscribe (topic : Topic) : Method unit :=
  client (client_unsubscribe topic).

(** [DataOpsNode.publish] *)
Definition publish (topic : Topic) (metrics : list Metric) (qos : QoS)
    (retain : bool) : Method unit :=
  let group_id := group_id topic in
  let edge_node_id := edge_node_id topic in
  let key := (group_id, edge_node_id) in
  self ⇐ get_self ;;
  match dict_get key (_published_metrics self) with
  | None =>
    update_self (set_published_metrics
                   (dict_set key (snapshot_of metrics) (_published_metrics self))) ;;;
    _publish_nbirth group_id edge_node_id metrics
  | Some snapshot =>
    update_self (set_published_metrics
                   (dict_set key (merge_into snapshot metrics)
                      (_published_metrics self))) ;;;
    timestamp ⇐ get_current_timestamp ;;
    let payload := {| data_timestamp := timestamp; data_seq := 0;
                      data_metrics := metrics |} in
    let message := {| topic := topic; payload := PBase (BNData payload);
                      qos := qos; retain := retain |} in
    client (client_publish message (Some true))
  end.

(** [DataOpsNode.rebirth]: an empty snapshot is false as a condition; the
    other branch only logs. *)
Definition rebirth (group_id edge_node_id : option string) : Method unit :=
  let key := (group_id, edge_node_id) in
  self ⇐ get_self ;;
  match dict_get key (_published_metrics self) with
  | Some (item :: rest) =>
    _publish_nbirth group_id edge_node_id (dict_values (item :: rest))
  | _ => method_ret tt
  end.

(** The method calls a session receives, from its caller or, for
    [on_connect_callback], from the transport. *)
Inductive Call : Type :=
| call_connect (host : string) (port keepalive : Z) (bind_address : string)
               (blocking : bool)
| call_on_connect
| call_disconnect
| call_subscribe (topic : Topic) (qos : QoS)
| call_unsubscribe (topic : Topic)
| call_publish (topic : Topic) (metrics : list Metric) (qos : QoS) (retain : bool)
| call_rebirth (group_id edge_node_id : option string).

Definition run (c : Call) : Method unit :=
  match c with
  | call_connect host port keepalive bind_address blocking =>
    connect host port keepalive bind_address blocking
  | call_on_connect => on_connect_callback
  | call_disconnect => disconnect
  | call_subscribe topic qos => subscribe topic qos
  | call_unsubscribe topic => unsubscribe topic
  | call_publish topic metrics qos retain => publish topic metrics qos retain
  | call_rebirth group_id edge_node_id => rebirth group_id edge_node_id
  end.

(** The sessions that exist: a new one, and whatever a method call leaves,
    whether it returned or raised. *)
Inductive reachable : DataOpsNode → Prop :=
| reachable_new node_id retain_birth_certificates :
    reachable (DataOpsNode_new node_id retain_birth_certificates)
| reachable_call self t c :
    reachable self → reachable (self_after (run c self t)).

(** The messages among a list of transport calls, and the identity a
    message is addressed to. *)
Definition published (cs : list ClientCall) : list Message :=
  omap (λ c, match c with client_publish m _ => Some m | _ => None end) cs.

Definition identity_of (m : Message) : Identity :=
  (group_id (topic m), edge_node_id (topic m)).

Definition is_birth_message (m : Message) : bool :=
  match message_type (topic m), payload m with
  | NBIRTH, PBase (BNBirth _) => true
  | _, _ => false
  end.

Definition is_data_message (m : Message) : bool :=
  match payload m with
  | PBase (BNData _) => true
  | _ => false
  end.

Definition is_death_message (m : Message) : bool :=
  match message_type (topic m), payload m with
  | NDEATH, PNDeath _ => true
  | _, _ => false
  end.

End Session.

(** ** Example data

    A metric codec for integer-valued metrics without timestamp, flags,
    metadata or properties.  It stands in for [Metric.to_pb] and
    [Metric.from_pb] where a statement is evaluated on concrete input. *)
Definition int_to_pb (include_dtype : bool) (m : Metric) : result PbMetric :=
  match metric_value m with
  | Some (VScalar (SInt z)) =>
    Ok {| pb_name := metric_name m; pb_alias := metric_alias m;
          pb_datatype :=
            if include_dtype then Some (DataType_value (metric_datatype m)) else None;
          pb_rest := [z] |}
  | _ => Raise TypeError
  end.

Definition int_from_pb (pb : PbMetric) : result Metric :=
  dt ← DataType_of_value (pbm_datatype pb);
  match pb_rest pb with
  | [z] =>
    Ok (mkMetric (pb_name pb) (pb_alias pb) None dt false false false None None
          (Some (VScalar (SInt z))))
  | _ => Raise ValueError
  end.

(** The birth metric [{name: "a", alias: 1, datatype: INT32}] and the birth
    that holds it. *)
Definition metric_a : Metric :=
  mkMetric (Some "a"%string) (Some 1) None INT32 false false false None None None.

Definition birth_a : Birth :=
  {| birth_timestamp := 0; birth_seq := 0; birth_metrics := [metric_a];
     names_mapping := {[ 1 := "a"%string ]};
     dtypes_mapping := {[ "a"%string := INT32 ]} |}.

(** A clock that counts its readings. *)
Definition tick_clock (n : nat) : Z := Z.of_nat n.

(** ** Specification predicates *)

(** What [Birth.__post_init__] checks of a metric. *)
Definition birth_accepts (metric : Metric) : Prop :=
  is_Some (metric_name metric) ∧ metric_datatype metric ≠ UNKNOWN.

Definition birth_rejects (metric : Metric) : Prop :=
  metric_name metric = None ∨ metric_datatype metric = UNKNOWN.


(** A metric whose name is the empty string. *)
Definition metric_empty_name : Metric :=
  mkMetric (Some EmptyString) None None INT32 false false false None None
    (Some (VScalar (SInt 7))).

(** A metric without a name and one without a datatype. *)
Definition metric_no_name : Metric :=
  mkMetric None (Some 2) None INT32 false false false None None
    (Some (VScalar (SInt 7))).

Definition metric_no_datatype : Metric :=
  mkMetric (Some "b"%string) None None UNKNOWN false false false None None
    (Some (VScalar (SInt 7))).

(** The keywords of a birth constructor call. *)
Definition birth_kwargs (timestamp seq : Z) (metrics : list Metric) : Kwargs :=
  {| kw_timestamp := timestamp; kw_seq := Some seq; kw_metrics := Some metrics;
     kw_bd_seq_metric := None; kw_online := None |}.

(** The name a binary metric has once [_decode_protobuf] has resolved it
    against a birth: its own, or the one the birth maps its alias to. *)
Definition pb_resolved_name (birth : Birth) (m : PbMetric) : option string :=
  if decide (pbm_name m = EmptyString) then names_mapping birth !! pbm_alias m
  else Some (pbm_name m).

(** A binary metric is resolved into [m'] against a birth: a missing name
    comes from the alias-to-name map, an [UNKNOWN] datatype from the
    name-to-datatype map at the resolved name, and the rest is unchanged. *)
Definition pb_resolved (birth : Birth) (m m' : PbMetric) : Prop :=
  pb_alias m' = pb_alias m ∧ pb_rest m' = pb_rest m
  ∧ (if decide (pbm_name m = EmptyString)
     then names_mapping birth !! pbm_alias m = Some (pbm_name m')
     else pb_name m' = pb_name m)
  ∧ (if decide (pbm_datatype m = DataType_value UNKNOWN)
     then ∃ dt, dtypes_mapping birth !! pbm_name m' = Some dt
                ∧ pbm_datatype m' = DataType_value dt
     else pb_datatype m' = pb_datatype m).


(** The same for a metric object in [payload_from_json], where the alias
    is looked up only when there is one. *)
Definition json_resolved_name (birth : Birth) (m : Metric) : result (option string) :=
  match metric_alias m with
  | Some alias =>
    if name_missing (metric_name m) then Some <$> get_name birth alias
    else Ok (metric_name m)
  | None => Ok (metric_name m)
  end.

Definition json_resolved (birth : Birth) (m m' : Metric) : Prop :=
  json_resolved_name birth m = Ok (metric_name m')
  ∧ (if decide (metric_datatype m = UNKNOWN)
     then get_dtype_of birth (metric_name m') = Ok (metric_datatype m')
     else metric_datatype m' = metric_datatype m)
  ∧ m' = metric_set_datatype (metric_datatype m') (metric_set_name (metric_name m') m).


(** The data payload [{alias: 1, value: 5}], without name or datatype, as a
    binary and as a text record. *)
Definition pb_alias_1_value_5 : PbPayload :=
  {| pbp_timestamp := Some 10; pbp_seq := Some 0;
     pbp_metrics := [{| pb_name := None; pb_alias := Some 1;
                        pb_datatype := None; pb_rest := [5] |}] |}.

Definition json_alias_1_value_5 : JsonPayload :=
  {| jp_timestamp := Some 10; jp_seq := Some 0;
     jp_metrics := Some [mkJsonMetric None (Some 1) None None None None None
                           None None (Some (JScalar (SInt 5)))];
     jp_bd_seq_metric := None; jp_online := None |}.

(** The resolved metric [{name: "a", alias: 1, datatype: INT32, value}]. *)
Definition resolved_metric_a (value : option MetricValue) : Metric :=
  mkMetric (Some "a"%string) (Some 1) None INT32 false false false None None value.





(** The class of an instance of [_BasePayload]. *)
Definition class_of (p : BasePayload) : BaseClass :=
  match p with
  | BNBirth _ => NBirth
  | BDBirth _ => DBirth
  | BNData _ => NData
  | BDData _ => DData
  | BNCmd _ => NCmd
  | BDCmd _ => DCmd
  end.

(** A birth whose mappings are the ones [__post_init__] derives from its
    metrics, as every constructed birth is. *)
Definition birth_wf (b : Birth) : Prop :=
  Birth_new (birth_timestamp b) (birth_seq b) (birth_metrics b) = Ok b.

Definition payload_wf (p : BasePayload) : Prop :=
  match p with
  | BNBirth b | BDBirth b => birth_wf b
  | _ => True
  end.

(** Metrics the text codec carries without loss: no value, or a scalar
    value under a scalar datatype, or bytes under [BYTES]. *)
Definition json_plain (m : Metric) : Prop :=
  match metric_value m with
  | None => True
  | Some (VScalar _) =>
    metric_is_null m = false ∧ json_scalar_datatype (metric_datatype m) = true
  | Some (VBytes bs) =>
    metric_is_null m = false ∧ metric_datatype m = BYTES
    ∧ Forall (λ b, 0 ≤ b < 256) bs
  | Some _ => False
  end.

(** The node death [{timestamp: 5, bd_seq_metric: bdSeq}] and its metric. *)
Definition metric_bdseq : Metric :=
  mkMetric (Some "bdSeq"%string) None None INT64 false false false None None
    (Some (VScalar (SInt 0))).

Definition ndeath_5 : NDeath :=
  {| ndeath_timestamp := Some 5; bd_seq_metric := Some metric_bdseq |}.

Definition pb_bdseq : PbMetric :=
  {| pb_name := Some "bdSeq"%string; pb_alias := None; pb_datatype := Some 4;
     pb_rest := [0] |}.

(** ** Messages of the node session *)

(** The death message [_publish_ndeath] builds for an identity at a given
    clock reading, and the calls a loop of [_publish_ndeath] over a list
    of identities makes from clock reading [t] on. *)
Definition death_message (timestamp : Z) (id : Identity) : Message :=
  {| topic := node_topic NDEATH id.1 id.2;
     payload := PNDeath {| ndeath_timestamp := Some timestamp;
                           bd_seq_metric := None |};
     qos := AT_MOST_ONCE; retain := false |}.

Fixpoint death_calls (clock : nat → Z) (t : nat) (ids : list Identity)
  : list ClientCall :=
  match ids with
  | [] => []
  | id :: rest =>
    client_publish (death_message (clock t) id) None :: death_calls clock (S t) rest
  end.

(** The birth message [_publish_nbirth] builds, and the data message
    [publish] builds. *)
Definition birth_message (self : DataOpsNode) (id : Identity) (b : Birth) : Message :=
  {| topic := node_topic NBIRTH id.1 id.2;
     payload := PBase (BNBirth b);
     qos := AT_MOST_ONCE; retain := _retain_birth_certificates self |}.

Definition data_message (topic : Topic) (timestamp : Z) (metrics : list Metric)
    (qos : QoS) (retain : bool) : Message :=
  {| topic := topic;
     payload := PBase (BNData {| data_timestamp := timestamp; data_seq := 0;
                                 data_metrics := metrics |});
     qos := qos; retain := retain |}.

(** The last metric of a list that bears a given name. *)
Definition last_named (name : option string) (metrics : list Metric) : option Metric :=
  last (filter (λ m, metric_name m = name) metrics).

(** ** Example sessions *)

Definition topic_n1 : Topic := node_topic NDATA (Some "G"%string) (Some "n1"%string).
Definition topic_n2 : Topic := node_topic NDATA (Some "G"%string) (Some "n2"%string).

Definition metric_b : Metric :=
  mkMetric (Some "b"%string) None None INT32 false false false None None
    (Some (VScalar (SInt 2))).

(** A new session, the session after a first publish to [topic_n1], and a
    connected session that has published to two identities. *)
Definition session_new : DataOpsNode := DataOpsNode_new "node" true.

Definition session_one : DataOpsNode :=
  self_after (run tick_clock (call_publish topic_n1 [metric_a] AT_LEAST_ONCE false)
                session_new 0%nat).

Definition session_two : DataOpsNode :=
  self_after (run tick_clock call_on_connect
    (self_after (run tick_clock (call_publish topic_n2 [metric_b] AT_LEAST_ONCE false)
                   session_one 1%nat)) 2%nat).

(** The session after a first publish of a metric without datatype. *)
Definition session_rejected : DataOpsNode :=
  self_after (publish tick_clock topic_n1 [metric_no_datatype] AT_MOST_ONCE false
                session_new 0%nat).

(** ** Example messages *)

(** A message on group "Plant:Area" and node "Line1" in a given
    namespace, and the metric "Temp:Sensor1". *)
Definition plant_message (namespace : string) : Message :=
  {| topic := {| namespace := namespace; group_id := Some "Plant:Area"%string;
                 message_type := NDATA; edge_node_id := Some "Line1"%string;
                 device_id := None; sparkplug_host_id := None |};
     payload := PBase (BNData {| data_timestamp := 0; data_seq := 0;
                                 data_metrics := [] |});
     qos := AT_MOST_ONCE; retain := false |}.

Definition metric_temp : Metric :=
  mkMetric (Some "Temp:Sensor1"%string) None None INT32 false false false None None
    (Some (VScalar (SInt 21))).

(** The path the derivation builds between the group and the metric
    name: the node and, when there is one, the device, or the host; the
    two are exclusive. *)
Definition identity_segments (t : Topic) : result (list string) :=
  match edge_node_id t, sparkplug_host_id t with
  | Some _, Some _ => Raise ValueError
  | Some node, None =>
    Ok (node :: match device_id t with Some device => [device] | None => [] end)
  | None, Some host => Ok [host]
  | None, None => Ok []
  end.

(** The number of occurrences of a character in a string. *)
Fixpoint count_char (c : ascii) (s : string) : nat :=
  match s with
  | EmptyString => 0%nat
  | String c' rest => ((if decide (c' = c) then 1 else 0) + count_char c rest)%nat
  end.

(** A host state message as [HostApplication._setup_will] addresses it:
    a host id and no group id. *)
Definition state_message : Message :=
  {| topic := {| namespace := SPB_NAMESPACE; group_id := None;
                 message_type := STATE; edge_node_id := None;
                 device_id := None; sparkplug_host_id := Some "host"%string |};
     payload := PState {| state_timestamp := 0; online := true |};
     qos := AT_MOST_ONCE; retain := true |}.

(** A text record whose first metric has a datatype number that is not a
    member of the enumeration and whose second metric carries alias 99
    only. *)
Definition json_bad_datatype_then_alias_99 : JsonPayload :=
  {| jp_timestamp := Some 10; jp_seq := Some 0;
     jp_metrics := Some [mkJsonMetric (Some "a"%string) None None (Some 99)
                           None None None None None None;
                         mkJsonMetric None (Some 99) None (Some 3)
                           None None None None None (Some (JScalar (SInt 5)))];
     jp_bd_seq_metric := None; jp_online := None |}.

(** ** Further specification predicates and example data *)

(** The last metric of a list that carries a given alias. *)
Definition last_with_alias (alias : Z) (metrics : list Metric) : option Metric :=
  last (filter (λ m, metric_alias m = Some alias) metrics).

(** The command classes, the only subclasses of [_BasePayload] without a
    sequence number. *)
Definition is_cmd_class (cls : BaseClass) : bool :=
  match cls with
  | NCmd | DCmd => true
  | _ => false
  end.

(** A metric with its value taken away. *)
Definition metric_drop_value (m : Metric) : Metric :=
  let 'mkMetric n a t d h tr nl md p _ := m in mkMetric n a t d h tr nl md p None.

(** Two metrics that share alias 1, and one that reuses the name "a". *)
Definition metric_a_again : Metric :=
  mkMetric (Some "a"%string) (Some 7) None INT64 false false false None None None.

Definition metric_c_alias_1 : Metric :=
  mkMetric (Some "c"%string) (Some 1) None BOOLEAN false false false None None None.

(** Integer-valued metrics, which [int_to_pb] and [int_from_pb] carry. *)
Definition metric_x : Metric :=
  mkMetric (Some "x"%string) (Some 3) None INT32 false false false None None
    (Some (VScalar (SInt 11))).

Definition metric_bytes : Metric :=
  mkMetric (Some "raw"%string) None (Some 4) BYTES true false false None None
    (Some (VBytes [0; 127; 255])).

Definition data_x : BasePayload :=
  BNData {| data_timestamp := 10; data_seq := 0; data_metrics := [metric_x] |}.

Definition cmd_plain : BasePayload :=
  BDCmd {| cmd_timestamp := 10; cmd_metrics := [metric_x; metric_bytes; metric_a] |}.

(** A metric whose datatype is [UNKNOWN] although it has a value. *)
Definition metric_unknown_valued : Metric :=
  mkMetric None (Some 1) None UNKNOWN false false false None None
    (Some (VScalar (SInt 5))).

(** ** Specification predicates of the node session *)

(** A session as some sequence of method calls has left it, starting from
    a given session. *)
Inductive evolves (clock : nat → Z) : DataOpsNode → DataOpsNode → Prop :=
| evolves_refl self : evolves clock self self
| evolves_call self self' t c :
    evolves clock self self' →
    evolves clock self (self_after (run clock c self' t)).

(** A snapshot files every metric under the metric's own name, once. *)
Definition snapshot_wf (snapshot : dict (option string) Metric) : Prop :=
  NoDup (dict_keys snapshot)
  ∧ Forall (λ entry, metric_name entry.2 = entry.1) snapshot.

(** What the session hands to the transport's [publish]: a node birth or
    node data payload with sequence number 0 and datatypes asked for, a
    birth with [AT_MOST_ONCE]; or a node death without metric, without
    [include_dtypes]. *)
Definition session_publication (c : ClientCall) : Prop :=
  match c with
  | client_publish m include_dtypes =>
    match payload m with
    | PBase (BNBirth b) =>
      birth_seq b = 0 ∧ include_dtypes = Some true ∧ qos m = AT_MOST_ONCE
      ∧ message_type (topic m) = NBIRTH
    | PBase (BNData d) => data_seq d = 0 ∧ include_dtypes = Some true
    | PNDeath d =>
      bd_seq_metric d = None ∧ include_dtypes = None
      ∧ message_type (topic m) = NDEATH
    | _ => False
    end
  | _ => True
  end.

(** A session in which the identity of [topic_n1] holds a metric without
    datatype after a data publish, behind an identity that is in order. *)
Definition session_poisoned : DataOpsNode :=
  self_after (publish tick_clock topic_n1 [metric_no_datatype] AT_MOST_ONCE false
    (self_after (publish tick_clock topic_n1 [metric_a] AT_MOST_ONCE false
      (self_after (publish tick_clock topic_n2 [metric_b] AT_MOST_ONCE false
                     session_new 0%nat)) 1%nat)) 2%nat).

(** A transport call whose payload a receiver can read back: a birth,
    data or command payload is published with datatypes asked for and,
    when a birth, is a constructed one. *)
Definition session_encodable (c : ClientCall) : Prop :=
  match c with
  | client_publish m include_dtypes =>
    match payload m with
    | PBase p => include_dtypes = Some true ∧ payload_wf p
    | _ => True
    end
  | _ => True
  end.

(** ** Integers on the wire *)

(** A payload whose timestamp and sequence number fit their fields. *)
Definition payload_fits (p : BasePayload) : Prop :=
  uint64 (base_timestamp p) ∧ ∀ seq, base_seq p = Some seq → uint64 seq.

(** A device death within the range of its fields, and one whose sequence
    number is not. *)
Definition ddeath_5_3 : DDeath := {| ddeath_timestamp := 5; ddeath_seq := 3 |}.

Definition ddeath_5_minus_1 : DDeath :=
  {| ddeath_timestamp := 5; ddeath_seq := -1 |}.

(** Birth records whose one metric is [{alias: 1, datatype: INT32}] with
    value 5 and without name: a binary record with a sequence number, and
    a text record without one. *)
Definition pb_birth_without_name : PbPayload :=
  {| pbp_timestamp := Some 10; pbp_seq := Some 0;
     pbp_metrics := [{| pb_name := None; pb_alias := Some 1;
                        pb_datatype := Some 3; pb_rest := [5] |}] |}.

Definition json_birth_without_seq : JsonPayload :=
  {| jp_timestamp := Some 10; jp_seq := None;
     jp_metrics := Some [mkJsonMetric None (Some 1) None (Some 3) None None None
                           None None (Some (JScalar (SInt 5)))];
     jp_bd_seq_metric := None; jp_online := None |}.

(** * The node session over a transport that encodes *)

(** Modelled from the spec: the transport's [publish] ([_client.py] is not
    among the sources).  The sessions hand it a message that holds the
    payload object, together with [include_dtypes], and nothing in the
    sources of the sessions encodes a payload: the transport calls the
    payload's [encode] with the [include_dtypes] it is given, [False] when
    it is given none, and sends the bytes.  An error of [encode] is the
    caller's and nothing is sent; the other calls on the transport return.
    [calls] holds the calls that returned. *)
Module Encoding.

Section Session.

Variable clock : nat → Z.
Variable to_pb : bool → Metric → result PbMetric.
Variable use_json_payload : bool.

Definition client (c : ClientCall) : Method unit := λ self t,
  match c with
  | client_publish message include_dtypes =>
    match Payload_encode to_pb use_json_payload (payload message)
            (default false include_dtypes) with
    | Ok _ => {| res := Ok tt; self_after := self; time_after := t; calls := [c] |}
    | Raise e => {| res := Raise e; self_after := self; time_after := t; calls := [] |}
    end
  | _ => {| res := Ok tt; self_after := self; time_after := t; calls := [c] |}
  end.

(** [DataOpsNode._publish_ndeath] *)
Definition _publish_ndeath (group_id edge_node_id : option string) : Method unit :=
  let topic := node_topic NDEATH group_id edge_node_id in
  timestamp ⇐ get_current_timestamp clock ;;
  let payload := {| ndeath_timestamp := Some timestamp; bd_seq_metric := None |} in
  let message := {| topic := topic; payload := PNDeath payload;
                    qos := AT_MOST_ONCE; retain := false |} in
  client (client_publish message None).

(** [DataOpsNode.disconnect] *)
Definition disconnect : Method unit :=
  self ⇐ get_self ;;
  (if _connected self then
     for_each (_published_metrics self)
       (λ item, _publish_ndeath item.1.1 item.1.2)
   else method_ret tt) ;;;
  client client_disconnect ;;;
  update_self (set_connected false).

End Session.

End Encoding.

(** * The host session ([_host_application.py], class [HostApplication]) *)

Module Host.

(** The calls a host session makes on its transport client, in the order
    it makes them; [client_set_will] registers the last will.  The
    handlers given to [subscribe] and to the constructor are user code that
    the transport calls; they are left out, as for the node session. *)
Inductive ClientCall : Type :=
| client_set_will (message : Message)
| client_connect (host : string) (port keepalive : Z) (bind_address : string)
                 (blocking : bool)
| client_disconnect
| client_publish (message : Message) (include_dtypes : option bool)
| client_subscribe (topic : Topic) (qos : QoS)
| client_unsubscribe (topic : Topic).

Record HostApplication : Type := {
  host_id : string;
  _connected : bool
}.

Definition set_connected (b : bool) (self : HostApplication) : HostApplication :=
  {| host_id := host_id self; _connected := b |}.

(** Modelled from the spec: the Topic constructor ([_topic.py] is not among
    the sources) called with keywords, taken to store the identities it is
    given under the namespace of the protocol. *)
Definition Topic_new (message_type : MessageType)
    (group_id edge_node_id device_id sparkplug_host_id : option string) : Topic :=
  {| namespace := SPB_NAMESPACE; group_id := group_id;
     message_type := message_type; edge_node_id := edge_node_id;
     device_id := device_id; sparkplug_host_id := sparkplug_host_id |}.

(** What a method call leaves behind: its result, the host object as the
    call left it (also when it raised), the number of clock readings taken
    so far, and the transport calls it made. *)
Record Outcome (A : Type) : Type := {
  res : result A;
  self_after : HostApplication;
  time_after : nat;
  calls : list ClientCall
}.

Arguments res {A} o.
Arguments self_after {A} o.
Arguments time_after {A} o.
Arguments calls {A} o.

Definition Method (A : Type) : Type := HostApplication → nat → Outcome A.

Definition method_ret {A} (a : A) : Method A := λ self t,
  {| res := Ok a; self_after := self; time_after := t; calls := [] |}.

Definition method_bind {A B} (m : Method A) (f : A → Method B) : Method B :=
  λ self t,
    let o := m self t in
    match res o with
    | Ok a =>
      let o' := f a (self_after o) (time_after o) in
      {| res := res o'; self_after := self_after o'; time_after := time_after o';
         calls := calls o ++ calls o' |}
    | Raise e =>
      {| res := Raise e; self_after := self_after o; time_after := time_after o;
         calls := calls o |}
    end.

Declare Scope host_scope.
Notation "x ⇐ m ;; k" := (method_bind m (λ x, k))
  (at level 100, m at next level, right associativity) : host_scope.
Notation "m ;;; k" := (method_bind m (λ _, k))
  (at level 100, right associativity) : host_scope.
#[local] Open Scope host_scope.

Definition get_self : Method HostApplication := λ self t,
  {| res := Ok self; self_after := self; time_after := t; calls := [] |}.

Definition update_self (f : HostApplication → HostApplication) : Method unit :=
  λ self t,
  {| res := Ok tt; self_after := f self; time_after := t; calls := [] |}.

(** A call on the transport client; the client is not among the sources
    and its calls are taken to return. *)
Definition client (c : ClientCall) : Method unit := λ self t,
  {| res := Ok tt; self_after := self; time_after := t; calls := [c] |}.

Section Session.

(** [get_current_timestamp] reads the system clock; [clock n] is what its
    [n]-th reading returns. *)
Variable clock : nat → Z.

(** The constant [SINGLE_LEVEL_WILDCARD] of [_constants.py], which is not
    among the sources. *)
Variable SINGLE_LEVEL_WILDCARD : string.

Definition get_current_timestamp : Method Z := λ self t,
  {| res := Ok (clock t); self_after := self; time_after := S t; calls := [] |}.

(** [HostApplication.subscribe] *)
Definition subscribe (topic : Topic) (qos : QoS) : Method unit :=
  client (client_subscribe topic qos).

(** [HostApplication.unsubscribe] *)
Definition unsubscribe (topic : Topic) : Method unit :=
  client (client_unsubscribe topic).

(** [HostApplication.__init__]: the new object and the calls the
    constructor makes; [retain_birth_certificates] is accepted and not
    used. *)
Definition HostApplication_new (host_id : string) (retain_birth_certificates : bool)
  : Outcome unit :=
  let self := {| host_id := host_id; _connected := false |} in
  subscribe (Topic_new STATE (Some SINGLE_LEVEL_WILDCARD) None None (Some host_id))
    AT_LEAST_ONCE self 0%nat.

(** [HostApplication._setup_will] *)
Definition _setup_will : Method unit :=
  self ⇐ get_self ;;
  let will_topic := Topic_new STATE None None None (Some (host_id self)) in
  timestamp ⇐ get_current_timestamp ;;
  let will_payload := {| state_timestamp := timestamp; online := false |} in
  let will_message := {| topic := will_topic; payload := PState will_payload;
                         qos := AT_MOST_ONCE; retain := true |} in
  client (client_set_will will_message).

(** [HostApplication.connect]: the will is set, then the transport is asked
    to connect; the transport calls [on_connect_callback] once the
    connection stands. *)
Definition connect (host : string) (port keepalive : Z) (bind_address : string)
    (blocking : bool) : Method unit :=
  _setup_will ;;;
  client (client_connect host port keepalive bind_address blocking).

(** The closure [on_connect_callback] of [HostApplication.connect];
    [on_connect] is the caller's hook, user code run on the host object. *)
Definition on_connect_callback (on_connect : option (Method unit)) : Method unit :=
  update_self (set_connected true) ;;;
  self ⇐ get_self ;;
  let online_topic := Topic_new STATE None None None (Some (host_id self)) in
  timestamp ⇐ get_current_timestamp ;;
  let online_payload := {| state_timestamp := timestamp; online := true |} in
  let online_message := {| topic := online_topic; payload := PState online_payload;
                           qos := AT_LEAST_ONCE; retain := true |} in
  client (client_publish online_message None) ;;;
  match on_connect with
  | Some hook => hook
  | None => method_ret tt
  end ;;;
  _setup_will.

(** [HostApplication.disconnect] *)
Definition disconnect : Method unit :=
  self ⇐ get_self ;;
  (if _connected self then
     let offline_topic := Topic_new STATE None None None (Some (host_id self)) in
     timestamp ⇐ get_current_timestamp ;;
     let offline_payload := {| state_timestamp := timestamp; online := false |} in
     let offline_message :=
       {| topic := offline_topic; payload := PState offline_payload;
          qos := AT_MOST_ONCE; retain := true |} in
     client (client_publish offline_message None)
   else method_ret tt) ;;;
  client client_disconnect ;;;
  update_self (set_connected false).

(** [HostApplication.send_node_command] *)
Definition send_node_command (edge_node_id : string) (metrics : list Metric)
    (group_id : option string) (qos : QoS) (retain : bool) : Method unit :=
  let topic := Topic_new NCMD group_id (Some edge_node_id) None None in
  timestamp ⇐ get_current_timestamp ;;
  let payload := BNCmd {| cmd_timestamp := timestamp; cmd_metrics := metrics |} in
  let msg := {| topic := topic; payload := PBase payload; qos := qos;
                retain := retain |} in
  client (client_publish msg (Some true)).

(** [HostApplication.send_device_command] *)
Definition send_device_command (edge_node_id device_id : string)
    (metrics : list Metric) (group_id : option string) (qos : QoS) (retain : bool)
  : Method unit :=
  let topic := Topic_new DCMD group_id (Some edge_node_id) (Some device_id) None in
  timestamp ⇐ get_current_timestamp ;;
  let payload := BDCmd {| cmd_timestamp := timestamp; cmd_metrics := metrics |} in
  let msg := {| topic := topic; payload := PBase payload; qos := qos;
                retain := retain |} in
  client (client_publish msg (Some true)).

(** [HostApplication.connected] *)
Definition connected (self : HostApplication) : bool := _connected self.

(** The method calls a host session receives, from its caller or, for
    [on_connect_callback], from the transport. *)
Inductive Call : Type :=
| call_connect (host : string) (port keepalive : Z) (bind_address : string)
               (blocking : bool)
| call_on_connect (on_connect : option (Method unit))
| call_disconnect
| call_subscribe (topic : Topic) (qos : QoS)
| call_unsubscribe (topic : Topic)
| call_send_node_command (edge_node_id : string) (metrics : list Metric)
    (group_id : option string) (qos : QoS) (retain : bool)
| call_send_device_command (edge_node_id device_id : string) (metrics : list Metric)
    (group_id : option string) (qos : QoS) (retain : bool).

Definition run (c : Call) : Method unit :=
  match c with
  | call_connect host port keepalive bind_address blocking =>
    connect host port keepalive bind_address blocking
  | call_on_connect on_connect => on_connect_callback on_connect
  | call_disconnect => disconnect
  | call_subscribe topic qos => subscribe topic qos
  | call_unsubscribe topic => unsubscribe topic
  | call_send_node_command edge_node_id metrics group_id qos retain =>
    send_node_command edge_node_id metrics group_id qos retain
  | call_send_device_command edge_node_id device_id metrics group_id qos retain =>
    send_device_command edge_node_id device_id metrics group_id qos retain
  end.

End Session.

(** ** Specification predicates of the host session *)

(** The state message of a host: retained, on the host's state topic. *)
Definition state_message_of (host_id : string) (timestamp : Z) (online : bool)
    (qos : QoS) : Message :=
  {| topic := Topic_new STATE None None None (Some host_id);
     payload := PState {| state_timestamp := timestamp; online := online |};
     qos := qos; retain := true |}.

(** What the host itself hands to its transport: a will that says
    offline; a retained state message on its own state topic, published
    online with [AT_LEAST_ONCE] or offline with [AT_MOST_ONCE] and without
    [include_dtypes]; or a command with datatypes asked for, a node command
    to a node, a device command to a device. *)
Definition host_call (host_id : string) (c : ClientCall) : Prop :=
  match c with
  | client_set_will m =>
    ∃ timestamp, m = state_message_of host_id timestamp false AT_MOST_ONCE
  | client_publish m include_dtypes =>
    match payload m with
    | PState s =>
      include_dtypes = None
      ∧ m = state_message_of host_id (state_timestamp s) (online s)
              (if online s then AT_LEAST_ONCE else AT_MOST_ONCE)
    | PBase (BNCmd _) =>
      include_dtypes = Some true ∧ message_type (topic m) = NCMD
      ∧ is_Some (edge_node_id (topic m)) ∧ device_id (topic m) = None
      ∧ sparkplug_host_id (topic m) = None
    | PBase (BDCmd _) =>
      include_dtypes = Some true ∧ message_type (topic m) = DCMD
      ∧ is_Some (edge_node_id (topic m)) ∧ is_Some (device_id (topic m))
      ∧ sparkplug_host_id (topic m) = None
    | _ => False
    end
  | _ => True
  end.

(** A hook that keeps to what the host itself does: it leaves the host id
    alone and hands the transport nothing but the host's own calls. *)
Definition hook_keeps (hook : Method unit) : Prop :=
  ∀ self t, host_id (self_after (hook self t)) = host_id self
            ∧ Forall (host_call (host_id self)) (calls (hook self t)).

(** ** Example hosts and hooks *)

(** A new host, as its constructor leaves it. *)
Definition host_new : HostApplication :=
  self_after (HostApplication_new "+" "host" false).

(** A hook that sends a command and returns. *)
Definition hook_command (clock : nat → Z) : Method unit :=
  send_node_command clock "n1" [metric_a] (Some "G"%string) AT_LEAST_ONCE false.

End Host.
(** * Properties *)

(** ** Fallible computations *)

Ltac unfold_result :=
  unfold mbind, mret, fmap, result_bind, result_ret, result_fmap in *.

Ltac simpl_result :=
  cbn [mbind mret fmap result_bind result_ret result_fmap].

Lemma bind_Ok_inv {A B} (r : result A) (f : A → result B) (b : B) :
  r ≫= f = Ok b → ∃ a, r = Ok a ∧ f a = Ok b.
Proof. destruct r as [a|e]; unfold_result; [eauto | discriminate]. Qed.


Lemma fmap_Ok_inv {A B} (g : A → B) (r : result A) (b : B) :
  g <$> r = Ok b → ∃ a, r = Ok a ∧ b = g a.
Proof. destruct r as [a|e]; unfold_result; [intros [= <-]; eauto | discriminate]. Qed.

Lemma mapM_nil {A B} (f : A → result B) : mapM f [] = Ok [].
Proof. reflexivity. Qed.

Lemma mapM_cons {A B} (f : A → result B) (x : A) (l : list A) :
  mapM f (x :: l) = (y ← f x; k ← mapM f l; Ok (y :: k)).
Proof. reflexivity. Qed.

(** [mapM] returns exactly when the function returns on every element, with
    the results in order. *)
Lemma mapM_Ok {A B} (f : A → result B) (l : list A) (k : list B) :
  mapM f l = Ok k ↔ Forall2 (λ x y, f x = Ok y) l k.
Proof.
  revert k. induction l as [|x l IH]; intros k.
  - rewrite mapM_nil. split.
    + intros [= <-]. constructor.
    + intros H. inversion H. reflexivity.
  - rewrite mapM_cons. split.
    + intros H. apply bind_Ok_inv in H as (y & Hy & H).
      apply bind_Ok_inv in H as (k' & Hk' & H).
      injection H as <-. constructor; [exact Hy | by apply IH].
    + intros H. inversion H as [|? y ? k' Hy Hk']; subst.
      apply IH in Hk'. rewrite Hy, Hk'. reflexivity.
Qed.


Lemma mapM_id_Ok {A} (f : A → result A) (l : list A) :
  Forall (λ x, f x = Ok x) l → mapM f l = Ok l.
Proof.
  intros H. apply mapM_Ok. induction H; constructor; auto.
Qed.

Lemma mapM_length {A B} (f : A → result B) (l : list A) (k : list B) :
  mapM f l = Ok k → length k = length l.
Proof. intros H. apply mapM_Ok in H. symmetry. by eapply Forall2_length. Qed.

(** ** Birth construction *)

Lemma birth_accepts_or_rejects (metric : Metric) :
  birth_accepts metric ∨ birth_rejects metric.
Proof.
  unfold birth_accepts, birth_rejects.
  destruct (metric_name metric); destruct (decide (metric_datatype metric = UNKNOWN));
    eauto.
Qed.

Lemma birth_rejects_not_accepts (metric : Metric) :
  birth_rejects metric → ¬ birth_accepts metric.
Proof.
  intros [Hn|Hd] [[n Hn'] Hd']; congruence.
Qed.

Lemma post_init_step_accepts maps metric :
  birth_accepts metric → ∃ maps', post_init_step maps metric = Ok maps'.
Proof.
  intros [[n Hn] Hd]. unfold post_init_step. rewrite Hn.
  destruct (decide (metric_datatype metric = UNKNOWN)); [done | eauto].
Qed.

Lemma post_init_step_rejects maps metric :
  birth_rejects metric → post_init_step maps metric = Raise ValueError.
Proof.
  intros [Hn|Hd]; unfold post_init_step.
  - by rewrite Hn.
  - destruct (metric_name metric); [|done].
    destruct (decide (metric_datatype metric = UNKNOWN)); done.
Qed.

Lemma post_init_loop_accepts metrics maps :
  Forall birth_accepts metrics → ∃ maps', post_init_loop metrics maps = Ok maps'.
Proof.
  intros H. revert maps. induction H as [|metric rest Hm _ IH]; intros maps.
  - simpl. eauto.
  - simpl. destruct (post_init_step_accepts maps metric Hm) as [maps' ->].
    unfold_result. apply IH.
Qed.

Lemma post_init_loop_rejects metrics maps :
  Exists birth_rejects metrics → post_init_loop metrics maps = Raise ValueError.
Proof.
  intros H. revert maps. induction H as [metric rest Hm|metric rest _ IH]; intros maps.
  - simpl. by rewrite post_init_step_rejects.
  - simpl. destruct (birth_accepts_or_rejects metric) as [Ha|Hr].
    + destruct (post_init_step_accepts maps metric Ha) as [maps' ->].
      unfold_result. apply IH.
    + by rewrite post_init_step_rejects.
Qed.

Lemma Birth_new_Ok_inv timestamp seq metrics b :
  Birth_new timestamp seq metrics = Ok b →
  birth_timestamp b = timestamp ∧ birth_seq b = seq ∧ birth_metrics b = metrics.
Proof.
  unfold Birth_new. intros H. apply bind_Ok_inv in H as (maps & _ & H).
  injection H as <-. auto.
Qed.

Lemma Birth_new_accepts timestamp seq metrics :
  Forall birth_accepts metrics →
  ∃ b, Birth_new timestamp seq metrics = Ok b.
Proof.
  intros H. unfold Birth_new.
  destruct (post_init_loop_accepts metrics (∅, ∅) H) as [maps ->].
  unfold_result. eauto.
Qed.

Lemma Birth_new_rejects timestamp seq metrics :
  Exists birth_rejects metrics → Birth_new timestamp seq metrics = Raise ValueError.
Proof.
  intros H. unfold Birth_new. by rewrite post_init_loop_rejects.
Qed.

Lemma Birth_new_Ok_accepts timestamp seq metrics b :
  Birth_new timestamp seq metrics = Ok b → Forall birth_accepts metrics.
Proof.
  intros H. apply Forall_forall. intros metric Hin.
  destruct (birth_accepts_or_rejects metric) as [Ha|Hr]; [exact Ha|].
  rewrite Birth_new_rejects in H; [discriminate|].
  apply Exists_exists. eauto.
Qed.

Lemma construct_birth timestamp seq metrics :
  construct NBirth (birth_kwargs timestamp seq metrics)
    = BNBirth <$> Birth_new timestamp seq metrics
  ∧ construct DBirth (birth_kwargs timestamp seq metrics)
    = BDBirth <$> Birth_new timestamp seq metrics.
Proof. split; reflexivity. Qed.

(** C3, as the code has it: constructing a birth (NBirth or DBirth) raises
    [ValueError] as soon as some metric has no name ([None]) or has the
    datatype [UNKNOWN]; when every metric has a name, the empty string
    included, and a datatype other than [UNKNOWN], the construction
    succeeds and the birth holds the timestamp, the sequence number and
    the metrics it was given. *)
Theorem C3_birth_construction (timestamp seq : Z) (metrics : list Metric) :
  (Exists birth_rejects metrics →
     Birth_new timestamp seq metrics = Raise ValueError
     ∧ construct NBirth (birth_kwargs timestamp seq metrics) = Raise ValueError
     ∧ construct DBirth (birth_kwargs timestamp seq metrics) = Raise ValueError)
  ∧ (Forall birth_accepts metrics →
     ∃ b, Birth_new timestamp seq metrics = Ok b
          ∧ construct NBirth (birth_kwargs timestamp seq metrics) = Ok (BNBirth b)
          ∧ construct DBirth (birth_kwargs timestamp seq metrics) = Ok (BDBirth b)
          ∧ birth_timestamp b = timestamp ∧ birth_seq b = seq
          ∧ birth_metrics b = metrics).
Proof.
  destruct (construct_birth timestamp seq metrics) as [HN HD].
  split.
  - intros H. rewrite HN, HD, (Birth_new_rejects _ _ _ H).
    repeat split; reflexivity.
  - intros H. destruct (Birth_new_accepts timestamp seq metrics H) as [b Hb].
    exists b. rewrite HN, HD, Hb.
    destruct (Birth_new_Ok_inv _ _ _ _ Hb) as (? & ? & ?).
    repeat split; trivial.
Qed.

Lemma C3_birth_construction_witness :
  Birth_new 5 0 [metric_a; metric_no_datatype] = Raise ValueError
  ∧ Birth_new 5 0 [metric_no_name] = Raise ValueError
  ∧ ∃ b, Birth_new 5 0 [metric_a; metric_empty_name] = Ok b
         ∧ birth_metrics b = [metric_a; metric_empty_name].
Proof.
  split; [|split].
  - apply (proj1 (C3_birth_construction 5 0 [metric_a; metric_no_datatype])).
    apply Exists_cons_tl, Exists_cons_hd. right. reflexivity.
  - apply (proj1 (C3_birth_construction 5 0 [metric_no_name])).
    apply Exists_cons_hd. left. reflexivity.
  - destruct (proj2 (C3_birth_construction 5 0 [metric_a; metric_empty_name]))
      as (b & Hb & _ & _ & _ & _ & Hm).
    + repeat constructor; unfold birth_accepts; simpl; eauto; discriminate.
    + exists b. auto.
Defined.

(** C3 as stated fails for a name that is empty: a metric named by the
    empty string passes the check of [Birth.__post_init__], which only
    looks for [None]. *)
Lemma C3_counterexample_empty_name :
  metric_name metric_empty_name = Some EmptyString
  ∧ (∃ b, Birth_new 5 0 [metric_empty_name] = Ok b
          ∧ construct NBirth (birth_kwargs 5 0 [metric_empty_name]) = Ok (BNBirth b))
  ∧ ¬ raises (Birth_new 5 0 [metric_empty_name]).
Proof.
  split; [reflexivity|]. split.
  - eexists. split; reflexivity.
  - intros [e He]. vm_compute in He. discriminate.
Qed.

(** ** Alias and datatype resolution *)

Lemma get_name_spec birth alias :
  get_name birth alias =
  match names_mapping birth !! alias with Some n => Ok n | None => Raise KeyError end.
Proof. reflexivity. Qed.




(** [resolve_pb] in one equation: it fails exactly on a missing key. *)
Lemma resolve_pb_spec birth m :
  resolve_pb birth m =
  match pb_resolved_name birth m with
  | None => Raise KeyError
  | Some n =>
    let m1 := if decide (pbm_name m = EmptyString) then pbm_set_name n m else m in
    if decide (pbm_datatype m = DataType_value UNKNOWN) then
      match dtypes_mapping birth !! n with
      | Some dt => Ok (pbm_set_datatype (DataType_value dt) m1)
      | None => Raise KeyError
      end
    else Ok m1
  end.
Proof.
  unfold resolve_pb, pb_resolved_name, get_name, get_dtype.
  destruct (decide (pbm_name m = EmptyString)) as [Hn|Hn].
  - destruct (names_mapping birth !! pbm_alias m) as [n|]; [|reflexivity].
    unfold_result. cbn beta iota.
    change (pbm_datatype (pbm_set_name n m)) with (pbm_datatype m).
    change (pbm_name (pbm_set_name n m)) with n.
    case_decide; [|reflexivity].
    destruct (dtypes_mapping birth !! n); reflexivity.
  - unfold_result. cbn beta iota zeta.
    case_decide; [|reflexivity].
    destruct (dtypes_mapping birth !! pbm_name m); reflexivity.
Qed.



Lemma resolve_pb_resolved birth m m' :
  resolve_pb birth m = Ok m' → pb_resolved birth m m'.
Proof.
  rewrite resolve_pb_spec. unfold pb_resolved, pb_resolved_name.
  destruct (decide (pbm_name m = EmptyString)) as [Hn|Hn].
  - destruct (names_mapping birth !! pbm_alias m) as [n|] eqn:Ha; [|discriminate].
    cbn zeta. destruct (decide (pbm_datatype m = DataType_value UNKNOWN)) as [Hd|Hd].
    + destruct (dtypes_mapping birth !! n) as [dt|] eqn:Hdt; [|discriminate].
      intros [= <-]. repeat split; try done. exists dt. done.
    + intros [= <-]. repeat split; done.
  - cbn zeta. destruct (decide (pbm_datatype m = DataType_value UNKNOWN)) as [Hd|Hd].
    + destruct (dtypes_mapping birth !! pbm_name m) as [dt|] eqn:Hdt; [|discriminate].
      intros [= <-]. repeat split; try done. exists dt. done.
    + intros [= <-]. repeat split; done.
Qed.

(** A metric that needs no resolution is left as it is. *)
Lemma resolve_pb_self_describing birth m :
  pbm_name m ≠ EmptyString → pbm_datatype m ≠ DataType_value UNKNOWN →
  resolve_pb birth m = Ok m.
Proof.
  intros Hn Hd. rewrite resolve_pb_spec. unfold pb_resolved_name.
  destruct (decide (pbm_name m = EmptyString)); [done|]. cbn zeta.
  destruct (decide (pbm_datatype m = DataType_value UNKNOWN)); done.
Qed.

(** [resolve_json] in one equation. *)
Lemma resolve_json_spec birth m :
  resolve_json birth m =
  (n ← json_resolved_name birth m;
   if decide (metric_datatype m = UNKNOWN) then
     dt ← get_dtype_of birth n;
     Ok (metric_set_datatype dt (metric_set_name n m))
   else Ok (metric_set_name n m)).
Proof.
  unfold resolve_json, json_resolved_name.
  destruct m as [name alias ts dt h tr nl md pr v]. cbn [metric_alias metric_name].
  destruct alias as [alias|].
  - destruct (name_missing name).
    + destruct (get_name birth alias) as [n|e]; reflexivity.
    + reflexivity.
  - reflexivity.
Qed.




Lemma resolve_json_resolved birth m m' :
  resolve_json birth m = Ok m' → json_resolved birth m m'.
Proof.
  rewrite resolve_json_spec. intros H.
  apply bind_Ok_inv in H as (n & Hn & H). unfold json_resolved.
  destruct (decide (metric_datatype m = UNKNOWN)) as [Hd|Hd].
  - apply bind_Ok_inv in H as (dt & Hdt & H). injection H as <-.
    destruct m; simpl in *. auto.
  - injection H as <-. destruct m; simpl in *. auto.
Qed.

(** A metric object that carries a name and a datatype is left as it is. *)
Lemma resolve_json_self_describing birth m :
  name_missing (metric_name m) = false → metric_datatype m ≠ UNKNOWN →
  resolve_json birth m = Ok m.
Proof.
  intros Hn Hd. rewrite resolve_json_spec. unfold json_resolved_name.
  rewrite Hn. destruct m as [name alias ts dt h tr nl md pr v]; simpl in *.
  destruct alias; unfold_result; by rewrite decide_False.
Qed.

(** ** Decoding *)

Lemma construct_Ok_inv cls kw p :
  construct cls kw = Ok p →
  class_of p = cls ∧ base_timestamp p = kw_timestamp kw
  ∧ base_seq p = kw_seq kw ∧ kw_metrics kw = Some (base_metrics p).
Proof.
  unfold construct.
  destruct (kw_bd_seq_metric kw), (kw_online kw), (kw_metrics kw) as [ms|];
    try discriminate.
  destruct cls, (kw_seq kw) as [seq|]; try discriminate;
    try (intros [= <-]; done);
    intros H; apply fmap_Ok_inv in H as (b & Hb & ->);
    apply Birth_new_Ok_inv in Hb as (? & ? & ?); simpl; repeat split; congruence.
Qed.

Section Decoding.

Variable to_pb : bool → Metric → result PbMetric.
Variable from_pb : PbMetric → result Metric.

(** Every metric of a binary payload decoded against a birth is the
    wire metric, resolved against the birth and then read by [from_pb]. *)
Lemma decode_protobuf_resolves cls raw birth p :
  _decode_protobuf from_pb cls raw (Some birth) = Ok p →
  ∃ pbs, Forall2 (pb_resolved birth) (pbp_metrics raw) pbs
         ∧ Forall2 (λ pb m, from_pb pb = Ok m) pbs (base_metrics p).
Proof.
  unfold _decode_protobuf. intros H.
  apply bind_Ok_inv in H as (pbs & Hpbs & H).
  apply bind_Ok_inv in H as (ms & Hms & H).
  apply construct_Ok_inv in H as (_ & _ & _ & [= <-]).
  exists pbs. split.
  - apply mapM_Ok in Hpbs. eapply Forall2_impl; [exact Hpbs|].
    intros m m'. apply resolve_pb_resolved.
  - by apply mapM_Ok.
Qed.

(** Every metric of a text payload decoded against a birth is the wire
    metric, read by [metric_from_json] and then resolved against the
    birth. *)
Lemma payload_from_json_resolves cls raw birth p :
  payload_from_json to_pb cls raw (Some birth) = Ok p →
  ∃ jms ms, jp_metrics raw = Some jms
            ∧ Forall2 (λ j m, metric_from_json to_pb j = Ok m) jms ms
            ∧ Forall2 (json_resolved birth) ms (base_metrics p).
Proof.
  unfold payload_from_json. intros H.
  destruct (jp_timestamp raw) as [ts|]; [|discriminate].
  destruct (jp_metrics raw) as [jms|].
  - apply bind_Ok_inv in H as (ms & Hms & H).
    apply bind_Ok_inv in H as (ms' & Hms' & H).
    apply construct_Ok_inv in H as (_ & _ & _ & [= <-]).
    exists jms, ms. split; [reflexivity|]. split; [by apply mapM_Ok|].
    apply mapM_Ok in Hms'. eapply Forall2_impl; [exact Hms'|].
    intros m m'. apply resolve_json_resolved.
  - destruct (jp_bd_seq_metric raw) as [jm|].
    + apply bind_Ok_inv in H as (m & _ & H).
      apply construct_Ok_inv in H as (_ & _ & _ & [=]).
    + apply construct_Ok_inv in H as (_ & _ & _ & [=]).
Qed.

(** Decoding a data payload returns whenever every metric resolves and
    [from_pb] reads the resolved metrics. *)
Lemma decode_protobuf_data_returns raw birth seq pbs ms :
  pbp_seq raw = Some seq →
  Forall2 (λ m m', resolve_pb birth m = Ok m') (pbp_metrics raw) pbs →
  Forall2 (λ pb m, from_pb pb = Ok m) pbs ms →
  _decode_protobuf from_pb NData raw (Some birth)
  = Ok (BNData {| data_timestamp := pb_timestamp_get raw; data_seq := seq;
                  data_metrics := ms |}).
Proof.
  intros Hseq Hpbs Hms. unfold _decode_protobuf.
  apply mapM_Ok in Hpbs. apply mapM_Ok in Hms. rewrite Hpbs. unfold_result.
  rewrite Hms. unfold construct. simpl. by rewrite Hseq.
Qed.

(** Decoding a text data payload returns whenever [metric_from_json] reads
    every metric and every metric resolves. *)
Lemma payload_from_json_data_returns raw birth timestamp seq jms ms ms' :
  jp_timestamp raw = Some timestamp →
  jp_seq raw = Some seq →
  jp_metrics raw = Some jms →
  Forall2 (λ j m, metric_from_json to_pb j = Ok m) jms ms →
  Forall2 (λ m m', resolve_json birth m = Ok m') ms ms' →
  payload_from_json to_pb NData raw (Some birth)
  = Ok (BNData {| data_timestamp := timestamp; data_seq := seq;
                  data_metrics := ms' |}).
Proof.
  intros Hts Hseq Hjms Hms Hms'. unfold payload_from_json.
  apply mapM_Ok in Hms. apply mapM_Ok in Hms'.
  rewrite Hts, Hjms, Hms. simpl_result. rewrite Hms'. simpl_result.
  unfold construct. cbn. by rewrite Hseq.
Qed.

(** Under the text codec every metric is read before any is resolved, so
    a metric that [metric_from_json] rejects decides the error. *)
Lemma payload_from_json_reads_before_resolving :
  payload_from_json to_pb NData json_bad_datatype_then_alias_99 (Some birth_a)
  = Raise ValueError.
Proof. reflexivity. Qed.

End Decoding.

(** C2, evaluated: against the birth holding [{name: "a", alias: 1,
    datatype: INT32}], the binary record [{alias: 1, value: 5}] decodes to
    [{name: "a", datatype: INT32, value: 5}], and the text record
    [{alias: 1, value: 5}] decodes to a metric with the name and the
    datatype resolved but without a value: [metric_from_json] reads the
    value by the datatype before the birth has supplied it. *)
Theorem C2_text_decode_drops_unresolved_value :
  Birth_new 0 0 [metric_a] = Ok birth_a
  ∧ _decode_protobuf int_from_pb NData pb_alias_1_value_5 (Some birth_a)
    = Ok (BNData {| data_timestamp := 10; data_seq := 0;
                    data_metrics := [resolved_metric_a (Some (VScalar (SInt 5)))] |})
  ∧ ∀ to_pb, payload_from_json to_pb NData json_alias_1_value_5 (Some birth_a)
    = Ok (BNData {| data_timestamp := 10; data_seq := 0;
                    data_metrics := [resolved_metric_a None] |}).
Proof. repeat split. Qed.




(** ** Node death *)

(** C7, evaluated: [NDeath.decode] returns on a record with a metric that
    [from_pb] reads, but with the timestamp test the wrong way round: an
    absent timestamp decodes to 0, the default of the field, and a present
    one to [None]. *)
Theorem C7_ndeath_decode_inverts_timestamp
    (from_pb : PbMetric → result Metric) (raw : PbPayload) (pb : PbMetric)
    (rest : list PbMetric) (m : Metric) :
  pbp_metrics raw = pb :: rest →
  from_pb pb = Ok m →
  NDeath_decode from_pb raw
  = Ok {| ndeath_timestamp :=
            match pbp_timestamp raw with Some _ => None | None => Some 0 end;
          bd_seq_metric := Some m |}.
Proof.
  intros Hms Hm. destruct raw as [ts seq ms]. simpl in Hms. subst ms.
  unfold NDeath_decode. cbn [pbp_metrics pbp_timestamp]. rewrite Hm.
  destruct ts; reflexivity.
Qed.

Lemma C7_ndeath_decode_inverts_timestamp_witness :
  NDeath_decode int_from_pb
    {| pbp_timestamp := None; pbp_seq := None; pbp_metrics := [pb_bdseq] |}
  = Ok {| ndeath_timestamp := Some 0; bd_seq_metric := Some metric_bdseq |}
  ∧ NDeath_decode int_from_pb
      {| pbp_timestamp := Some 5; pbp_seq := None; pbp_metrics := [pb_bdseq] |}
    = Ok {| ndeath_timestamp := None; bd_seq_metric := Some metric_bdseq |}.
Proof.
  split.
  - apply (C7_ndeath_decode_inverts_timestamp int_from_pb
             {| pbp_timestamp := None; pbp_seq := None; pbp_metrics := [pb_bdseq] |}
             pb_bdseq [] metric_bdseq); reflexivity.
  - apply (C7_ndeath_decode_inverts_timestamp int_from_pb
             {| pbp_timestamp := Some 5; pbp_seq := None; pbp_metrics := [pb_bdseq] |}
             pb_bdseq [] metric_bdseq); reflexivity.
Defined.

(** C1, evaluated on node death: whatever the metric codec, encoding a node
    death and decoding the result never gives the payload back, because a
    timestamp that was written is read as [None] and one that was not is
    read as 0; with the integer codec the round trip of
    [{timestamp: 5, bd_seq_metric: bdSeq}] returns the payload without its
    timestamp. *)
Theorem C1_ndeath_round_trip_loses_timestamp :
  (∀ to_pb from_pb (x : NDeath) (include_dtypes : bool),
     NDeath_encode to_pb x include_dtypes ≫= NDeath_decode from_pb ≠ Ok x)
  ∧ NDeath_encode int_to_pb ndeath_5 false ≫= NDeath_decode int_from_pb
    = Ok {| ndeath_timestamp := None; bd_seq_metric := Some metric_bdseq |}.
Proof.
  split; [|reflexivity].
  intros to_pb from_pb [timestamp metric] inc H.
  apply bind_Ok_inv in H as (raw & Henc & Hdec).
  unfold NDeath_encode in Henc. cbn [bd_seq_metric ndeath_timestamp] in Henc.
  destruct metric as [m|]; [|discriminate].
  apply bind_Ok_inv in Henc as (pb & _ & [= <-]).
  unfold NDeath_decode in Hdec. cbn [pbp_metrics pbp_timestamp] in Hdec.
  apply bind_Ok_inv in Hdec as (m' & _ & Hdec).
  destruct timestamp; discriminate.
Qed.

(** ** Round trips of the other payloads *)

Lemma DataType_of_value_value d : DataType_of_value (DataType_value d) = Ok d.
Proof. by destruct d. Qed.

Lemma mapM_round_trip {A B} (f : A → result B) (g : B → result A) (l : list A) :
  Forall (λ x, f x ≫= g = Ok x) l →
  ∃ k, mapM f l = Ok k ∧ mapM g k = Ok l.
Proof.
  induction 1 as [|x l Hx _ (k & Hk & Hk')].
  - exists []. split; reflexivity.
  - apply bind_Ok_inv in Hx as (y & Hy & Hgy).
    exists (y :: k). rewrite !mapM_cons, Hy, Hk, Hgy, Hk'. split; reflexivity.
Qed.

(** Calling the class of a payload on the payload's own fields gives the
    payload back. *)
Lemma construct_of_payload p :
  payload_wf p →
  construct (class_of p)
    {| kw_timestamp := base_timestamp p; kw_seq := base_seq p;
       kw_metrics := Some (base_metrics p);
       kw_bd_seq_metric := None; kw_online := None |}
  = Ok p.
Proof.
  destruct p as [b|b|[]|[]|[]|[]]; cbn -[Birth_new]; intros Hwf; try reflexivity;
    unfold birth_wf in Hwf; by rewrite Hwf.
Qed.

Lemma mapM_bytes (bs : list Z) :
  Forall (λ b, 0 ≤ b < 256) bs → mapM byte_of (SInt <$> bs) = Ok bs.
Proof.
  induction 1 as [|b bs Hb _ IH]; [reflexivity|].
  rewrite fmap_cons, mapM_cons, IH. cbn [byte_of].
  by rewrite decide_True.
Qed.

Section RoundTrip.

Variable to_pb : bool → Metric → result PbMetric.
Variable from_pb : PbMetric → result Metric.

(** Binary codec: a birth, data or command payload whose metrics the
    metric codec carries without loss is decoded to itself. *)
Lemma base_round_trip_binary p include_dtypes :
  payload_wf p →
  Forall (λ m, to_pb (if is_birth p then true else include_dtypes) m ≫= from_pb = Ok m)
    (base_metrics p) →
  encode to_pb false p include_dtypes
    ≫= (λ raw, decode to_pb from_pb false (class_of p) raw None)
  = Ok p.
Proof.
  intros Hwf Hms. apply mapM_round_trip in Hms as (pbs & Hpbs & Hback).
  unfold encode, _encode_protobuf. rewrite Hpbs. simpl_result.
  unfold decode, _decode_protobuf.
  replace (if is_birth_class (class_of p) then None else None) with (@None Birth)
    by (by destruct (is_birth_class _)).
  cbn [pbp_metrics pbp_seq pb_timestamp_get pbp_timestamp default].
  simpl_result. rewrite Hback. by apply construct_of_payload.
Qed.

(** Text codec: a metric without value, with a scalar under a scalar
    datatype, or with bytes under [BYTES], is decoded to itself. *)
Lemma metric_json_round_trip m include_dtype :
  json_plain m →
  metric_to_json m include_dtype ≫= metric_from_json to_pb = Ok m.
Proof.
  destruct m as [name alias ts dt h tr nl md pr v]. unfold json_plain.
  cbn [metric_value metric_is_null metric_datatype].
  destruct v as [[s|bs| | | | |]|]; try done.
  - intros [-> Hdt]. cbn. rewrite Hdt. cbn.
    destruct dt; try discriminate; by destruct h, tr.
  - intros (-> & -> & Hbs). cbn. rewrite (mapM_bytes bs Hbs).
    by destruct h, tr.
  - intros _. cbn. destruct dt, h, tr, nl; reflexivity.
Qed.

(** Text codec: a birth, data or command payload of such metrics is
    decoded to itself. *)
Lemma base_round_trip_text p include_dtypes :
  payload_wf p →
  Forall json_plain (base_metrics p) →
  encode to_pb true p include_dtypes
    ≫= (λ raw, decode to_pb from_pb true (class_of p) raw None)
  = Ok p.
Proof.
  intros Hwf Hms.
  assert (Forall (λ m, metric_to_json m (if is_birth p then true else include_dtypes)
                         ≫= metric_from_json to_pb = Ok m) (base_metrics p)) as Hrt.
  { eapply Forall_impl; [exact Hms|]. intros m. apply metric_json_round_trip. }
  apply mapM_round_trip in Hrt as (jms & Hjms & Hback).
  unfold encode, payload_to_json. rewrite Hjms. simpl_result.
  unfold decode, payload_from_json.
  replace (if is_birth_class (class_of p) then None else None) with (@None Birth)
    by (by destruct (is_birth_class _)).
  cbn [jp_timestamp jp_metrics jp_seq]. rewrite Hback. simpl_result.
  by apply construct_of_payload.
Qed.

(** Device death and state are decoded to themselves. *)
Lemma uint64_field_fits z : uint64 z → uint64_field z = Ok z.
Proof. intros Hz. unfold uint64_field. by rewrite decide_True. Qed.

Lemma DDeath_round_trip (x : DDeath) include_dtypes :
  uint64 (ddeath_timestamp x) →
  uint64 (ddeath_seq x) →
  DDeath_encode x include_dtypes ≫= DDeath_decode = Ok x.
Proof.
  intros Hts Hseq. unfold DDeath_encode.
  rewrite (uint64_field_fits _ Hts), (uint64_field_fits _ Hseq).
  by destruct x.
Qed.

Lemma DDeath_encode_raises (x : DDeath) include_dtypes :
  ¬ (uint64 (ddeath_timestamp x) ∧ uint64 (ddeath_seq x)) →
  DDeath_encode x include_dtypes = Raise ValueError.
Proof.
  intros Hout. unfold DDeath_encode, uint64_field.
  destruct (decide (uint64 (ddeath_timestamp x))) as [Hts|Hts]; [|reflexivity].
  destruct (decide (uint64 (ddeath_seq x))) as [Hseq|Hseq]; [|reflexivity].
  by destruct Hout.
Qed.

Lemma State_round_trip (x : State) include_dtypes :
  State_encode x include_dtypes ≫= State_decode = Ok x.
Proof. by destruct x. Qed.

End RoundTrip.

(** ** Dictionaries *)

Section DictProperties.

Context {K V : Type} `{EqDecision K}.

Implicit Types (d : dict K V) (k : K) (v : V).

Lemma dict_get_set k k' v d :
  dict_get k' (dict_set k v d) = if decide (k' = k) then Some v else dict_get k' d.
Proof.
  induction d as [|[k0 v0] d IH]; simpl.
  - destruct (decide (k' = k)); reflexivity.
  - destruct (decide (k = k0)) as [->|Hne]; simpl.
    + destruct (decide (k' = k0)); reflexivity.
    + destruct (decide (k' = k0)) as [->|Hne'].
      * rewrite decide_False by congruence. reflexivity.
      * exact IH.
Qed.

Lemma dict_get_set_eq k v d : dict_get k (dict_set k v d) = Some v.
Proof. rewrite dict_get_set. by rewrite decide_True. Qed.

Lemma dict_get_set_ne k k' v d :
  k' ≠ k → dict_get k' (dict_set k v d) = dict_get k' d.
Proof. intros Hne. rewrite dict_get_set. by rewrite decide_False. Qed.

Lemma dict_get_None k d : dict_get k d = None ↔ k ∉ dict_keys d.
Proof.
  unfold dict_keys. induction d as [|[k0 v0] d IH]; csimpl.
  - split; [intros _; apply not_elem_of_nil | reflexivity].
  - rewrite not_elem_of_cons. destruct (decide (k = k0)) as [->|Hne].
    + split; [discriminate | intros [? _]; congruence].
    + rewrite IH. tauto.
Qed.

Lemma dict_get_Some_elem k v d : dict_get k d = Some v → k ∈ dict_keys d.
Proof.
  intros H. destruct (decide (k ∈ dict_keys d)) as [Hin|Hout]; [exact Hin|].
  apply dict_get_None in Hout. congruence.
Qed.

(** Assigning to a present key keeps the keys and their order; assigning
    to a new key appends it. *)
Lemma dict_keys_set k v d :
  dict_keys (dict_set k v d) =
  if decide (k ∈ dict_keys d) then dict_keys d else dict_keys d ++ [k].
Proof.
  unfold dict_keys. induction d as [|[k0 v0] d IH]; csimpl.
  - destruct (decide (k ∈ [])) as [Hin|_]; [|reflexivity].
    by apply elem_of_nil in Hin.
  - destruct (decide (k = k0)) as [->|Hne]; csimpl.
    + rewrite decide_True by apply list_elem_of_here. reflexivity.
    + rewrite IH. destruct (decide (k ∈ d.*1)) as [Hin|Hout].
      * rewrite decide_True by (by apply list_elem_of_further). reflexivity.
      * rewrite decide_False; [reflexivity|].
        rewrite elem_of_cons. tauto.
Qed.

Lemma dict_keys_set_NoDup k v d :
  NoDup (dict_keys d) → NoDup (dict_keys (dict_set k v d)).
Proof.
  intros Hnd. rewrite dict_keys_set. destruct (decide (k ∈ dict_keys d)); [exact Hnd|].
  apply NoDup_app. split; [exact Hnd|]. split.
  - intros x Hx Hx'. apply list_elem_of_singleton in Hx'. congruence.
  - apply NoDup_singleton.
Qed.

End DictProperties.

(** ** The snapshot of an identity *)

Lemma merge_into_cons snapshot metric metrics :
  merge_into snapshot (metric :: metrics)
  = merge_into (dict_set (metric_name metric) metric snapshot) metrics.
Proof. reflexivity. Qed.

(** Merging is by name and the last write wins: after the merge a name
    maps to the last of the given metrics that bears it, and to what the
    snapshot held before when none does. *)
Lemma merge_into_get snapshot metrics name :
  dict_get name (merge_into snapshot metrics) =
  match last_named name metrics with
  | Some m => Some m
  | None => dict_get name snapshot
  end.
Proof.
  unfold last_named. revert snapshot.
  induction metrics as [|metric metrics IH]; intros snapshot; [reflexivity|].
  rewrite merge_into_cons, IH, dict_get_set, filter_cons.
  destruct (decide (metric_name metric = name)) as [Heq|Hne].
  - rewrite decide_True by congruence.
    rewrite last_cons. destruct (last (filter _ metrics)); reflexivity.
  - rewrite decide_False by congruence. reflexivity.
Qed.

Lemma snapshot_of_get metrics name :
  dict_get name (snapshot_of metrics) = last_named name metrics.
Proof.
  change (snapshot_of metrics) with (merge_into [] metrics).
  rewrite merge_into_get. simpl. by destruct (last_named name metrics).
Qed.

(** ** The node session *)

Section SessionProperties.

Variable clock : nat → Z.

Lemma _publish_nbirth_spec group_id edge_node_id metrics self t :
  _publish_nbirth clock group_id edge_node_id metrics self t =
  match Birth_new (clock t) 0 metrics with
  | Ok b =>
    {| res := Ok tt; self_after := self; time_after := S t;
       calls := [client_publish (birth_message self (group_id, edge_node_id) b)
                   (Some true)] |}
  | Raise e =>
    {| res := Raise e; self_after := self; time_after := S t; calls := [] |}
  end.
Proof.
  unfold _publish_nbirth, method_bind, get_current_timestamp, lift, get_self, client.
  simpl. destruct (Birth_new (clock t) 0 metrics); reflexivity.
Qed.

Lemma _publish_ndeath_spec group_id edge_node_id self t :
  _publish_ndeath clock group_id edge_node_id self t =
  {| res := Ok tt; self_after := self; time_after := S t;
     calls := [client_publish (death_message (clock t) (group_id, edge_node_id))
                 None] |}.
Proof. reflexivity. Qed.

(** The loop of [disconnect]: one death per entry, in the order of the
    dictionary, each with its own clock reading. *)
Lemma for_each_ndeath (items : dict Identity (dict (option string) Metric)) self t :
  for_each items (λ item, _publish_ndeath clock item.1.1 item.1.2) self t =
  {| res := Ok tt; self_after := self; time_after := (length items + t)%nat;
     calls := death_calls clock t (dict_keys items) |}.
Proof.
  revert t. induction items as [|[[g n] snapshot] items IH]; intros t.
  - reflexivity.
  - cbn [for_each]. unfold method_bind. rewrite _publish_ndeath_spec.
    cbn [res self_after time_after calls]. rewrite IH.
    cbn [res self_after time_after calls]. f_equal.
    simpl. f_equal. lia.
Qed.

Lemma disconnect_spec self t :
  disconnect clock self t =
  if _connected self then
    {| res := Ok tt; self_after := set_connected false self;
       time_after := (length (_published_metrics self) + t)%nat;
       calls := death_calls clock t (dict_keys (_published_metrics self))
                ++ [client_disconnect] |}
  else
    {| res := Ok tt; self_after := set_connected false self; time_after := t;
       calls := [client_disconnect] |}.
Proof.
  unfold disconnect, method_bind at 1, get_self. cbn [res self_after time_after calls].
  destruct (_connected self).
  - unfold method_bind. rewrite for_each_ndeath. cbn.
    reflexivity.
  - reflexivity.
Qed.

Lemma publish_new topic metrics qos retain self t :
  dict_get (group_id topic, edge_node_id topic) (_published_metrics self) = None →
  publish clock topic metrics qos retain self t =
  let self' :=
    set_published_metrics
      (dict_set (group_id topic, edge_node_id topic) (snapshot_of metrics)
         (_published_metrics self)) self in
  match Birth_new (clock t) 0 metrics with
  | Ok b =>
    {| res := Ok tt; self_after := self'; time_after := S t;
       calls := [client_publish
                   (birth_message self (group_id topic, edge_node_id topic) b)
                   (Some true)] |}
  | Raise e =>
    {| res := Raise e; self_after := self'; time_after := S t; calls := [] |}
  end.
Proof.
  intros Hnew. unfold publish, method_bind at 1, get_self.
  cbn [res self_after time_after calls]. rewrite Hnew.
  unfold method_bind, update_self. cbn [res self_after time_after calls].
  rewrite _publish_nbirth_spec.
  destruct (Birth_new (clock t) 0 metrics); reflexivity.
Qed.

Lemma publish_known topic metrics qos retain self t snapshot :
  dict_get (group_id topic, edge_node_id topic) (_published_metrics self)
    = Some snapshot →
  publish clock topic metrics qos retain self t =
  {| res := Ok tt;
     self_after :=
       set_published_metrics
         (dict_set (group_id topic, edge_node_id topic)
            (merge_into snapshot metrics) (_published_metrics self)) self;
     time_after := S t;
     calls := [client_publish (data_message topic (clock t) metrics qos retain)
                 (Some true)] |}.
Proof.
  intros Hknown. unfold publish, method_bind at 1, get_self.
  cbn [res self_after time_after calls]. rewrite Hknown. reflexivity.
Qed.

Lemma for_each_self_after {A} (l : list A) (body : A → Method unit) self t :
  (∀ x s t', self_after (body x s t') = s) →
  self_after (for_each l body self t) = self.
Proof.
  intros Hbody. revert self t. induction l as [|x l IH]; intros self t.
  - reflexivity.
  - cbn [for_each]. unfold method_bind.
    destruct (res (body x self t)); cbn [self_after].
    + rewrite IH. apply Hbody.
    + apply Hbody.
Qed.

Lemma _publish_nbirth_self_after group_id edge_node_id metrics self t :
  self_after (_publish_nbirth clock group_id edge_node_id metrics self t) = self.
Proof.
  rewrite _publish_nbirth_spec. by destruct (Birth_new (clock t) 0 metrics).
Qed.

(** A method call leaves the snapshots as they are or assigns one of them;
    it never changes the flag given at construction. *)
Lemma run_published_metrics c self t :
  _published_metrics (self_after (run clock c self t)) = _published_metrics self
  ∨ ∃ key snapshot,
      _published_metrics (self_after (run clock c self t))
      = dict_set key snapshot (_published_metrics self).
Proof.
  destruct c as [host port keepalive bind_address blocking| | |topic qos|topic
                |topic metrics qos retain|group_id edge_node_id];
    cbn [run].
  - left. reflexivity.
  - left. unfold on_connect_callback, method_bind, update_self, get_self.
    cbn [res self_after time_after calls].
    rewrite for_each_self_after; [reflexivity|].
    intros item s t'. apply _publish_nbirth_self_after.
  - left. rewrite disconnect_spec. by destruct (_connected self).
  - left. reflexivity.
  - left. reflexivity.
  - right.
    destruct (dict_get (group_id topic, edge_node_id topic) (_published_metrics self))
      as [snapshot|] eqn:Hget.
    + rewrite (publish_known _ _ _ _ _ _ _ Hget). eauto.
    + rewrite (publish_new _ _ _ _ _ _ Hget).
      destruct (Birth_new (clock t) 0 metrics); eauto.
  - left. unfold rebirth, method_bind, get_self. cbn [res self_after time_after calls].
    destruct (dict_get _ _) as [[|item rest]|]; try reflexivity.
    by rewrite _publish_nbirth_self_after.
Qed.

Lemma run_retain_birth_certificates c self t :
  _retain_birth_certificates (self_after (run clock c self t))
  = _retain_birth_certificates self.
Proof.
  destruct c as [host port keepalive bind_address blocking| | |topic qos|topic
                |topic metrics qos retain|group_id edge_node_id];
    cbn [run].
  - reflexivity.
  - unfold on_connect_callback, method_bind, update_self, get_self.
    cbn [res self_after time_after calls].
    rewrite for_each_self_after; [reflexivity|].
    intros item s t'. apply _publish_nbirth_self_after.
  - rewrite disconnect_spec. by destruct (_connected self).
  - reflexivity.
  - reflexivity.
  - destruct (dict_get (group_id topic, edge_node_id topic) (_published_metrics self))
      as [snapshot|] eqn:Hget.
    + by rewrite (publish_known _ _ _ _ _ _ _ Hget).
    + rewrite (publish_new _ _ _ _ _ _ Hget).
      by destruct (Birth_new (clock t) 0 metrics).
  - unfold rebirth, method_bind, get_self. cbn [res self_after time_after calls].
    destruct (dict_get _ _) as [[|item rest]|]; try reflexivity.
    by rewrite _publish_nbirth_self_after.
Qed.

(** Invariant: a session never lists an identity twice. *)
Lemma reachable_NoDup self :
  reachable clock self → NoDup (dict_keys (_published_metrics self)).
Proof.
  induction 1 as [node_id flag|self t c _ IH].
  - apply NoDup_nil_2.
  - destruct (run_published_metrics c self t) as [->|(key & snapshot & ->)].
    + exact IH.
    + by apply dict_keys_set_NoDup.
Qed.

Lemma published_death_calls t ids :
  published (death_calls clock t ids ++ [client_disconnect])
  = published (death_calls clock t ids).
Proof.
  unfold published. rewrite omap_app. simpl. apply app_nil_r.
Qed.

Lemma death_calls_identities t ids :
  identity_of <$> published (death_calls clock t ids) = ids.
Proof.
  revert t. induction ids as [|[g n] ids IH]; intros t; [reflexivity|].
  cbn [death_calls]. unfold published in *. csimpl. f_equal. apply IH.
Qed.

Lemma death_calls_deaths t ids :
  Forall (λ m, is_death_message m = true
               ∧ ∃ ts, payload m = PNDeath {| ndeath_timestamp := Some ts;
                                              bd_seq_metric := None |})
    (published (death_calls clock t ids)).
Proof.
  revert t. induction ids as [|[g n] ids IH]; intros t; [constructor|].
  cbn [death_calls]. unfold published in *. csimpl. constructor; [|apply IH].
  split; [reflexivity|]. eauto.
Qed.

(** C5, as the code has it.  A publish to an identity without an entry,
    with metrics that a birth accepts, stores the metrics as the identity's
    snapshot (by name, the last of equal names) and makes one transport
    call, the publication of a birth message; a publish to an identity
    with an entry merges the metrics into the snapshot by name, the last
    write winning, and makes one transport call, the publication of a data
    message that carries exactly the metrics of this call; the entries of
    the other identities are not touched. *)
Theorem C5_publish_birth_then_data
    (self : DataOpsNode) (t : nat) (topic : Topic) (metrics : list Metric)
    (q : QoS) (r : bool) :
  (dict_get (group_id topic, edge_node_id topic) (_published_metrics self) = None →
   Forall birth_accepts metrics →
   ∃ b, Birth_new (clock t) 0 metrics = Ok b
     ∧ res (publish clock topic metrics q r self t) = Ok tt
     ∧ calls (publish clock topic metrics q r self t)
       = [client_publish
            (birth_message self (group_id topic, edge_node_id topic) b) (Some true)]
     ∧ dict_get (group_id topic, edge_node_id topic)
         (_published_metrics (self_after (publish clock topic metrics q r self t)))
       = Some (snapshot_of metrics)
     ∧ ∀ name, dict_get name (snapshot_of metrics) = last_named name metrics)
  ∧ (∀ snapshot,
     dict_get (group_id topic, edge_node_id topic) (_published_metrics self)
       = Some snapshot →
     res (publish clock topic metrics q r self t) = Ok tt
     ∧ calls (publish clock topic metrics q r self t)
       = [client_publish (data_message topic (clock t) metrics q r) (Some true)]
     ∧ dict_get (group_id topic, edge_node_id topic)
         (_published_metrics (self_after (publish clock topic metrics q r self t)))
       = Some (merge_into snapshot metrics)
     ∧ ∀ name, dict_get name (merge_into snapshot metrics)
               = match last_named name metrics with
                 | Some m => Some m
                 | None => dict_get name snapshot
                 end)
  ∧ (∀ key, key ≠ (group_id topic, edge_node_id topic) →
     dict_get key
       (_published_metrics (self_after (publish clock topic metrics q r self t)))
     = dict_get key (_published_metrics self)).
Proof.
  split; [|split].
  - intros Hnew Hacc.
    destruct (Birth_new_accepts (clock t) 0 metrics Hacc) as [b Hb].
    exists b. rewrite (publish_new _ _ _ _ _ _ Hnew). cbn zeta. rewrite Hb.
    cbn [res calls self_after set_published_metrics _published_metrics].
    repeat split; try done.
    + apply dict_get_set_eq.
    + intros name. apply snapshot_of_get.
  - intros snapshot Hknown. rewrite (publish_known _ _ _ _ _ _ _ Hknown).
    cbn [res calls self_after set_published_metrics _published_metrics].
    repeat split; try done.
    + apply dict_get_set_eq.
    + intros name. apply merge_into_get.
  - intros key Hne.
    destruct (dict_get (group_id topic, edge_node_id topic) (_published_metrics self))
      as [snapshot|] eqn:Hget.
    + rewrite (publish_known _ _ _ _ _ _ _ Hget).
      cbn [self_after set_published_metrics _published_metrics].
      by apply dict_get_set_ne.
    + rewrite (publish_new _ _ _ _ _ _ Hget). cbn zeta.
      destruct (Birth_new (clock t) 0 metrics);
        cbn [self_after set_published_metrics _published_metrics];
        by apply dict_get_set_ne.
Qed.

Lemma Encoding_publish_ndeath_raises
    to_pb use_json_payload group_id edge_node_id self t :
  Encoding._publish_ndeath clock to_pb use_json_payload group_id edge_node_id self t
  = {| res := Raise AttributeError; self_after := self; time_after := S t;
       calls := [] |}.
Proof. reflexivity. Qed.

Lemma Encoding_disconnect_spec to_pb use_json_payload self t :
  Encoding.disconnect clock to_pb use_json_payload self t =
  match _connected self, _published_metrics self with
  | true, _ :: _ =>
    {| res := Raise AttributeError; self_after := self; time_after := S t;
       calls := [] |}
  | _, _ =>
    {| res := Ok tt; self_after := set_connected false self; time_after := t;
       calls := [client_disconnect] |}
  end.
Proof.
  unfold Encoding.disconnect, method_bind at 1, get_self.
  cbn [res self_after time_after calls].
  destruct (_connected self); [|reflexivity].
  destruct (_published_metrics self) as [|item rest]; [reflexivity|].
  cbn [for_each]. unfold method_bind. rewrite Encoding_publish_ndeath_raises.
  reflexivity.
Qed.

(** C6: over a transport that encodes what it is handed, [disconnect] on
    a connected session that knows an identity raises [AttributeError] at
    its first death: no death is sent, the transport's disconnect is not
    called and the session stays as it was, marked connected.  Where no
    death is due, on a session that is not connected or knows no identity,
    [disconnect] does what it does over a transport that only records: it
    calls the transport's disconnect and nothing else. *)
Theorem C6_disconnect_raises_at_first_death
    (to_pb : bool → Metric → result PbMetric) (use_json_payload : bool)
    (self : DataOpsNode) (t : nat) :
  _connected self = true →
  _published_metrics self ≠ [] →
  res (Encoding.disconnect clock to_pb use_json_payload self t) = Raise AttributeError
  ∧ calls (Encoding.disconnect clock to_pb use_json_payload self t) = []
  ∧ self_after (Encoding.disconnect clock to_pb use_json_payload self t) = self
  ∧ _connected (self_after (Encoding.disconnect clock to_pb use_json_payload self t))
    = true
  ∧ (∀ self' t',
       _connected self' = false ∨ _published_metrics self' = [] →
       Encoding.disconnect clock to_pb use_json_payload self' t'
       = disconnect clock self' t'
       ∧ calls (disconnect clock self' t') = [client_disconnect]).
Proof.
  intros Hconn Hknown. rewrite !Encoding_disconnect_spec, Hconn.
  destruct (_published_metrics self) as [|item rest] eqn:Hpm; [done|].
  cbn [res calls self_after]. do 4 (split; [done|]).
  intros self' t' Hnone. rewrite Encoding_disconnect_spec, disconnect_spec.
  destruct Hnone as [->| ->]; [done|]. by destruct (_connected self').
Qed.

(** C9: a publish to an identity without an entry does the same whatever
    quality of service and retain flag it is given; when a birth accepts
    the metrics it returns after publishing one message, the birth of
    these metrics on the identity's birth topic, sent with [AT_MOST_ONCE]
    and with the session's [_retain_birth_certificates] as retain flag;
    whatever the metrics, every message it publishes is such a birth
    message; no method call changes the flag; a publish to an identity
    with an entry sends its data message with the caller's quality of
    service and retain flag. *)
Theorem C9_birth_ignores_qos_and_retain
    (self : DataOpsNode) (t : nat) (topic : Topic) (metrics : list Metric)
    (q q' : QoS) (r r' : bool) :
  dict_get (group_id topic, edge_node_id topic) (_published_metrics self) = None →
  publish clock topic metrics q r self t = publish clock topic metrics q' r' self t
  ∧ (Forall birth_accepts metrics →
     ∃ b, Birth_new (clock t) 0 metrics = Ok b
          ∧ res (publish clock topic metrics q r self t) = Ok tt
          ∧ calls (publish clock topic metrics q r self t)
            = [client_publish
                 {| topic := node_topic NBIRTH (group_id topic) (edge_node_id topic);
                    payload := PBase (BNBirth b);
                    qos := AT_MOST_ONCE;
                    retain := _retain_birth_certificates self |}
                 (Some true)])
  ∧ Forall (λ m, is_birth_message m = true ∧ qos m = AT_MOST_ONCE
                 ∧ retain m = _retain_birth_certificates self)
      (published (calls (publish clock topic metrics q r self t)))
  ∧ (∀ c t', _retain_birth_certificates (self_after (run clock c self t'))
             = _retain_birth_certificates self)
  ∧ (∀ known t' snapshot,
       dict_get (group_id topic, edge_node_id topic) (_published_metrics known)
         = Some snapshot →
       ∃ m, published (calls (publish clock topic metrics q r known t')) = [m]
            ∧ is_data_message m = true ∧ qos m = q ∧ retain m = r).
Proof.
  intros Hnew. rewrite !(publish_new _ _ _ _ _ _ Hnew). cbn zeta.
  split; [reflexivity|]. split; [|split; [|split]].
  - intros Hacc. destruct (Birth_new_accepts (clock t) 0 metrics Hacc) as [b Hb].
    exists b. rewrite Hb. done.
  - destruct (Birth_new (clock t) 0 metrics) as [b|e]; cbn [calls].
    + repeat constructor.
    + constructor.
  - intros c t'. apply run_retain_birth_certificates.
  - intros known t' snapshot Hknown. rewrite (publish_known _ _ _ _ _ _ _ Hknown).
    eexists. split; [reflexivity|]. repeat split.
Qed.

(** C10: every message [disconnect] publishes carries a node-death
    payload whose [bd_seq_metric] is [None], and encoding that payload
    raises [AttributeError], whatever the metric codec, the codec switch
    and [include_dtypes]. *)
Theorem C10_session_deaths_cannot_be_encoded
    (self : DataOpsNode) (t : nat) (m : Message) :
  m ∈ published (calls (disconnect clock self t)) →
  ∃ d, payload m = PNDeath d
       ∧ bd_seq_metric d = None
       ∧ (∀ to_pb include_dtypes,
            NDeath_encode to_pb d include_dtypes = Raise AttributeError)
       ∧ (∀ to_pb use_json_payload include_dtypes,
            Payload_encode to_pb use_json_payload (payload m) include_dtypes
            = Raise AttributeError).
Proof.
  rewrite disconnect_spec. intros Hin.
  assert (m ∈ published (death_calls clock t (dict_keys (_published_metrics self))))
    as Hin'.
  { destruct (_connected self); cbn [calls] in Hin.
    - by rewrite published_death_calls in Hin.
    - by apply elem_of_nil in Hin. }
  pose proof (death_calls_deaths t (dict_keys (_published_metrics self))) as Hall.
  rewrite Forall_forall in Hall. destruct (Hall m Hin') as (_ & ts & Hpayload).
  eexists. split; [exact Hpayload|]. split; [reflexivity|]. split.
  - reflexivity.
  - intros to_pb use_json_payload include_dtypes. rewrite Hpayload. reflexivity.
Qed.

End SessionProperties.

Lemma C5_publish_birth_then_data_witness :
  (∃ b, Birth_new (tick_clock 0%nat) 0 [metric_a] = Ok b
        ∧ calls (publish tick_clock topic_n1 [metric_a] AT_LEAST_ONCE false
                   session_new 0%nat)
          = [client_publish
               (birth_message session_new (Some "G"%string, Some "n1"%string) b)
               (Some true)])
  ∧ calls (publish tick_clock topic_n1 [metric_b] AT_LEAST_ONCE false
             session_one 1%nat)
    = [client_publish (data_message topic_n1 1 [metric_b] AT_LEAST_ONCE false)
         (Some true)].
Proof.
  split.
  - destruct (C5_publish_birth_then_data tick_clock session_new 0%nat topic_n1
                [metric_a] AT_LEAST_ONCE false) as (Hnew & _ & _).
    destruct Hnew as (b & Hb & _ & Hcalls & _).
    + reflexivity.
    + repeat constructor; [by eexists | discriminate].
    + exists b. split; [exact Hb | exact Hcalls].
  - destruct (C5_publish_birth_then_data tick_clock session_one 1%nat topic_n1
                [metric_b] AT_LEAST_ONCE false) as (_ & Hknown & _).
    destruct (Hknown (snapshot_of [metric_a]) eq_refl) as (_ & Hcalls & _).
    exact Hcalls.
Defined.

(** C5 as stated fails for metrics a birth rejects: the first publish to a
    new identity stores the snapshot, raises [ValueError] and publishes
    nothing; the next publish to that identity then sends a data message. *)
Lemma C5_counterexample_rejected_birth :
  dict_get (group_id topic_n1, edge_node_id topic_n1) (_published_metrics session_new)
    = None
  ∧ res (publish tick_clock topic_n1 [metric_no_datatype] AT_MOST_ONCE false
           session_new 0%nat) = Raise ValueError
  ∧ calls (publish tick_clock topic_n1 [metric_no_datatype] AT_MOST_ONCE false
             session_new 0%nat) = []
  ∧ dict_get (group_id topic_n1, edge_node_id topic_n1)
      (_published_metrics session_rejected)
    = Some (snapshot_of [metric_no_datatype])
  ∧ calls (publish tick_clock topic_n1 [metric_a] AT_MOST_ONCE false
             session_rejected 1%nat)
    = [client_publish (data_message topic_n1 1 [metric_a] AT_MOST_ONCE false)
         (Some true)].
Proof. repeat split. Qed.

Lemma C6_disconnect_raises_at_first_death_witness :
  res (Encoding.disconnect tick_clock int_to_pb false session_two 5%nat)
  = Raise AttributeError
  ∧ calls (Encoding.disconnect tick_clock int_to_pb false session_two 5%nat) = []
  ∧ _connected
      (self_after (Encoding.disconnect tick_clock int_to_pb false session_two 5%nat))
    = true.
Proof.
  destruct (C6_disconnect_raises_at_first_death tick_clock int_to_pb false
              session_two 5%nat)
    as (Hres & Hcalls & _ & Hconn & _).
  - reflexivity.
  - discriminate.
  - split; [exact Hres|]. split; [exact Hcalls | exact Hconn].
Defined.

Lemma C9_birth_ignores_qos_and_retain_witness :
  publish tick_clock topic_n1 [metric_a] AT_LEAST_ONCE false session_new 0%nat
  = publish tick_clock topic_n1 [metric_a] EXACTLY_ONCE true session_new 0%nat
  ∧ ∃ b, Birth_new 0 0 [metric_a] = Ok b
         ∧ calls (publish tick_clock topic_n1 [metric_a] AT_LEAST_ONCE false
                    session_new 0%nat)
           = [client_publish
                {| topic := node_topic NBIRTH (Some "G"%string) (Some "n1"%string);
                   payload := PBase (BNBirth b);
                   qos := AT_MOST_ONCE; retain := true |}
                (Some true)].
Proof.
  destruct (C9_birth_ignores_qos_and_retain tick_clock session_new 0%nat topic_n1
              [metric_a] AT_LEAST_ONCE EXACTLY_ONCE false true eq_refl)
    as (Hsame & Hbirth & _).
  split; [exact Hsame|].
  destruct Hbirth as (b & Hb & _ & Hcalls).
  - apply Forall_singleton. split; [by eexists | discriminate].
  - exists b. split; [exact Hb | exact Hcalls].
Defined.

Lemma C10_session_deaths_cannot_be_encoded_witness :
  ∃ d, payload (death_message 5 (Some "G"%string, Some "n1"%string)) = PNDeath d
       ∧ bd_seq_metric d = None
       ∧ NDeath_encode int_to_pb d true = Raise AttributeError.
Proof.
  destruct (C10_session_deaths_cannot_be_encoded tick_clock session_two 5%nat
              (death_message 5 (Some "G"%string, Some "n1"%string)))
    as (d & Hpayload & Hnone & Hencode & _).
  - apply list_elem_of_here.
  - exists d. split; [exact Hpayload|]. split; [exact Hnone | apply Hencode].
Defined.

(** ** Topic hierarchy *)

Lemma py_split_not_nil sep s : py_split sep s ≠ [].
Proof.
  destruct s as [|c rest]; simpl; [discriminate|].
  destruct (decide (c = sep)); [discriminate|].
  destruct (py_split sep rest); discriminate.
Qed.

(** Joining the segments with the separator gives the string back. *)
Lemma py_join_split sep s : py_join sep (py_split sep s) = s.
Proof.
  induction s as [|c rest IH]; [reflexivity|].
  cbn [py_split]. destruct (decide (c = sep)) as [->|Hne].
  - pose proof (py_split_not_nil sep rest) as Hnil.
    destruct (py_split sep rest) as [|w ws]; [done|].
    cbn [py_join] in *. by rewrite IH.
  - pose proof (py_split_not_nil sep rest) as Hnil.
    destruct (py_split sep rest) as [|w ws]; [done|].
    destruct ws as [|w' ws]; cbn [py_join] in *.
    + by rewrite IH.
    + cbn. by rewrite <- IH.
Qed.

(** No segment contains the separator. *)
Lemma py_split_no_sep sep s :
  Forall (λ w, count_char sep w = 0%nat) (py_split sep s).
Proof.
  induction s as [|c rest IH]; cbn [py_split].
  - repeat constructor.
  - destruct (decide (c = sep)) as [->|Hne].
    + constructor; [reflexivity | exact IH].
    + destruct (py_split sep rest) as [|w ws]; [repeat constructor|].
      * cbn. by rewrite decide_False.
      * inversion IH as [|? ? Hw Hws]; subst. constructor; [|exact Hws].
        cbn. by rewrite decide_False.
Qed.

(** There is one segment more than there are separators. *)
Lemma py_split_length sep s :
  length (py_split sep s) = S (count_char sep s).
Proof.
  induction s as [|c rest IH]; [reflexivity|].
  cbn [py_split count_char]. destruct (decide (c = sep)) as [->|Hne].
  - cbn [length]. by rewrite IH.
  - pose proof (py_split_not_nil sep rest) as Hnil.
    destruct (py_split sep rest) as [|w ws]; [done|].
    cbn [length] in *. by rewrite IH.
Qed.

(** C8, as the code has it: for a message whose topic has the namespace
    [spBv1.0] and a group id, and a metric with a name, the derived path is
    the group id split on ":", followed by the node id and, when present,
    the device id, or by the host id, followed by the metric name split on
    ":"; when a node id and a host id are both present the derivation
    raises, and so it does on any other namespace. *)
Theorem C8_topic_hierarchy (message : Message) (metric : Metric) :
  (namespace (topic message) ≠ SPB_NAMESPACE →
     get_topic_hierarchy_from_spb_parris_encoding message metric = Raise ValueError)
  ∧ (is_Some (edge_node_id (topic message)) →
     is_Some (sparkplug_host_id (topic message)) →
     raises (get_topic_hierarchy_from_spb_parris_encoding message metric))
  ∧ (∀ group name,
     namespace (topic message) = SPB_NAMESPACE →
     group_id (topic message) = Some group →
     metric_name metric = Some name →
     get_topic_hierarchy_from_spb_parris_encoding message metric
     = (middle ← identity_segments (topic message);
        Ok (py_split SUB_DELIMITER group ++ middle ++ py_split SUB_DELIMITER name))).
Proof.
  unfold get_topic_hierarchy_from_spb_parris_encoding.
  split; [|split].
  - intros Hns. by rewrite bool_decide_eq_false_2.
  - intros [node Hnode] [host Hhost]. rewrite Hnode, Hhost.
    destruct (bool_decide _); [|by eexists].
    destruct (group_id (topic message)); by eexists.
  - intros group name Hns Hgroup Hname.
    rewrite bool_decide_eq_true_2 by exact Hns. rewrite Hgroup, Hname.
    unfold identity_segments.
    destruct (edge_node_id (topic message)) as [node|],
             (sparkplug_host_id (topic message)) as [host|],
             (device_id (topic message)) as [device|];
      unfold_result; cbn [negb]; try reflexivity;
      by rewrite <- ?app_assoc.
Qed.

Lemma C8_topic_hierarchy_witness :
  get_topic_hierarchy_from_spb_parris_encoding (plant_message "spBv1.0") metric_temp
  = Ok ["Plant"; "Area"; "Line1"; "Temp"; "Sensor1"]%string.
Proof.
  destruct (C8_topic_hierarchy (plant_message "spBv1.0") metric_temp)
    as (_ & _ & Hpath).
  exact (Hpath "Plant:Area"%string "Temp:Sensor1"%string eq_refl eq_refl eq_refl).
Defined.

(** C8 as stated fails outside the namespace [spBv1.0]: the same group,
    node and metric on another namespace yield no path but [ValueError]. *)
Lemma C8_counterexample_namespace :
  get_topic_hierarchy_from_spb_parris_encoding (plant_message "spAv1.0") metric_temp
  = Raise ValueError.
Proof. reflexivity. Qed.

(** The derivation needs a group id and a metric name to split: a host
    state topic without group id, or a metric without name, make it raise
    [AttributeError]. *)
Lemma topic_hierarchy_needs_group_and_name :
  get_topic_hierarchy_from_spb_parris_encoding state_message metric_temp
  = Raise AttributeError
  ∧ get_topic_hierarchy_from_spb_parris_encoding (plant_message "spBv1.0")
      metric_no_name
    = Raise AttributeError.
Proof. split; reflexivity. Qed.

(** * Further properties *)

(** ** The lookup tables of a birth *)

Lemma last_filter_cons {A} (P : A → Prop) `{∀ x, Decision (P x)} (x : A) (l : list A) :
  last (filter P (x :: l)) =
  match last (filter P l) with
  | Some y => Some y
  | None => if decide (P x) then Some x else None
  end.
Proof.
  rewrite filter_cons. destruct (decide (P x)).
  - apply last_cons.
  - by destruct (last (filter P l)).
Qed.

Lemma last_filter_None {A} (P : A → Prop) `{∀ x, Decision (P x)} (l : list A) :
  last (filter P l) = None ↔ Forall (λ x, ¬ P x) l.
Proof.
  induction l as [|x l IH]; [by split|].
  rewrite last_filter_cons, Forall_cons, <- IH.
  destruct (last (filter P l)) as [y|].
  - split; [discriminate | intros [_ ?]; discriminate].
  - destruct (decide (P x)); split; try done. by intros [? _].
Qed.

Lemma post_init_loop_maps metrics names dtypes names' dtypes' :
  post_init_loop metrics (names, dtypes) = Ok (names', dtypes') →
  (∀ alias, names' !! alias =
            match last_with_alias alias metrics with
            | Some m => metric_name m
            | None => names !! alias
            end)
  ∧ (∀ name, dtypes' !! name =
             match last_named (Some name) metrics with
             | Some m => Some (metric_datatype m)
             | None => dtypes !! name
             end).
Proof.
  unfold last_with_alias, last_named. revert names dtypes.
  induction metrics as [|metric rest IH]; intros names dtypes H.
  - injection H as <- <-. split; reflexivity.
  - cbn [post_init_loop] in H. apply bind_Ok_inv in H as ([names1 dtypes1] & Hstep & H).
    apply IH in H as [Hnames Hdtypes]. unfold post_init_step in Hstep.
    destruct (metric_name metric) as [name|] eqn:Hname; [|discriminate].
    destruct (decide (metric_datatype metric = UNKNOWN)); [discriminate|].
    injection Hstep as <- <-. cbn [fst snd] in *. split.
    + intros alias. rewrite Hnames, last_filter_cons.
      destruct (last (filter _ rest)); [reflexivity|].
      destruct (decide (metric_alias metric = Some alias)) as [Ha|Ha].
      * rewrite Ha, Hname. apply lookup_insert_eq.
      * destruct (metric_alias metric) as [alias'|]; [|reflexivity].
        apply lookup_insert_ne. congruence.
    + intros name'. rewrite Hdtypes, last_filter_cons.
      destruct (last (filter _ rest)); [reflexivity|].
      destruct (decide (metric_name metric = Some name')) as [Hn|Hn].
      * assert (name = name') as -> by congruence. apply lookup_insert_eq.
      * apply lookup_insert_ne. congruence.
Qed.

(** X1: in a constructed birth [get_name] answers with the name of the
    last metric that carries the alias and [get_dtype] with the datatype of
    the last metric that bears the name; each raises [KeyError] exactly
    when no metric carries the alias, or bears the name. *)
Theorem birth_tables_last_wins (timestamp seq : Z) (metrics : list Metric) (b : Birth) :
  Birth_new timestamp seq metrics = Ok b →
  (∀ alias, get_name b alias =
            match last_with_alias alias metrics ≫= metric_name with
            | Some name => Ok name
            | None => Raise KeyError
            end)
  ∧ (∀ name, get_dtype b name =
             match last_named (Some name) metrics with
             | Some m => Ok (metric_datatype m)
             | None => Raise KeyError
             end)
  ∧ (∀ alias, get_name b alias = Raise KeyError
              ↔ Forall (λ m, metric_alias m ≠ Some alias) metrics)
  ∧ (∀ name, get_dtype b name = Raise KeyError
             ↔ Forall (λ m, metric_name m ≠ Some name) metrics).
Proof.
  intros Hnew. pose proof (Birth_new_Ok_accepts _ _ _ _ Hnew) as Hacc.
  unfold Birth_new in Hnew. apply bind_Ok_inv in Hnew as ([names dtypes] & Hloop & Hb).
  injection Hb as <-. apply post_init_loop_maps in Hloop as [Hnames Hdtypes].
  assert (∀ alias, get_name
            {| birth_timestamp := timestamp; birth_seq := seq;
               birth_metrics := metrics; names_mapping := names;
               dtypes_mapping := dtypes |} alias =
          match last_with_alias alias metrics ≫= metric_name with
          | Some name => Ok name
          | None => Raise KeyError
          end) as Hget_name.
  { intros alias. unfold get_name. cbn [names_mapping]. rewrite Hnames, lookup_empty.
    destruct (last_with_alias alias metrics) as [m|]; reflexivity. }
  assert (∀ name, get_dtype
            {| birth_timestamp := timestamp; birth_seq := seq;
               birth_metrics := metrics; names_mapping := names;
               dtypes_mapping := dtypes |} name =
          match last_named (Some name) metrics with
          | Some m => Ok (metric_datatype m)
          | None => Raise KeyError
          end) as Hget_dtype.
  { intros name. unfold get_dtype. cbn [dtypes_mapping]. rewrite Hdtypes, lookup_empty.
    destruct (last_named (Some name) metrics) as [m|]; reflexivity. }
  split; [exact Hget_name|]. split; [exact Hget_dtype|]. split.
  - intros alias. rewrite Hget_name. unfold last_with_alias.
    rewrite <- (last_filter_None (λ m, metric_alias m = Some alias) metrics).
    destruct (last (filter _ metrics)) as [m|] eqn:Hlast; [|done].
    apply last_Some_elem_of, list_elem_of_filter in Hlast as [_ Hin].
    rewrite Forall_forall in Hacc. destruct (Hacc m Hin) as [[name Hname] _].
    cbn. rewrite Hname. done.
  - intros name. rewrite Hget_dtype. unfold last_named.
    rewrite <- (last_filter_None (λ m, metric_name m = Some name) metrics).
    destruct (last (filter _ metrics)) as [m|]; done.
Qed.

Lemma birth_tables_last_wins_witness :
  ∃ b, Birth_new 0 0 [metric_a; metric_c_alias_1; metric_a_again] = Ok b
       ∧ get_name b 1 = Ok "c"%string
       ∧ get_dtype b "a"%string = Ok INT64
       ∧ get_name b 99 = Raise KeyError.
Proof.
  destruct (Birth_new 0 0 [metric_a; metric_c_alias_1; metric_a_again])
    as [b|e] eqn:Hb; [|discriminate Hb].
  exists b. split; [reflexivity|].
  destruct (birth_tables_last_wins 0 0 [metric_a; metric_c_alias_1; metric_a_again]
              b Hb) as (Hname & Hdtype & _ & _).
  split; [apply Hname|]. split; [apply Hdtype | apply Hname].
Defined.

(** ** Round trips *)

(** X2: under the binary codec a birth, data or command payload whose
    timestamp and sequence number fit their [uint64] fields is decoded to
    itself when the metric codec, asked for datatypes as the payload's
    [encode] asks it, carries each of the payload's metrics without loss; a
    birth always asks for datatypes. *)
Theorem binary_round_trip
    (to_pb : bool → Metric → result PbMetric) (from_pb : PbMetric → result Metric)
    (p : BasePayload) (include_dtypes : bool) :
  payload_wf p →
  payload_fits p →
  Forall (λ m, to_pb (if is_birth p then true else include_dtypes) m ≫= from_pb = Ok m)
    (base_metrics p) →
  encode to_pb false p include_dtypes
    ≫= (λ raw, decode to_pb from_pb false (class_of p) raw None)
  = Ok p.
Proof. intros Hwf _. by apply base_round_trip_binary. Qed.

Lemma binary_round_trip_witness :
  encode int_to_pb false data_x true
    ≫= (λ raw, decode int_to_pb int_from_pb false NData raw None)
  = Ok data_x.
Proof.
  apply (binary_round_trip int_to_pb int_from_pb data_x true).
  - exact I.
  - split; [unfold uint64; cbn; lia|].
    intros seq [= <-]. unfold uint64. lia.
  - apply Forall_cons. split; [reflexivity | apply Forall_nil_2].
Defined.

(** X3: under the text codec a birth, data or command payload is decoded
    to itself when each of its metrics has no value, a scalar value under a
    scalar datatype, or a byte string of bytes 0..255 under [BYTES], and is
    not flagged null when it has a value. *)
Theorem text_round_trip
    (to_pb : bool → Metric → result PbMetric) (from_pb : PbMetric → result Metric)
    (p : BasePayload) (include_dtypes : bool) :
  payload_wf p →
  Forall json_plain (base_metrics p) →
  encode to_pb true p include_dtypes
    ≫= (λ raw, decode to_pb from_pb true (class_of p) raw None)
  = Ok p.
Proof. apply base_round_trip_text. Qed.

Lemma text_round_trip_witness :
  encode int_to_pb true cmd_plain false
    ≫= (λ raw, decode int_to_pb int_from_pb true DCmd raw None)
  = Ok cmd_plain.
Proof.
  apply (text_round_trip int_to_pb int_from_pb cmd_plain false).
  - exact I.
  - repeat apply Forall_cons_2; try apply Forall_nil_2; try exact I.
    + split; reflexivity.
    + split; [reflexivity|]. split; [reflexivity|].
      repeat apply Forall_cons_2; try apply Forall_nil_2; lia.
Defined.

(** X4: a device death whose timestamp and sequence number fit their
    [uint64] fields is decoded to itself: [DDeath.decode] reads back the
    timestamp and the sequence number [DDeath.encode] wrote.  A device
    death one of whose two integers does not fit is not encoded:
    [DDeath.encode] raises [ValueError]. *)
Theorem ddeath_round_trip (x : DDeath) (include_dtypes : bool) :
  (uint64 (ddeath_timestamp x) →
   uint64 (ddeath_seq x) →
   DDeath_encode x include_dtypes ≫= DDeath_decode = Ok x)
  ∧ (¬ (uint64 (ddeath_timestamp x) ∧ uint64 (ddeath_seq x)) →
     DDeath_encode x include_dtypes = Raise ValueError).
Proof. split; [apply DDeath_round_trip | apply DDeath_encode_raises]. Qed.

Lemma ddeath_round_trip_witness :
  DDeath_encode ddeath_5_3 false ≫= DDeath_decode = Ok ddeath_5_3
  ∧ DDeath_encode ddeath_5_minus_1 false = Raise ValueError.
Proof.
  split.
  - apply (ddeath_round_trip ddeath_5_3 false); unfold uint64; cbn; lia.
  - apply (ddeath_round_trip ddeath_5_minus_1 false).
    unfold uint64. cbn. lia.
Defined.

(** X5: a state payload is decoded to itself, and [State.decode] raises
    [KeyError] exactly on a record without the [timestamp] or without the
    [online] key; the other keys of the record are ignored. *)
Theorem state_round_trip_and_keys (x : State) (include_dtypes : bool) :
  State_encode x include_dtypes ≫= State_decode = Ok x
  ∧ (∀ raw, raises (State_decode raw)
            ↔ jp_timestamp raw = None ∨ jp_online raw = None)
  ∧ (∀ raw, raises (State_decode raw) → State_decode raw = Raise KeyError)
  ∧ (∀ raw raw', jp_timestamp raw = jp_timestamp raw' →
                 jp_online raw = jp_online raw' →
                 State_decode raw = State_decode raw').
Proof.
  split; [apply State_round_trip|]. split; [|split].
  - intros raw. unfold State_decode, raises.
    destruct (jp_timestamp raw), (jp_online raw); split;
      try (intros [e He]; discriminate He); try (intros [?|?]; discriminate);
      eauto.
  - intros raw [e He]. unfold State_decode in *.
    destruct (jp_timestamp raw), (jp_online raw); try discriminate; reflexivity.
  - intros raw raw' Hts Ho. unfold State_decode. by rewrite Hts, Ho.
Qed.

(** ** Decoding edge cases *)

(** X6: a decode that returns gives a payload of the requested class with
    the timestamp and the sequence number of the record, so a record is
    decoded as a command only without sequence number and as a birth or
    data payload only with one; no sequence number is made up.  A record
    without metrics whose sequence number does not fit the class raises
    [TypeError]. *)
Theorem decode_keeps_class_and_seq
    (to_pb : bool → Metric → result PbMetric) (from_pb : PbMetric → result Metric)
    (cls : BaseClass) (birth : option Birth) :
  (∀ (raw : PbPayload) p,
     decode to_pb from_pb false cls raw birth = Ok p →
     class_of p = cls ∧ base_timestamp p = pb_timestamp_get raw
     ∧ base_seq p = pbp_seq raw
     ∧ (pbp_seq raw = None ↔ is_cmd_class cls = true))
  ∧ (∀ (raw : JsonPayload) p,
     decode to_pb from_pb true cls raw birth = Ok p →
     class_of p = cls ∧ jp_timestamp raw = Some (base_timestamp p)
     ∧ base_seq p = jp_seq raw
     ∧ (jp_seq raw = None ↔ is_cmd_class cls = true))
  ∧ (∀ raw : PbPayload,
     pbp_metrics raw = [] →
     (pbp_seq raw = None ↔ is_cmd_class cls = false) →
     decode to_pb from_pb false cls raw birth = Raise TypeError).
Proof.
  assert (∀ p, (base_seq p = None ↔ is_cmd_class (class_of p) = true)) as Hseq.
  { by intros [b|b|d|d|c|c]. }
  split; [|split].
  - intros raw p H. unfold decode, _decode_protobuf in H.
    apply bind_Ok_inv in H as (pbs & _ & H).
    apply bind_Ok_inv in H as (ms & _ & H).
    apply construct_Ok_inv in H as (Hcls & Hts & Hs & _). cbn in Hts, Hs.
    repeat split; try done; rewrite <- Hs, <- Hcls; apply Hseq.
  - intros raw p H. unfold decode, payload_from_json in H.
    destruct (jp_timestamp raw) as [ts|]; [|discriminate].
    assert (class_of p = cls ∧ base_timestamp p = ts ∧ base_seq p = jp_seq raw)
      as (Hcls & Hts & Hs).
    { destruct (jp_metrics raw) as [jms|].
      - apply bind_Ok_inv in H as (ms & _ & H).
        apply bind_Ok_inv in H as (ms' & _ & H).
        by apply construct_Ok_inv in H as (? & ? & ? & _).
      - destruct (jp_bd_seq_metric raw) as [jm|].
        + apply bind_Ok_inv in H as (m & _ & H).
          by apply construct_Ok_inv in H as (? & ? & ? & _).
        + by apply construct_Ok_inv in H as (? & ? & ? & _). }
    repeat split; try congruence; rewrite <- Hs, <- Hcls; apply Hseq.
  - intros raw Hms Hmis. unfold decode, _decode_protobuf. rewrite Hms.
    destruct (if is_birth_class cls then None else birth) as [b|];
      simpl_result; rewrite ?mapM_nil; simpl_result;
      unfold construct; cbn;
      destruct cls, (pbp_seq raw) as [seq|]; cbn in *;
        try reflexivity; exfalso; destruct Hmis as [H1 H2];
        first [by specialize (H1 eq_refl) | by specialize (H2 eq_refl)].
Qed.

Lemma decode_keeps_class_and_seq_witness :
  decode int_to_pb int_from_pb false NCmd
    {| pbp_timestamp := Some 1; pbp_seq := Some 0; pbp_metrics := [] |} None
  = Raise TypeError
  ∧ decode int_to_pb int_from_pb false NData
      {| pbp_timestamp := Some 1; pbp_seq := None; pbp_metrics := [] |} None
    = Raise TypeError.
Proof.
  split.
  - apply (proj2 (proj2 (decode_keeps_class_and_seq int_to_pb int_from_pb NCmd None)));
      [reflexivity|]. split; discriminate.
  - apply (proj2 (proj2 (decode_keeps_class_and_seq int_to_pb int_from_pb NData None)));
      [reflexivity|]. split; reflexivity.
Defined.

(** ** The text codec and datatypes *)

Lemma metric_to_json_include_dtype :
  ∀ (m : Metric) (include_dtype include_dtype' : bool),
    metric_to_json m include_dtype = metric_to_json m include_dtype'.
Proof.
  fix IH 1. intros [name alias ts dt h tr nl md pr v] inc inc'.
  destruct v as [[s|bs|d|version template_ref is_definition metrics parameters|d|t|j]|];
    try reflexivity.
  assert (mapM (λ m, metric_to_json m inc) metrics
          = mapM (λ m, metric_to_json m inc') metrics) as Hmap.
  { induction metrics as [|m metrics IHms]; [reflexivity|].
    rewrite !mapM_cons, (IH m inc inc'), IHms. reflexivity. }
  cbn [metric_to_json]. destruct nl; [reflexivity|].
  destruct dt; try reflexivity. cbn. rewrite Hmap. reflexivity.
Qed.

Lemma metric_to_json_datatype m include_dtype j :
  metric_to_json m include_dtype = Ok j →
  jm_datatype j =
  if decide (metric_datatype m = UNKNOWN) then None
  else Some (DataType_value (metric_datatype m)).
Proof.
  destruct m as [name alias ts dt h tr nl md pr v]. cbn [metric_to_json].
  intros H. apply bind_Ok_inv in H as (jv & _ & H). by injection H as <-.
Qed.

(** X7: the text codec takes no notice of [include_dtypes]: a payload is
    encoded to the same record whether or not datatypes are asked for, and
    every metric is written with its datatype unless the datatype is
    [UNKNOWN]. *)
Theorem text_encode_ignores_include_dtypes
    (to_pb : bool → Metric → result PbMetric) (p : BasePayload)
    (include_dtypes include_dtypes' : bool) :
  encode to_pb true p include_dtypes = encode to_pb true p include_dtypes'
  ∧ (∀ raw jms, encode to_pb true p include_dtypes = Ok raw →
       jp_metrics raw = Some jms →
       Forall2 (λ m j, jm_datatype j =
                       if decide (metric_datatype m = UNKNOWN) then None
                       else Some (DataType_value (metric_datatype m)))
         (base_metrics p) jms).
Proof.
  unfold encode, payload_to_json.
  assert (∀ inc inc', mapM (λ m, metric_to_json m inc) (base_metrics p)
                      = mapM (λ m, metric_to_json m inc') (base_metrics p)) as Hmap.
  { intros inc inc'. induction (base_metrics p) as [|m ms IHms]; [reflexivity|].
    by rewrite !mapM_cons, (metric_to_json_include_dtype m inc inc'), IHms. }
  split.
  - by rewrite (Hmap _ (if is_birth p then true else include_dtypes')).
  - intros raw jms H Hjms. apply bind_Ok_inv in H as (jms' & Hjms' & H).
    injection H as <-. cbn in Hjms. injection Hjms as <-.
    apply mapM_Ok in Hjms'. eapply Forall2_impl; [exact Hjms'|].
    intros m j. apply metric_to_json_datatype.
Qed.

Section TextMetrics.

Variable to_pb : bool → Metric → result PbMetric.

Lemma metric_from_json_fields d m :
  metric_from_json to_pb d = Ok m →
  metric_name m = jm_name d ∧ metric_alias m = jm_alias d
  ∧ metric_timestamp m = jm_timestamp d
  ∧ metric_is_null m = truthy (jm_is_null d)
  ∧ match jm_datatype d with
    | Some n => DataType_of_value n = Ok (metric_datatype m)
    | None => metric_datatype m = UNKNOWN
    end.
Proof.
  destruct d as [name alias ts jdt h tr nl md pr jv]. cbn [metric_from_json].
  intros H. apply bind_Ok_inv in H as (dt & Hdt & H).
  apply bind_Ok_inv in H as (v & _ & H). injection H as <-.
  cbn. repeat split. destruct jdt as [n|].
  - apply fmap_Ok_inv in Hdt as (dt' & Hdt' & ->). exact Hdt'.
  - by injection Hdt as <-.
Qed.

(** X8: [metric_from_json] reads the value of a record only under a stated
    datatype: a decoded metric has a value only if the record has the
    [value] key, is not flagged null and states a datatype other than
    [UNKNOWN]; a record without the [datatype] key is always decoded, to a
    metric of datatype [UNKNOWN] without value, whatever its [value] key
    holds. *)
Theorem text_value_needs_datatype (d : JsonMetric) :
  (∀ m, metric_from_json to_pb d = Ok m →
        is_Some (metric_value m) →
        is_Some (jm_value d) ∧ truthy (jm_is_null d) = false
        ∧ ∃ n, jm_datatype d = Some n
               ∧ DataType_of_value n = Ok (metric_datatype m)
               ∧ metric_datatype m ≠ UNKNOWN)
  ∧ (jm_datatype d = None →
     metric_from_json to_pb d
     = Ok (mkMetric (jm_name d) (jm_alias d) (jm_timestamp d) UNKNOWN
             (truthy (jm_is_historical d)) (truthy (jm_is_transient d))
             (truthy (jm_is_null d)) (jm_metadata d) (jm_properties d) None)).
Proof.
  destruct d as [name alias ts jdt h tr nl md pr jv]. split.
  - intros m H Hv. cbn [metric_from_json] in H.
    apply bind_Ok_inv in H as (dt & Hdt & H).
    apply bind_Ok_inv in H as (v & Hvalue & H). injection H as <-.
    cbn in Hv |- *. destruct Hv as [v' ->].
    destruct jv as [j|]; [|discriminate].
    destruct nl as [[|]|]; cbn in Hvalue |- *; try discriminate;
      (destruct dt as [dt|]; [|discriminate]);
      (destruct jdt as [n|]; [|discriminate]);
      apply fmap_Ok_inv in Hdt as (dt' & Hdt' & Heq);
      injection Heq as Heq; subst dt';
      (split; [by eexists|]); (split; [reflexivity|]);
      exists n; (split; [reflexivity|]); (split; [exact Hdt'|]);
      intros Hu; cbn in Hu; subst dt; discriminate.
  - cbn [jm_datatype]. intros ->. by destruct jv, nl as [[|]|].
Qed.

(** X9: a metric whose datatype is [UNKNOWN], or that is flagged null,
    passes through the text codec without its value: encoding it and
    decoding the result returns the metric with the value taken away. *)
Theorem text_round_trip_drops_untyped_value (m : Metric) (include_dtype : bool) :
  metric_datatype m = UNKNOWN ∨ metric_is_null m = true →
  metric_to_json m include_dtype ≫= metric_from_json to_pb
  = Ok (metric_drop_value m).
Proof.
  destruct m as [name alias ts dt h tr nl md pr v]. cbn [metric_datatype metric_is_null].
  intros [->| ->].
  - destruct v as [v|]; cbn; destruct nl, h, tr; reflexivity.
  - destruct v as [v|]; cbn; destruct dt, h, tr; reflexivity.
Qed.

End TextMetrics.

Lemma text_value_needs_datatype_witness :
  metric_from_json int_to_pb
    (mkJsonMetric None (Some 1) None None None None None None None
       (Some (JScalar (SInt 5))))
  = Ok (mkMetric None (Some 1) None UNKNOWN false false false None None None).
Proof.
  apply (proj2 (text_value_needs_datatype int_to_pb
                  (mkJsonMetric None (Some 1) None None None None None None None
                     (Some (JScalar (SInt 5)))))).
  reflexivity.
Defined.

Lemma text_round_trip_drops_untyped_value_witness :
  metric_to_json metric_unknown_valued true ≫= metric_from_json int_to_pb
  = Ok (mkMetric None (Some 1) None UNKNOWN false false false None None None).
Proof.
  apply (text_round_trip_drops_untyped_value int_to_pb metric_unknown_valued true).
  left. reflexivity.
Defined.

(** ** Births are self-contained *)

(** X10: decoding a birth never consults the birth it is given.  A
    birth record in which some metric comes without name or without
    datatype is refused, with [ValueError] when the record has a sequence
    number and with [TypeError] when it has none: under the binary codec
    when [from_pb] has read the metrics and one of them has no name or the
    datatype [UNKNOWN]; under the text codec when the record has the
    [timestamp] key, [metric_from_json] has read the metrics and one of
    the metric objects has no [name] or no [datatype] key. *)
Theorem birth_decode_is_self_contained
    (to_pb : bool → Metric → result PbMetric) (from_pb : PbMetric → result Metric)
    (cls : BaseClass) (birth : option Birth) :
  is_birth_class cls = true →
  (∀ use_json_payload raw,
     decode to_pb from_pb use_json_payload cls raw birth
     = decode to_pb from_pb use_json_payload cls raw None)
  ∧ (∀ (raw : PbPayload) ms,
     mapM from_pb (pbp_metrics raw) = Ok ms →
     Exists birth_rejects ms →
     decode to_pb from_pb false cls raw birth
     = Raise (match pbp_seq raw with Some _ => ValueError | None => TypeError end))
  ∧ (∀ (raw : JsonPayload) timestamp jms ms,
     jp_timestamp raw = Some timestamp →
     jp_metrics raw = Some jms →
     mapM (metric_from_json to_pb) jms = Ok ms →
     Exists (λ j, jm_name j = None ∨ jm_datatype j = None) jms →
     decode to_pb from_pb true cls raw birth
     = Raise (match jp_seq raw with Some _ => ValueError | None => TypeError end)).
Proof.
  intros Hcls. split; [|split].
  - intros [|] raw; unfold decode; by rewrite Hcls.
  - intros raw ms Hms Hrej. unfold decode, _decode_protobuf.
    rewrite Hcls. simpl_result. rewrite Hms. simpl_result.
    unfold construct. cbn.
    destruct (pbp_seq raw) as [seq|]; [|by destruct cls].
    destruct cls; try discriminate;
      by rewrite (Birth_new_rejects _ _ _ Hrej).
  - intros raw timestamp jms ms Hts Hjms Hms Hrej.
    unfold decode, payload_from_json. rewrite Hcls, Hts, Hjms, Hms.
    simpl_result. unfold construct. cbn.
    destruct (jp_seq raw) as [seq|]; [|by destruct cls].
    assert (Exists birth_rejects ms) as Hrej'.
    { apply mapM_Ok in Hms. clear -Hms Hrej.
      induction Hms as [|j m jms ms Hjm _ IH]; [inversion Hrej|].
      apply metric_from_json_fields in Hjm as (Hn & _ & _ & _ & Hd).
      inversion Hrej as [? ? [Hname|Hdt]|]; subst.
      - apply Exists_cons_hd. left. congruence.
      - apply Exists_cons_hd. right. by rewrite Hdt in Hd.
      - apply Exists_cons_tl. by apply IH. }
    destruct cls; try discriminate;
      by rewrite (Birth_new_rejects _ _ _ Hrej').
Qed.

Lemma birth_decode_is_self_contained_witness :
  decode int_to_pb int_from_pb true NBirth json_alias_1_value_5 (Some birth_a)
  = Raise ValueError
  ∧ decode int_to_pb int_from_pb true NBirth json_birth_without_seq (Some birth_a)
    = Raise TypeError
  ∧ decode int_to_pb int_from_pb false NBirth pb_birth_without_name (Some birth_a)
    = Raise ValueError.
Proof.
  destruct (birth_decode_is_self_contained int_to_pb int_from_pb NBirth
              (Some birth_a) eq_refl) as (_ & Hbinary & Htext).
  split; [|split].
  - eapply (Htext json_alias_1_value_5); [reflexivity | reflexivity | reflexivity |].
    apply Exists_cons_hd. left. reflexivity.
  - eapply (Htext json_birth_without_seq); [reflexivity | reflexivity | reflexivity |].
    apply Exists_cons_hd. left. reflexivity.
  - eapply (Hbinary pb_birth_without_name); [reflexivity|].
    apply Exists_cons_hd. left. reflexivity.
Defined.

(** ** The shape of a topic hierarchy *)

Lemma identity_segments_length t mid :
  identity_segments t = Ok mid → (length mid ≤ 2)%nat.
Proof.
  unfold identity_segments.
  destruct (edge_node_id t), (sparkplug_host_id t), (device_id t);
    intros [= <-]; cbn; lia.
Qed.

(** X11: whenever the derivation returns a path, the topic is in the
    namespace [spBv1.0] with a group id and the metric has a name; the
    path is the segments of the group id, at most two identity segments,
    and the segments of the metric name.  It has one segment more per ":"
    in the group id and in the metric name, so at least two, and joining
    the leading segments with ":" gives the group id back, joining the
    trailing ones the metric name. *)
Theorem topic_hierarchy_shape (message : Message) (metric : Metric) (path : list string) :
  get_topic_hierarchy_from_spb_parris_encoding message metric = Ok path →
  ∃ group name mid,
    namespace (topic message) = SPB_NAMESPACE
    ∧ group_id (topic message) = Some group
    ∧ metric_name metric = Some name
    ∧ identity_segments (topic message) = Ok mid
    ∧ (length mid ≤ 2)%nat
    ∧ path = py_split SUB_DELIMITER group ++ mid ++ py_split SUB_DELIMITER name
    ∧ length path
      = (2 + count_char SUB_DELIMITER group + length mid
           + count_char SUB_DELIMITER name)%nat
    ∧ py_join SUB_DELIMITER (take (S (count_char SUB_DELIMITER group)) path) = group
    ∧ py_join SUB_DELIMITER
        (drop (S (count_char SUB_DELIMITER group) + length mid) path) = name.
Proof.
  intros H. unfold get_topic_hierarchy_from_spb_parris_encoding in H.
  destruct (decide (namespace (topic message) = SPB_NAMESPACE)) as [Hns|Hns].
  2: { rewrite bool_decide_eq_false_2 in H by exact Hns. discriminate. }
  rewrite bool_decide_eq_true_2 in H by exact Hns. cbn [negb] in H.
  destruct (group_id (topic message)) as [group|] eqn:Hgroup; [|discriminate].
  apply bind_Ok_inv in H as (front & Hfront & H).
  destruct (metric_name metric) as [name|] eqn:Hname; [|discriminate].
  injection H as <-.
  assert (∃ mid, identity_segments (topic message) = Ok mid
                 ∧ front = py_split SUB_DELIMITER group ++ mid) as (mid & Hmid & ->).
  { unfold identity_segments.
    destruct (edge_node_id (topic message)), (sparkplug_host_id (topic message));
      try discriminate; injection Hfront as <-; eexists; split; try reflexivity.
    by rewrite app_nil_r. }
  exists group, name, mid.
  pose proof (py_split_length SUB_DELIMITER group) as Hlg.
  pose proof (py_split_length SUB_DELIMITER name) as Hln.
  repeat split; try done.
  - by eapply identity_segments_length.
  - by rewrite <- app_assoc.
  - rewrite !length_app, Hlg, Hln. lia.
  - rewrite <- Hlg, <- app_assoc, take_app_length. apply py_join_split.
  - rewrite <- Hlg, <- length_app, drop_app_length. apply py_join_split.
Qed.

Lemma topic_hierarchy_shape_witness :
  ∃ group name mid,
    group_id (topic (plant_message "spBv1.0")) = Some group
    ∧ metric_name metric_temp = Some name
    ∧ ["Plant"; "Area"; "Line1"; "Temp"; "Sensor1"]%string
      = py_split SUB_DELIMITER group ++ mid ++ py_split SUB_DELIMITER name.
Proof.
  destruct (topic_hierarchy_shape (plant_message "spBv1.0") metric_temp
              ["Plant"; "Area"; "Line1"; "Temp"; "Sensor1"]%string eq_refl)
    as (group & name & mid & _ & Hgroup & Hname & _ & _ & Hpath & _).
  exists group, name, mid. split; [exact Hgroup|]. split; [exact Hname | exact Hpath].
Defined.

(** ** Invariants of the node session *)

Section SessionInvariants.

Variable clock : nat → Z.

Lemma dict_get_Some_elem_of {K V} `{EqDecision K} (k : K) (v : V) (d : dict K V) :
  dict_get k d = Some v → (k, v) ∈ d.
Proof.
  induction d as [|[k' v'] d IH]; [discriminate|]. cbn [dict_get].
  destruct (decide (k = k')) as [->|Hne].
  - intros [= ->]. apply list_elem_of_here.
  - intros H. apply list_elem_of_further. by apply IH.
Qed.

Lemma dict_set_Forall {K V} `{EqDecision K} (P : K * V → Prop) (k : K) (v : V)
    (d : dict K V) :
  Forall P d → P (k, v) → Forall P (dict_set k v d).
Proof.
  intros Hd Hkv. induction Hd as [|[k' v'] d Hx Hd IH]; cbn [dict_set].
  - by apply Forall_singleton.
  - destruct (decide (k = k')); by apply Forall_cons.
Qed.

(** What a method call does to the snapshots: nothing, or it assigns to
    one identity the merge of the published metrics into what the identity
    held before. *)
Lemma run_published_metrics_merge c self t :
  _published_metrics (self_after (run clock c self t)) = _published_metrics self
  ∨ ∃ key metrics,
      _published_metrics (self_after (run clock c self t))
      = dict_set key
          (merge_into (default [] (dict_get key (_published_metrics self))) metrics)
          (_published_metrics self).
Proof.
  destruct (run_published_metrics clock c self t) as [Hsame|_]; [by left|].
  destruct c as [host port keepalive bind_address blocking| | |topic q|topic
                |topic metrics q r|group_id edge_node_id];
    try (left; reflexivity).
  - left. cbn [run]. unfold on_connect_callback, method_bind, update_self, get_self.
    cbn [res self_after time_after calls].
    rewrite for_each_self_after; [reflexivity|].
    intros item s t'. apply _publish_nbirth_self_after.
  - left. cbn [run]. rewrite disconnect_spec. by destruct (_connected self).
  - right. exists (group_id topic, edge_node_id topic), metrics. cbn [run].
    destruct (dict_get (group_id topic, edge_node_id topic) (_published_metrics self))
      as [snapshot|] eqn:Hget.
    + rewrite (publish_known _ _ _ _ _ _ _ _ Hget).
      cbn [self_after set_published_metrics _published_metrics].
      do 2 f_equal. symmetry. etrans; [|exact (f_equal (default []) Hget)]. done.
    + rewrite (publish_new _ _ _ _ _ _ _ Hget). cbn zeta.
      destruct (Birth_new (clock t) 0 metrics);
        cbn [self_after set_published_metrics _published_metrics];
        do 2 f_equal; symmetry;
        (etrans; [|exact (f_equal (default []) Hget)]); done.
  - left. cbn [run]. unfold rebirth, method_bind, get_self.
    cbn [res self_after time_after calls].
    destruct (dict_get _ _) as [[|item rest]|]; try reflexivity.
    by rewrite _publish_nbirth_self_after.
Qed.

(** X12: no method call removes or reorders an identity or changes the
    retain flag of the births: however a session evolves, the identities
    it knew stay, in their order, at the front of the identities it
    knows. *)
Theorem identities_are_never_removed (self self' : DataOpsNode) :
  evolves clock self self' →
  dict_keys (_published_metrics self) `prefix_of` dict_keys (_published_metrics self')
  ∧ (∀ key, is_Some (dict_get key (_published_metrics self)) →
            is_Some (dict_get key (_published_metrics self')))
  ∧ _retain_birth_certificates self' = _retain_birth_certificates self.
Proof.
  assert (∀ s s', dict_keys (_published_metrics s)
                    `prefix_of` dict_keys (_published_metrics s') →
                  ∀ key, is_Some (dict_get key (_published_metrics s)) →
                         is_Some (dict_get key (_published_metrics s'))) as Hkeys.
  { intros s s' [ks Hks] key [v Hv]. apply dict_get_Some_elem in Hv.
    destruct (dict_get key (_published_metrics s')) eqn:Hget; [by eexists|].
    apply dict_get_None in Hget. rewrite Hks in Hget.
    exfalso. apply Hget. apply elem_of_app. by left. }
  intros Hev.
  assert (dict_keys (_published_metrics self)
            `prefix_of` dict_keys (_published_metrics self')
          ∧ _retain_birth_certificates self' = _retain_birth_certificates self)
    as [Hprefix Hflag].
  { induction Hev as [self|self self' t c _ [IHp IHf]]; [done|]. split.
    - etrans; [exact IHp|].
      destruct (run_published_metrics clock c self' t) as [->|(key & s & ->)];
        [done|].
      rewrite dict_keys_set. destruct (decide _); [done|]. by apply prefix_app_r.
    - by rewrite run_retain_birth_certificates. }
  split; [exact Hprefix|]. split; [|exact Hflag]. by apply Hkeys.
Qed.

Lemma merge_into_wf snapshot metrics :
  snapshot_wf snapshot → snapshot_wf (merge_into snapshot metrics).
Proof.
  revert snapshot. induction metrics as [|m metrics IH]; intros snapshot Hwf; [done|].
  rewrite merge_into_cons. apply IH. destruct Hwf as [Hnd Hnames]. split.
  - by apply dict_keys_set_NoDup.
  - by apply dict_set_Forall.
Qed.

(** X13: in every session that exists, the identities are distinct and
    every snapshot files each metric once, under the metric's own name; so
    the metrics of a snapshot, which a reconnect or a rebirth publishes as
    a birth, have distinct names. *)
Theorem snapshots_are_filed_by_name (self : DataOpsNode) :
  reachable clock self →
  NoDup (dict_keys (_published_metrics self))
  ∧ Forall (λ item, snapshot_wf item.2) (_published_metrics self)
  ∧ Forall (λ item, NoDup (metric_name <$> dict_values item.2))
      (_published_metrics self).
Proof.
  intros Hreach.
  assert (Forall (λ item : Identity * dict (option string) Metric, snapshot_wf item.2)
            (_published_metrics self)) as Hwf.
  { induction Hreach as [node_id flag|self t c _ IH]; [constructor|].
    destruct (run_published_metrics_merge c self t) as [->|(key & ms & ->)]; [done|].
    apply dict_set_Forall; [exact IH|]. cbn [snd]. apply merge_into_wf.
    destruct (dict_get key (_published_metrics self)) as [old|] eqn:Hget.
    - apply dict_get_Some_elem_of in Hget. rewrite Forall_forall in IH.
      apply (IH _ Hget).
    - split; [apply NoDup_nil_2 | constructor]. }
  split; [by apply (reachable_NoDup clock)|]. split; [exact Hwf|].
  eapply Forall_impl; [exact Hwf|]. intros [key snapshot] [Hnd Hnames].
  cbn [snd] in *. unfold dict_values, dict_keys in *.
  replace (metric_name <$> snapshot.*2) with (snapshot.*1); [exact Hnd|].
  clear Hnd. induction Hnames as [|[n m] snapshot Hnm _ IH]; [done|].
  csimpl in *. by rewrite Hnm, IH.
Qed.

(** ** Announcing births from the snapshots *)

(** The loop of [on_connect_callback] over entries whose snapshots a birth
    accepts publishes one birth per entry, each with its own clock reading,
    and then goes on with the entries that follow. *)
Lemma for_each_nbirth_good
    (good tail : dict Identity (dict (option string) Metric)) self t t' :
  Forall (λ item, Forall birth_accepts (dict_values item.2)) good →
  t' = (length good + t)%nat →
  ∃ cs,
    res (for_each (good ++ tail)
           (λ item, _publish_nbirth clock item.1.1 item.1.2 (dict_values item.2))
           self t)
    = res (for_each tail
             (λ item, _publish_nbirth clock item.1.1 item.1.2 (dict_values item.2))
             self t')
    ∧ time_after (for_each (good ++ tail)
           (λ item, _publish_nbirth clock item.1.1 item.1.2 (dict_values item.2))
           self t)
      = time_after (for_each tail
             (λ item, _publish_nbirth clock item.1.1 item.1.2 (dict_values item.2))
             self t')
    ∧ calls (for_each (good ++ tail)
           (λ item, _publish_nbirth clock item.1.1 item.1.2 (dict_values item.2))
           self t)
      = cs ++ calls (for_each tail
             (λ item, _publish_nbirth clock item.1.1 item.1.2 (dict_values item.2))
             self t')
    ∧ length cs = length good
    ∧ identity_of <$> published cs = dict_keys good
    ∧ ∀ i item, good !! i = Some item →
        ∃ b, Birth_new (clock (t + i)%nat) 0 (dict_values item.2) = Ok b
             ∧ cs !! i = Some (client_publish (birth_message self item.1 b)
                                 (Some true)).
Proof.
  intros Hgood. revert t.
  induction Hgood as [|[[g n] snapshot] good Hitem _ IH]; intros t Ht'.
  - subst t'. exists []. repeat split; done.
  - destruct (IH (S t)) as (cs & Hres & Htime & Hcalls & Hlen & Hids & Hcs).
    { rewrite Ht', Nat.add_succ_r. reflexivity. }
    destruct (Birth_new_accepts (clock t) 0 (dict_values snapshot) Hitem) as [b Hb].
    exists (client_publish (birth_message self (g, n) b) (Some true) :: cs).
    cbn [app for_each]. unfold method_bind.
    rewrite _publish_nbirth_spec. cbn [fst snd]. rewrite Hb.
    cbn [res self_after time_after calls].
    rewrite Hres, Htime, Hcalls. repeat split; try done.
    + cbn [length]. by rewrite Hlen.
    + unfold published in *. csimpl. by rewrite Hids.
    + intros [|i] item Hi.
      * injection Hi as <-. exists b. rewrite Nat.add_0_r. done.
      * destruct (Hcs i item Hi) as (b' & Hb' & Hlook). exists b'.
        replace (t + S i)%nat with (S t + i)%nat by lia. done.
Qed.

(** X14: when every snapshot holds only metrics a birth accepts,
    [on_connect_callback] returns, marks the session connected, keeps the
    snapshots, and publishes exactly one birth per known identity, in the
    order of the identities, built from the identity's snapshot at a clock
    reading of its own, with datatypes asked for. *)
Theorem on_connect_reannounces_every_identity (self : DataOpsNode) (t : nat) :
  Forall (λ item, Forall birth_accepts (dict_values item.2)) (_published_metrics self) →
  res (on_connect_callback clock self t) = Ok tt
  ∧ self_after (on_connect_callback clock self t) = set_connected true self
  ∧ time_after (on_connect_callback clock self t)
    = (length (_published_metrics self) + t)%nat
  ∧ length (calls (on_connect_callback clock self t))
    = length (_published_metrics self)
  ∧ identity_of <$> published (calls (on_connect_callback clock self t))
    = dict_keys (_published_metrics self)
  ∧ ∀ i item, _published_metrics self !! i = Some item →
      ∃ b, Birth_new (clock (t + i)%nat) 0 (dict_values item.2) = Ok b
           ∧ calls (on_connect_callback clock self t) !! i
             = Some (client_publish (birth_message self item.1 b) (Some true)).
Proof.
  intros Hgood.
  destruct (for_each_nbirth_good (_published_metrics self) [] (set_connected true self)
              t _ Hgood eq_refl) as (cs & Hres & Htime & Hcalls & Hlen & Hids & Hcs).
  rewrite app_nil_r in Hres, Htime, Hcalls. cbn [for_each method_ret res time_after
    calls] in Hres, Htime, Hcalls. rewrite app_nil_r in Hcalls.
  unfold on_connect_callback, method_bind, update_self, get_self.
  cbn [res self_after time_after calls _published_metrics set_connected app].
  rewrite Hres, Htime, Hcalls.
  rewrite for_each_self_after
    by (intros item s t'; apply _publish_nbirth_self_after).
  repeat split; try done.
Qed.

(** X15: a snapshot that holds a metric no birth accepts stops the
    announcement: when the snapshots before it are in order,
    [on_connect_callback] publishes the births of the identities before
    it, raises [ValueError] and publishes nothing for it or for the
    identities after it, while the session is left marked connected. *)
Theorem on_connect_stops_at_rejected_snapshot
    (self : DataOpsNode) (t : nat)
    (good rest : dict Identity (dict (option string) Metric))
    (bad : Identity * dict (option string) Metric) :
  _published_metrics self = good ++ bad :: rest →
  Forall (λ item, Forall birth_accepts (dict_values item.2)) good →
  Exists birth_rejects (dict_values bad.2) →
  res (on_connect_callback clock self t) = Raise ValueError
  ∧ _connected (self_after (on_connect_callback clock self t)) = true
  ∧ identity_of <$> published (calls (on_connect_callback clock self t))
    = dict_keys good
  ∧ length (calls (on_connect_callback clock self t)) = length good.
Proof.
  intros Hpm Hgood Hbad.
  destruct (for_each_nbirth_good good (bad :: rest) (set_connected true self)
              t _ Hgood eq_refl) as (cs & Hres & _ & Hcalls & Hlen & Hids & _).
  destruct bad as [[g n] snapshot]. cbn [for_each] in Hres, Hcalls.
  unfold method_bind in Hres, Hcalls. rewrite _publish_nbirth_spec in Hres, Hcalls.
  cbn [fst snd] in Hres, Hcalls, Hbad.
  rewrite (Birth_new_rejects _ _ _ Hbad) in Hres, Hcalls.
  cbn [res calls] in Hres, Hcalls. rewrite app_nil_r in Hcalls.
  unfold on_connect_callback, method_bind, update_self, get_self.
  cbn [res self_after time_after calls _published_metrics set_connected app].
  rewrite Hpm, Hres, Hcalls.
  rewrite for_each_self_after
    by (intros item s t'; apply _publish_nbirth_self_after).
  repeat split; try done.
Qed.

(** ** Rebirth *)

Lemma dict_set_fresh {K V} `{EqDecision K} (k : K) (v : V) (d : dict K V) :
  k ∉ dict_keys d → dict_set k v d = d ++ [(k, v)].
Proof.
  unfold dict_keys. induction d as [|[k' v'] d IH]; csimpl; [done|].
  rewrite not_elem_of_cons. intros [Hne Hout].
  rewrite decide_False by exact Hne. by rewrite IH.
Qed.

Lemma merge_into_fresh snapshot metrics :
  NoDup (dict_keys snapshot ++ (metric_name <$> metrics)) →
  merge_into snapshot metrics = snapshot ++ ((λ m, (metric_name m, m)) <$> metrics).
Proof.
  revert snapshot. induction metrics as [|m metrics IH]; intros snapshot Hnd.
  - by rewrite app_nil_r.
  - rewrite merge_into_cons. csimpl in *.
    apply NoDup_app in Hnd as (Hs & Hdisj & Hms).
    apply NoDup_cons in Hms as [Hm Hms].
    assert (metric_name m ∉ dict_keys snapshot) as Hfresh.
    { intros Hin. apply (Hdisj _ Hin). apply list_elem_of_here. }
    rewrite dict_set_fresh by exact Hfresh. rewrite IH.
    + by rewrite <- app_assoc.
    + unfold dict_keys in *. rewrite fmap_app. csimpl. rewrite <- app_assoc. csimpl.
      apply NoDup_app. split; [exact Hs|]. split.
      * intros x Hx Hx'. apply elem_of_cons in Hx' as [->|Hx']; [done|].
        apply (Hdisj _ Hx). by apply list_elem_of_further.
      * by apply NoDup_cons.
Qed.

(** The snapshot of metrics with distinct names holds the metrics as they
    were given, in their order. *)
Lemma snapshot_of_values metrics :
  NoDup (metric_name <$> metrics) → dict_values (snapshot_of metrics) = metrics.
Proof.
  intros Hnd. change (snapshot_of metrics) with (merge_into [] metrics).
  rewrite merge_into_fresh by exact Hnd. unfold dict_values. csimpl.
  rewrite <- list_fmap_compose. apply list_fmap_id.
Qed.

(** X16: [rebirth] does not fail on an identity the session does not know
    or whose snapshot is empty: it returns, publishes nothing and changes
    nothing; for an identity with a snapshot a birth accepts it publishes
    one birth of the snapshot's metrics and changes nothing in the
    session, connected or not. *)
Theorem rebirth_of_known_and_unknown
    (self : DataOpsNode) (t : nat) (group_id edge_node_id : option string) :
  (dict_get (group_id, edge_node_id) (_published_metrics self) = None
   ∨ dict_get (group_id, edge_node_id) (_published_metrics self) = Some [] →
   res (rebirth clock group_id edge_node_id self t) = Ok tt
   ∧ calls (rebirth clock group_id edge_node_id self t) = []
   ∧ self_after (rebirth clock group_id edge_node_id self t) = self
   ∧ time_after (rebirth clock group_id edge_node_id self t) = t)
  ∧ (∀ snapshot,
     dict_get (group_id, edge_node_id) (_published_metrics self) = Some snapshot →
     snapshot ≠ [] →
     Forall birth_accepts (dict_values snapshot) →
     ∃ b, Birth_new (clock t) 0 (dict_values snapshot) = Ok b
          ∧ res (rebirth clock group_id edge_node_id self t) = Ok tt
          ∧ calls (rebirth clock group_id edge_node_id self t)
            = [client_publish (birth_message self (group_id, edge_node_id) b)
                 (Some true)]
          ∧ self_after (rebirth clock group_id edge_node_id self t) = self).
Proof.
  unfold rebirth, method_bind, get_self. cbn [res self_after time_after calls].
  split.
  - intros [-> | ->]; done.
  - intros snapshot -> Hne Hacc. destruct snapshot as [|item rest]; [done|].
    destruct (Birth_new_accepts (clock t) 0 (dict_values (item :: rest)) Hacc)
      as [b Hb].
    exists b. rewrite _publish_nbirth_spec, Hb. done.
Qed.

(** X17: a rebirth after the first publish to an identity announces what
    the first publish announced: when the published metrics are accepted
    by a birth and have distinct names, the rebirth publishes a birth with
    the same metrics and the same lookup tables, under the same topic,
    quality of service and retain flag, at its own clock reading. *)
Theorem rebirth_repeats_first_birth
    (self : DataOpsNode) (t t' : nat) (topic : Topic) (metrics : list Metric)
    (q : QoS) (r : bool) :
  dict_get (group_id topic, edge_node_id topic) (_published_metrics self) = None →
  metrics ≠ [] →
  Forall birth_accepts metrics →
  NoDup (metric_name <$> metrics) →
  ∃ b b',
    calls (publish clock topic metrics q r self t)
    = [client_publish
         (birth_message self (group_id topic, edge_node_id topic) b) (Some true)]
    ∧ calls (rebirth clock (group_id topic) (edge_node_id topic)
               (self_after (publish clock topic metrics q r self t)) t')
      = [client_publish
           (birth_message self (group_id topic, edge_node_id topic) b') (Some true)]
    ∧ birth_metrics b = metrics ∧ birth_metrics b' = metrics
    ∧ names_mapping b' = names_mapping b
    ∧ dtypes_mapping b' = dtypes_mapping b
    ∧ birth_timestamp b = clock t ∧ birth_timestamp b' = clock t'.
Proof.
  intros Hnew Hne Hacc Hnd.
  destruct (Birth_new_accepts (clock t) 0 metrics Hacc) as [b Hb].
  destruct (Birth_new_accepts (clock t') 0 metrics Hacc) as [b' Hb'].
  exists b, b'. rewrite (publish_new _ _ _ _ _ _ _ Hnew). cbn zeta. rewrite Hb.
  cbn [calls self_after].
  unfold rebirth, method_bind, get_self. cbn [res self_after time_after calls].
  cbn [_published_metrics set_published_metrics].
  rewrite dict_get_set_eq.
  pose proof (snapshot_of_values metrics Hnd) as Hvalues.
  destruct (snapshot_of metrics) as [|item rest] eqn:Hsnap.
  { cbn in Hvalues. congruence. }
  rewrite _publish_nbirth_spec, Hvalues, Hb'.
  cbn [calls _retain_birth_certificates set_published_metrics birth_message].
  unfold Birth_new in Hb, Hb'.
  destruct (post_init_loop metrics (∅, ∅)) as [maps|]; [|discriminate].
  injection Hb as <-. injection Hb' as <-. repeat split; done.
Qed.

(** ** What the session publishes *)

Lemma for_each_calls_Forall {A} (P : ClientCall → Prop) (l : list A)
    (body : A → Method unit) self t :
  (∀ x s t', Forall P (calls (body x s t'))) →
  Forall P (calls (for_each l body self t)).
Proof.
  intros Hbody. revert self t. induction l as [|x l IH]; intros self t.
  - constructor.
  - cbn [for_each]. unfold method_bind.
    destruct (res (body x self t)); cbn [calls]; [|apply Hbody].
    apply Forall_app. split; [apply Hbody | apply IH].
Qed.

Lemma _publish_nbirth_publication group_id edge_node_id metrics self t :
  Forall session_publication
    (calls (_publish_nbirth clock group_id edge_node_id metrics self t)).
Proof.
  rewrite _publish_nbirth_spec.
  destruct (Birth_new (clock t) 0 metrics) as [b|e] eqn:Hb; [|constructor].
  apply Birth_new_Ok_inv in Hb as (_ & Hseq & _).
  apply Forall_singleton. cbn. done.
Qed.

(** X18: whatever method is called, everything the session hands to the
    transport's [publish] is a node birth or node data payload with
    sequence number 0 and datatypes asked for, or a node death without
    metric: the session never counts sequence numbers and never publishes
    a device or state payload. *)
Theorem session_publishes_seq_zero (c : Call) (self : DataOpsNode) (t : nat) :
  Forall session_publication (calls (run clock c self t)).
Proof.
  destruct c as [host port keepalive bind_address blocking| | |topic q|topic
                |topic metrics q r|group_id edge_node_id];
    cbn [run].
  - by apply Forall_singleton.
  - unfold on_connect_callback, method_bind, update_self, get_self.
    cbn [res self_after time_after calls app].
    apply for_each_calls_Forall. intros item s t'. apply _publish_nbirth_publication.
  - rewrite disconnect_spec.
    assert (∀ t' ids, Forall session_publication (death_calls clock t' ids)) as Hd.
    { intros t' ids. revert t'. induction ids as [|id ids IH]; intros t'.
      - constructor.
      - cbn [death_calls]. apply Forall_cons. split; [done | apply IH]. }
    destruct (_connected self); cbn [calls].
    + apply Forall_app. split; [apply Hd | by apply Forall_singleton].
    + by apply Forall_singleton.
  - by apply Forall_singleton.
  - by apply Forall_singleton.
  - destruct (dict_get (group_id topic, edge_node_id topic) (_published_metrics self))
      as [snapshot|] eqn:Hget.
    + rewrite (publish_known _ _ _ _ _ _ _ _ Hget). by apply Forall_singleton.
    + rewrite (publish_new _ _ _ _ _ _ _ Hget). cbn zeta.
      destruct (Birth_new (clock t) 0 metrics) as [b|e] eqn:Hb; [|constructor].
      apply Birth_new_Ok_inv in Hb as (_ & Hseq & _).
      apply Forall_singleton. cbn. done.
  - unfold rebirth, method_bind, get_self. cbn [res self_after time_after calls].
    destruct (dict_get _ _) as [[|item rest]|]; try constructor.
    apply _publish_nbirth_publication.
Qed.

End SessionInvariants.

Lemma identities_are_never_removed_witness :
  dict_keys (_published_metrics session_one)
    `prefix_of` dict_keys (_published_metrics session_two)
  ∧ _retain_birth_certificates session_two = _retain_birth_certificates session_one.
Proof.
  assert (evolves tick_clock session_one session_two) as Hev.
  { unfold session_two. do 2 apply evolves_call. apply evolves_refl. }
  destruct (identities_are_never_removed tick_clock session_one session_two Hev)
    as (Hprefix & _ & Hretain).
  split; [exact Hprefix | exact Hretain].
Defined.

Lemma snapshots_are_filed_by_name_witness :
  NoDup (dict_keys (_published_metrics session_poisoned))
  ∧ Forall (λ item, NoDup (metric_name <$> dict_values item.2))
      (_published_metrics session_poisoned).
Proof.
  assert (reachable tick_clock session_poisoned) as Hreach.
  { unfold session_poisoned, session_new.
    repeat apply (reachable_call tick_clock _ _ (call_publish _ _ _ _)).
    apply reachable_new. }
  destruct (snapshots_are_filed_by_name tick_clock session_poisoned Hreach)
    as (Hkeys & _ & Hnames).
  split; [exact Hkeys | exact Hnames].
Defined.

Lemma on_connect_reannounces_every_identity_witness :
  res (on_connect_callback tick_clock session_two 5%nat) = Ok tt
  ∧ identity_of <$> published (calls (on_connect_callback tick_clock session_two 5%nat))
    = [(Some "G"%string, Some "n1"%string); (Some "G"%string, Some "n2"%string)].
Proof.
  assert (Forall (λ item : Identity * dict (option string) Metric,
                    Forall birth_accepts (dict_values item.2))
            (_published_metrics session_two)) as Hgood.
  { vm_compute. repeat constructor; try (by eexists); discriminate. }
  destruct (on_connect_reannounces_every_identity tick_clock session_two 5%nat Hgood)
    as (Hres & _ & _ & _ & Hids & _).
  split; [exact Hres | exact Hids].
Defined.

Lemma on_connect_stops_at_rejected_snapshot_witness :
  res (on_connect_callback tick_clock session_poisoned 3%nat) = Raise ValueError
  ∧ identity_of <$> published (calls (on_connect_callback tick_clock session_poisoned
                                        3%nat))
    = [(Some "G"%string, Some "n2"%string)].
Proof.
  destruct (on_connect_stops_at_rejected_snapshot tick_clock session_poisoned 3%nat
              [((Some "G"%string, Some "n2"%string), [(Some "b"%string, metric_b)])]
              []
              ((Some "G"%string, Some "n1"%string),
               [(Some "a"%string, metric_a); (Some "b"%string, metric_no_datatype)]))
    as (Hres & _ & Hids & _).
  - vm_compute. reflexivity.
  - repeat constructor; try (by eexists); discriminate.
  - apply Exists_cons_tl, Exists_cons_hd. right. reflexivity.
  - split; [exact Hres | exact Hids].
Defined.

Lemma rebirth_of_known_and_unknown_witness :
  calls (rebirth tick_clock (Some "G"%string) (Some "n3"%string) session_two 5%nat) = []
  ∧ ∃ b, calls (rebirth tick_clock (Some "G"%string) (Some "n1"%string) session_two
                  5%nat)
         = [client_publish
              (birth_message session_two (Some "G"%string, Some "n1"%string) b)
              (Some true)].
Proof.
  destruct (rebirth_of_known_and_unknown tick_clock session_two 5%nat
              (Some "G"%string) (Some "n3"%string)) as [Hunknown _].
  destruct (rebirth_of_known_and_unknown tick_clock session_two 5%nat
              (Some "G"%string) (Some "n1"%string)) as [_ Hknown].
  split.
  - destruct Hunknown as (_ & Hcalls & _); [left; reflexivity | exact Hcalls].
  - destruct (Hknown [(Some "a"%string, metric_a)]) as (b & _ & _ & Hcalls & _).
    + reflexivity.
    + discriminate.
    + repeat constructor; try (by eexists); discriminate.
    + exists b. exact Hcalls.
Defined.

Lemma rebirth_repeats_first_birth_witness :
  ∃ b b',
    calls (publish tick_clock topic_n1 [metric_a; metric_b] EXACTLY_ONCE false
             session_new 0%nat)
    = [client_publish
         (birth_message session_new (Some "G"%string, Some "n1"%string) b) (Some true)]
    ∧ calls (rebirth tick_clock (Some "G"%string) (Some "n1"%string)
               (self_after (publish tick_clock topic_n1 [metric_a; metric_b]
                              EXACTLY_ONCE false session_new 0%nat)) 7%nat)
      = [client_publish
           (birth_message session_new (Some "G"%string, Some "n1"%string) b')
           (Some true)]
    ∧ birth_metrics b' = birth_metrics b.
Proof.
  destruct (rebirth_repeats_first_birth tick_clock session_new 0%nat 7%nat topic_n1
              [metric_a; metric_b] EXACTLY_ONCE false)
    as (b & b' & Hfirst & Hagain & Hb & Hb' & _).
  - reflexivity.
  - discriminate.
  - repeat constructor; try (by eexists); discriminate.
  - apply NoDup_cons. split; [|apply NoDup_singleton].
    apply not_elem_of_cons. split; [discriminate | apply not_elem_of_nil].
  - exists b, b'. split; [exact Hfirst|]. split; [exact Hagain|]. congruence.
Defined.

(** ** The session and the codec *)

Section SessionCodec.

Variable clock : nat → Z.
Variable to_pb : bool → Metric → result PbMetric.
Variable from_pb : PbMetric → result Metric.

Lemma Birth_new_wf timestamp seq metrics b :
  Birth_new timestamp seq metrics = Ok b → birth_wf b.
Proof.
  intros Hb. unfold birth_wf.
  destruct (Birth_new_Ok_inv _ _ _ _ Hb) as (-> & -> & ->). exact Hb.
Qed.

Lemma _publish_nbirth_encodable group_id edge_node_id metrics self t :
  Forall session_encodable
    (calls (_publish_nbirth clock group_id edge_node_id metrics self t)).
Proof.
  rewrite _publish_nbirth_spec.
  destruct (Birth_new (clock t) 0 metrics) as [b|e] eqn:Hb; [|constructor].
  apply Forall_singleton. split; [reflexivity|]. exact (Birth_new_wf _ _ _ _ Hb).
Qed.

Lemma run_calls_encodable c self t :
  Forall session_encodable (calls (run clock c self t)).
Proof.
  destruct c as [host port keepalive bind_address blocking| | |topic q|topic
                |topic metrics q r|group_id edge_node_id];
    cbn [run].
  - by apply Forall_singleton.
  - unfold on_connect_callback, method_bind, update_self, get_self.
    cbn [res self_after time_after calls app].
    apply for_each_calls_Forall. intros item s t'. apply _publish_nbirth_encodable.
  - rewrite disconnect_spec.
    assert (∀ t' ids, Forall session_encodable (death_calls clock t' ids)) as Hd.
    { intros t' ids. revert t'. induction ids as [|id ids IH]; intros t'.
      - constructor.
      - cbn [death_calls]. apply Forall_cons. split; [done | apply IH]. }
    destruct (_connected self); cbn [calls].
    + apply Forall_app. split; [apply Hd | by apply Forall_singleton].
    + by apply Forall_singleton.
  - by apply Forall_singleton.
  - by apply Forall_singleton.
  - destruct (dict_get (group_id topic, edge_node_id topic) (_published_metrics self))
      as [snapshot|] eqn:Hget.
    + rewrite (publish_known _ _ _ _ _ _ _ _ Hget). by apply Forall_singleton.
    + rewrite (publish_new _ _ _ _ _ _ _ Hget). cbn zeta.
      destruct (Birth_new (clock t) 0 metrics) as [b|e] eqn:Hb; [|constructor].
      apply Forall_singleton. split; [reflexivity|]. exact (Birth_new_wf _ _ _ _ Hb).
  - unfold rebirth, method_bind, get_self. cbn [res self_after time_after calls].
    destruct (dict_get _ _) as [[|item rest]|]; try constructor.
    apply _publish_nbirth_encodable.
Qed.

(** X23: what the session publishes as a birth or as data can be read
    back: whatever method is called, a birth or data payload among the
    published messages is published with datatypes asked for, and when the
    metric codec, asked for datatypes, carries its metrics without loss,
    the binary codec decodes what is sent to a payload of the same class
    with the same timestamp, sequence number and metrics. *)
Theorem session_payloads_can_be_read_back
    (c : Call) (self : DataOpsNode) (t : nat)
    (message : Message) (include_dtypes : option bool) (p : BasePayload) :
  client_publish message include_dtypes ∈ calls (run clock c self t) →
  payload message = PBase p →
  Forall (λ m, to_pb true m ≫= from_pb = Ok m) (base_metrics p) →
  include_dtypes = Some true
  ∧ encode to_pb false p true
      ≫= (λ raw, decode to_pb from_pb false (class_of p) raw None)
    = Ok p.
Proof.
  intros Hin Hp Hms.
  pose proof (run_calls_encodable c self t) as Hall.
  rewrite Forall_forall in Hall. specialize (Hall _ Hin).
  cbn [session_encodable] in Hall. rewrite Hp in Hall. destruct Hall as [-> Hwf].
  split; [reflexivity|]. apply base_round_trip_binary; [exact Hwf|].
  by destruct (is_birth p).
Qed.

End SessionCodec.

Lemma session_payloads_can_be_read_back_witness :
  ∃ b,
    Birth_new 0 0 [metric_x] = Ok b
    ∧ encode int_to_pb false (BNBirth b) true
        ≫= (λ raw, decode int_to_pb int_from_pb false NBirth raw None)
      = Ok (BNBirth b).
Proof.
  destruct (Birth_new_accepts 0 0 [metric_x]) as [b Hb].
  { apply Forall_singleton. split; [by eexists | discriminate]. }
  exists b. split; [exact Hb|].
  destruct (session_payloads_can_be_read_back tick_clock int_to_pb int_from_pb
              (call_publish topic_n1 [metric_x] AT_LEAST_ONCE false) session_new 0%nat
              (birth_message session_new (Some "G"%string, Some "n1"%string) b)
              (Some true) (BNBirth b)) as [_ Hback].
  - cbn [run]. rewrite (publish_new tick_clock) by reflexivity. cbn zeta.
    change (tick_clock 0) with 0. rewrite Hb. apply list_elem_of_here.
  - reflexivity.
  - cbn [base_metrics]. destruct (Birth_new_Ok_inv _ _ _ _ Hb) as (_ & _ & ->).
    apply Forall_singleton. reflexivity.
  - exact Hback.
Defined.

(** * The host session *)

Section HostProperties.

Import Host.

Variable clock : nat → Z.

Lemma _setup_will_spec self t :
  _setup_will clock self t
  = {| res := Ok tt; self_after := self; time_after := S t;
       calls := [client_set_will
                   (state_message_of (host_id self) (clock t) false AT_MOST_ONCE)] |}.
Proof. reflexivity. Qed.

Lemma host_on_connect_callback_outcome
    (on_connect : option (Method unit)) (self : HostApplication) (t : nat) :
  on_connect_callback clock on_connect self t
  = let o := method_bind (default (method_ret tt) on_connect) (λ _, _setup_will clock)
               (set_connected true self) (S t) in
    {| res := res o; self_after := self_after o; time_after := time_after o;
       calls := client_publish
                  (state_message_of (host_id self) (clock t) true AT_LEAST_ONCE) None
                :: calls o |}.
Proof. reflexivity. Qed.

Lemma host_on_connect_callback_spec
    (on_connect : option (Method unit)) (self : HostApplication) (t : nat) :
  let o := default (method_ret tt) on_connect (set_connected true self) (S t) in
  let online :=
    client_publish (state_message_of (host_id self) (clock t) true AT_LEAST_ONCE) None in
  self_after (on_connect_callback clock on_connect self t) = self_after o
  ∧ match res o with
    | Ok _ =>
      res (on_connect_callback clock on_connect self t) = Ok tt
      ∧ calls (on_connect_callback clock on_connect self t)
        = online :: calls o
          ++ [client_set_will
                (state_message_of (host_id (self_after o)) (clock (time_after o))
                   false AT_MOST_ONCE)]
      ∧ time_after (on_connect_callback clock on_connect self t) = S (time_after o)
    | Raise e =>
      res (on_connect_callback clock on_connect self t) = Raise e
      ∧ calls (on_connect_callback clock on_connect self t) = online :: calls o
      ∧ time_after (on_connect_callback clock on_connect self t) = time_after o
    end.
Proof.
  intros o online. rewrite host_on_connect_callback_outcome.
  cbn zeta. unfold method_bind. fold o.
  destruct (res o) as [[]|e]; cbn [res self_after time_after calls]; done.
Qed.

(** X19: [on_connect_callback] marks the host connected and publishes the
    online state before the caller's hook runs, whatever the hook does;
    when there is no hook or the hook returns, the will is registered anew
    as the last call, for the host as the hook left it and at a later clock
    reading; when the hook raises, its error is the callback's, the calls
    stop with the hook's and no will is registered anew. *)
Theorem host_on_connect_runs_hook_before_will
    (on_connect : option (Method unit)) (self : HostApplication) (t : nat) :
  let o := default (method_ret tt) on_connect (set_connected true self) (S t) in
  let online :=
    client_publish (state_message_of (host_id self) (clock t) true AT_LEAST_ONCE) None in
  self_after (on_connect_callback clock on_connect self t) = self_after o
  ∧ match res o with
    | Ok _ =>
      res (on_connect_callback clock on_connect self t) = Ok tt
      ∧ calls (on_connect_callback clock on_connect self t)
        = online :: calls o
          ++ [client_set_will
                (state_message_of (host_id (self_after o)) (clock (time_after o))
                   false AT_MOST_ONCE)]
      ∧ time_after (on_connect_callback clock on_connect self t) = S (time_after o)
    | Raise e =>
      res (on_connect_callback clock on_connect self t) = Raise e
      ∧ calls (on_connect_callback clock on_connect self t) = online :: calls o
      ∧ time_after (on_connect_callback clock on_connect self t) = time_after o
    end.
Proof. apply host_on_connect_callback_spec. Qed.

Lemma host_disconnect_outcome (self : HostApplication) (t : nat) :
  disconnect clock self t
  = {| res := Ok tt; self_after := set_connected false self;
       time_after := if _connected self then S t else t;
       calls := if _connected self
                then [client_publish
                        (state_message_of (host_id self) (clock t) false AT_MOST_ONCE)
                        None;
                      client_disconnect]
                else [client_disconnect] |}.
Proof. destruct self as [h [|]]; reflexivity. Qed.

Lemma host_disconnect_spec (self : HostApplication) (t : nat) :
  res (disconnect clock self t) = Ok tt
  ∧ self_after (disconnect clock self t) = set_connected false self
  ∧ (if _connected self then
       ∃ will,
         calls (_setup_will clock self t) = [client_set_will will]
         ∧ calls (disconnect clock self t) = [client_publish will None; client_disconnect]
         ∧ time_after (disconnect clock self t) = S t
     else
       calls (disconnect clock self t) = [client_disconnect]
       ∧ time_after (disconnect clock self t) = t)
  ∧ calls (disconnect clock (self_after (disconnect clock self t))
             (time_after (disconnect clock self t)))
    = [client_disconnect].
Proof.
  rewrite !host_disconnect_outcome, _setup_will_spec.
  cbn [res self_after time_after calls set_connected _connected].
  split; [done|]. split; [done|]. split; [|done].
  destruct (_connected self); [|done].
  eexists. split; [reflexivity|]. done.
Qed.

(** X20: [disconnect] always returns, asks the transport to disconnect and
    leaves the host marked disconnected; when the host was connected it
    first publishes, without [include_dtypes], the very message
    [_setup_will] would register as the will at that clock reading; a
    disconnect that follows publishes nothing. *)
Theorem host_disconnect_publishes_its_will (self : HostApplication) (t : nat) :
  res (disconnect clock self t) = Ok tt
  ∧ self_after (disconnect clock self t) = set_connected false self
  ∧ (if _connected self then
       ∃ will,
         calls (_setup_will clock self t) = [client_set_will will]
         ∧ calls (disconnect clock self t) = [client_publish will None; client_disconnect]
         ∧ time_after (disconnect clock self t) = S t
     else
       calls (disconnect clock self t) = [client_disconnect]
       ∧ time_after (disconnect clock self t) = t)
  ∧ calls (disconnect clock (self_after (disconnect clock self t))
             (time_after (disconnect clock self t)))
    = [client_disconnect].
Proof. apply host_disconnect_spec. Qed.

(** X21: whatever method is called, the host keeps its id, and all it
    hands to the transport is its own: a will that says offline, a retained
    state message on its own state topic, or a command with datatypes asked
    for; a hook passed to [connect] has to keep to the same. *)
Theorem host_hands_over_only_its_own
    (c : Call) (self : HostApplication) (t : nat) :
  (∀ hook, c = call_on_connect (Some hook) → hook_keeps hook) →
  host_id (self_after (run clock c self t)) = host_id self
  ∧ Forall (host_call (host_id self)) (calls (run clock c self t)).
Proof.
  intros Hhook.
  destruct c as [host port keepalive bind_address blocking|on_connect| |topic q|topic
                |n ms g q r|n d ms g q r]; cbn [run].
  - split; [reflexivity|]. unfold connect, method_bind. rewrite _setup_will_spec.
    cbn [res self_after time_after calls client app].
    apply Forall_cons. split; [by eexists | by apply Forall_singleton].
  - pose proof (host_on_connect_callback_spec on_connect self t) as [Hself Hcases].
    cbn zeta in Hself, Hcases. rewrite Hself.
    assert (host_id (self_after (default (method_ret tt) on_connect
                                   (set_connected true self) (S t))) = host_id self
            ∧ Forall (host_call (host_id self))
                (calls (default (method_ret tt) on_connect
                          (set_connected true self) (S t)))) as [Hid Hcalls].
    { destruct on_connect as [hook|]; [|by split].
      apply (Hhook hook eq_refl (set_connected true self) (S t)). }
    split; [exact Hid|].
    destruct (res (default (method_ret tt) on_connect (set_connected true self) (S t)))
      as [[]|e].
    + destruct Hcases as (_ & -> & _). apply Forall_cons. split; [by split|].
      apply Forall_app. split; [exact Hcalls|]. apply Forall_singleton.
      rewrite Hid. by eexists.
    + destruct Hcases as (_ & -> & _). apply Forall_cons. by split.
  - rewrite host_disconnect_outcome. cbn [self_after calls]. split; [reflexivity|].
    destruct (_connected self).
    + apply Forall_cons. split; [by split | by apply Forall_singleton].
    + by apply Forall_singleton.
  - split; [reflexivity | by apply Forall_singleton].
  - split; [reflexivity | by apply Forall_singleton].
  - split; [reflexivity|]. apply Forall_singleton.
    cbn [host_call payload topic message_type edge_node_id device_id
         sparkplug_host_id Topic_new].
    repeat split; by eexists.
  - split; [reflexivity|]. apply Forall_singleton.
    cbn [host_call payload topic message_type edge_node_id device_id
         sparkplug_host_id Topic_new].
    repeat split; by eexists.
Qed.

(** X22: a command is sent whether the host is connected or not and
    leaves the host as it was: one message of the caller's quality of
    service and retain flag, published with datatypes asked for, whose
    payload holds the given metrics, none of them checked, at the clock's
    reading; when the metric codec, asked for datatypes, carries the
    metrics without loss, the binary codec decodes what is sent to a
    command of the same class with the same timestamp and the same
    metrics in the same order. *)
Theorem host_command_is_received_as_sent
    (to_pb : bool → Metric → result PbMetric) (from_pb : PbMetric → result Metric)
    (edge_node_id : string) (device_id : option string) (metrics : list Metric)
    (group_id : option string) (q : QoS) (r : bool)
    (self : HostApplication) (t : nat) :
  Forall (λ m, to_pb true m ≫= from_pb = Ok m) metrics →
  let o := match device_id with
           | None => send_node_command clock edge_node_id metrics group_id q r self t
           | Some device_id =>
             send_device_command clock edge_node_id device_id metrics group_id q r self t
           end in
  ∃ message p,
    res o = Ok tt ∧ self_after o = self
    ∧ calls o = [client_publish message (Some true)]
    ∧ qos message = q ∧ retain message = r
    ∧ payload message = PBase p
    ∧ class_of p = match device_id with Some _ => DCmd | None => NCmd end
    ∧ base_metrics p = metrics
    ∧ base_timestamp p = clock t
    ∧ encode to_pb false p true
        ≫= (λ raw, decode to_pb from_pb false (class_of p) raw None)
      = Ok p.
Proof.
  intros Hms o. subst o.
  destruct device_id as [device_id|].
  - eexists _, (BDCmd {| cmd_timestamp := clock t; cmd_metrics := metrics |}).
    repeat split; try done.
    by apply base_round_trip_binary.
  - eexists _, (BNCmd {| cmd_timestamp := clock t; cmd_metrics := metrics |}).
    repeat split; try done.
    by apply base_round_trip_binary.
Qed.

End HostProperties.

Lemma host_hands_over_only_its_own_witness :
  Forall (Host.host_call "host")
    (Host.calls (Host.on_connect_callback tick_clock
                   (Some (Host.hook_command tick_clock)) Host.host_new 0%nat)).
Proof.
  destruct (host_hands_over_only_its_own tick_clock
              (Host.call_on_connect (Some (Host.hook_command tick_clock)))
              Host.host_new 0%nat) as [_ Hcalls].
  - intros hook Heq. injection Heq as <-. intros self t. split; [reflexivity|].
    apply Forall_singleton. cbn. repeat split; by eexists.
  - exact Hcalls.
Defined.

Lemma host_command_is_received_as_sent_witness :
  ∃ message,
    Host.calls (Host.send_node_command tick_clock "n1" [metric_x] (Some "G"%string)
                  AT_LEAST_ONCE false Host.host_new 4%nat)
    = [Host.client_publish message (Some true)]
    ∧ payload message
      = PBase (BNCmd {| cmd_timestamp := 4; cmd_metrics := [metric_x] |}).
Proof.
  destruct (host_command_is_received_as_sent tick_clock int_to_pb int_from_pb
              "n1" None [metric_x] (Some "G"%string) AT_LEAST_ONCE false
              Host.host_new 4%nat)
    as (message & p & _ & _ & Hcalls & _).
  - apply Forall_cons. split; [reflexivity | apply Forall_nil_2].
  - exists message. split; [exact Hcalls|].
    injection Hcalls as <-. reflexivity.
Defined.
